(** * HouseBuild-Estimator: the estimation engine of [app.py]

    A shallow embedding of the room-based build estimator and the
    properties of its quantity resolver ([find_match]), its BOQ builder
    ([build_boq]), the cost rollup of the Projection page and the funding
    loop of the Affordability page.

    Number model.  Python floats are modelled by exact rationals ([Q],
    compared with [==]); the funding loop, which produces [float("inf")],
    works over [fnum], the rationals extended with the two infinities and
    NaN.  Rounding is not part of this model; the statements compare
    values, or follow the operations of a loop in the order of the loop,
    so that they can be read of the floats of the code.  Where a claim
    depends on rounding, the rollup and the upfront step are given on
    binary64 numbers as well ([float]) and evaluated there.  Python's
    [**] with a fractional exponent is not a rational function and is a
    parameter ([fpow]) of the funding loop; it stands for the runs in
    which [**] returns, an [OverflowError] being the end of the page run
    and leaving no schedule.

    Strings are byte strings (UTF-8).  [str.lower] follows the case
    tables of Unicode and is a parameter ([lower]) of the resolver and of
    the builder, of which nothing is assumed.  Python dicts are
    insertion-ordered association lists.  A data frame is the list of its
    rows; a cell of a text column can be missing. *)

From Stdlib Require Import String Ascii List Bool ZArith NArith QArith Qabs.
From Stdlib Require Import Lia Lqa Permutation Setoid Morphisms Qround Sorted.
From Stdlib Require Import PrimFloat.
Import ListNotations.

Local Open Scope string_scope.
Local Open Scope list_scope.

#[local] Set Default Proof Using "Type".
#[local] Set Warnings "-inexact-float".

(* ================================================================== *)
(** ** Python strings *)

Module PyStr.

(** [str.lower] on one ASCII character: [A-Z] is shifted to [a-z]. *)
Definition lower_ascii (c : ascii) : ascii :=
  let n := N_of_ascii c in
  if ((65 <=? n) && (n <=? 90))%N then ascii_of_N (n + 32) else c.

(** [s.lower()] for a string [s] of ASCII characters.  On other strings
    [str.lower] follows the Unicode case tables, which this function does
    not: it stands in for [str.lower] only where a statement is evaluated
    on ASCII names. *)
Fixpoint ascii_lower (s : string) : string :=
  match s with
  | EmptyString => EmptyString
  | String c s' => String (lower_ascii c) (ascii_lower s')
  end.

(** [sub in s] for two strings *)
Fixpoint contains (sub s : string) : bool :=
  if String.prefix sub s then true
  else match s with
       | EmptyString => false
       | String _ s' => contains sub s'
       end.

(** Truth value of a string: the empty string is falsy. *)
Definition truthy (s : string) : bool :=
  match s with EmptyString => false | _ => true end.

End PyStr.

(* ================================================================== *)
(** ** Python dicts with string keys

    A dict keeps its keys in the order of their first insertion; storing
    under a key that is present replaces the value in place. *)

Module PyDict.

Definition dict (V : Type) : Type := list (string * V).

Section Ops.
Context {V : Type}.

  (** [d.get(k)] *)
Fixpoint get (d : dict V) (k : string) : option V :=
    match d with
    | [] => None
    | (k', v) :: d' => if String.eqb k' k then Some v else get d' k
    end.

  (** [k in d] *)
Definition mem (d : dict V) (k : string) : bool :=
    match get d k with Some _ => true | None => false end.

  (** [d[k] = v] *)
Fixpoint set (k : string) (v : V) (d : dict V) : dict V :=
    match d with
    | [] => [(k, v)]
    | (k', v') :: d' =>
        if String.eqb k' k then (k', v) :: d' else (k', v') :: set k v d'
    end.

Definition keys (d : dict V) : list string := map fst d.

End Ops.

End PyDict.

Import PyStr.

Section Estimator.

(** [str.lower].  Python lowers every cased letter of Unicode; nothing is
    assumed of it here, so that what is proved of the resolver and of the
    builder holds for [str.lower] as it is.  The two properties that are
    needed ([lower] of the empty string, and of a label followed by
    [" (user)"]) are hypotheses of the statements that use them. *)
Variable lower : string -> string.

(* ================================================================== *)
(** ** The quantity resolver *)

Definition FIXTURE_ITEM_MAP : PyDict.dict string :=
  [ ("Internal door", "Internal door (each)");
    ("Window (each)", "Window (each)");
    ("Light fixture", "Light fixture (each)");
    ("Toilet (WC) (each)", "Toilet (WC) (each)");
    ("Wash basin (each)", "Wash basin (each)");
    ("Shower set (each)", "Shower set (each)");
    ("Kitchen sink (each)", "Kitchen sink (each)");
    ("Kitchen cabinet (per lm)", "Kitchen cabinet (per lm)");
    ("Gate (each)", "Gate (each)") ].

(** [item_lookup = {s.lower(): s for s in mat["item"].tolist()}] *)
Definition item_lookup (items : list string) : PyDict.dict string :=
  fold_left (fun d s => PyDict.set (lower s) s d) items [].

(** The loop [for k in item_lookup: if key.lower() in k: return item_lookup[k]] *)
Fixpoint first_containing (lk : string) (d : PyDict.dict string) : option string :=
  match d with
  | [] => None
  | (k, v) :: d' => if contains lk k then Some v else first_containing lk d'
  end.

(** [find_match(key)], a closure over [item_lookup] *)
Definition find_match (lookup : PyDict.dict string) (key : string) : option string :=
  let mapped := PyDict.get FIXTURE_ITEM_MAP key in
  let by_alias :=
    match mapped with
    | Some m => if truthy m then PyDict.get lookup (lower m) else None
    | None => None
    end in
  match by_alias with
  | Some v => Some v
  | None =>
      match PyDict.get lookup (lower key) with
      | Some v => Some v
      | None => first_containing (lower key) lookup
      end
  end.

(** The resolver on a catalog given by its item names. *)
Definition resolve (catalog : list string) (label : string) : option string :=
  find_match (item_lookup catalog) label.

(** The priority order in the words of the specification: alias match,
    then exact match, then the first catalog item containing the label,
    all three case-insensitive. *)
Definition resolve_spec (catalog : list string) (label : string) : option string :=
  let by_alias :=
    match PyDict.get FIXTURE_ITEM_MAP label with
    | Some a => find (fun c => String.eqb (lower c) (lower a)) catalog
    | None => None
    end in
  match by_alias with
  | Some c => Some c
  | None =>
      match find (fun c => String.eqb (lower c) (lower label)) catalog with
      | Some c => Some c
      | None => find (fun c => contains (lower label) (lower c)) catalog
      end
  end.

(** The last catalog item that has the same lower-cased name as [c]. *)
Definition last_same_name (catalog : list string) (c : string) : string :=
  match find (fun c' => String.eqb (lower c') (lower c)) (rev catalog) with
  | Some c' => c'
  | None => c
  end.

(* ================================================================== *)
(** ** Numbers *)

Local Open Scope Q_scope.

(** [x < y] on floats, as a test *)
Definition Qlt_b (x y : Q) : bool := negb (Qle_bool y x).

(** Python's [min(a, b)]: [a] unless [b < a]. *)
Definition py_min (a b : Q) : Q := if Qlt_b b a then b else a.

(** Python's [max(a, b)]: [a] unless [b > a]. *)
Definition py_max (a b : Q) : Q := if Qlt_b a b then b else a.

(** [d.get(k, default)] *)
Definition get_default {V : Type} (d : PyDict.dict V) (k : string) (default : V) : V :=
  match PyDict.get d k with Some v => v | None => default end.

(* ================================================================== *)
(** ** Catalog model *)

(** A cell of a numeric column of the materials table: a number, or a
    value that [pd.to_numeric(..., errors="coerce")] turns into NaN
    (text that is not a number, a missing value). *)
Inductive cell : Type :=
  | CNum (q : Q)
  | CBad.

(** [pd.to_numeric(c, errors="coerce").fillna(0.0)], cell by cell *)
Definition to_numeric_fillna (c : cell) : Q :=
  match c with
  | CNum q => q
  | CBad => 0
  end.

(** A row of [materials_df]; the data frame is the list of its rows.
    The unit and the phase of a row are text, or missing ([None]: an
    empty cell, which pandas holds as NaN or [None]). *)
Record material : Type := {
  mat_item : string;
  mat_unit : option string;
  mat_price : cell;
  mat_phase : option string;
  mat_consumption_per_m2 : cell
}.

(** A row of the data frame as [build_boq] receives it: the item name
    too may be something else than text ([None]: a missing cell, a
    number). *)
Record catalog_row : Type := {
  cr_item : option string;
  cr_unit : option string;
  cr_price : cell;
  cr_phase : option string;
  cr_consumption_per_m2 : cell
}.

(** A row of [mat], the copy whose two numeric columns were coerced and
    scaled. *)
Record scaled_material : Type := {
  sm_item : string;
  sm_unit : option string;
  sm_price : Q;
  sm_phase : option string;
  sm_consumption_per_m2 : Q
}.

(** An entry of the room templates: [{"area_m2": a, "fixtures": {...}}]. *)
Record room_template : Type := {
  area_m2 : Q;
  fixtures : PyDict.dict Q
}.

(** An element of [rows], the rows of the BOQ before they are grouped:
    unit and phase are those of the catalog row, missing or not. *)
Record raw_row : Type := {
  raw_item : string;
  raw_unit : option string;
  raw_total_qty : Q;
  raw_unit_price : Q;
  raw_total_cost : Q;
  raw_phase : option string
}.

(** A row of the BOQ data frame that [build_boq] returns. *)
Record boq_row : Type := {
  row_item : string;
  row_unit : string;
  row_total_qty : Q;
  row_unit_price : Q;
  row_total_cost : Q;
  row_phase : string
}.

(* ================================================================== *)
(** ** The BOQ builder *)

(** The first two statements of [build_boq]: both numeric columns are
    coerced, then multiplied by their multiplier. *)
Definition scale_material (quality_multiplier location_multiplier : Q)
    (m : material) : scaled_material :=
  {| sm_item := mat_item m;
     sm_unit := mat_unit m;
     sm_price := to_numeric_fillna (mat_price m) * location_multiplier;
     sm_phase := mat_phase m;
     sm_consumption_per_m2 :=
       to_numeric_fillna (mat_consumption_per_m2 m) * quality_multiplier |}.

Definition scale_catalog (quality_multiplier location_multiplier : Q)
    (materials_df : list material) : list scaled_material :=
  map (scale_material quality_multiplier location_multiplier) materials_df.

(** [templates.get(room, {}).get("area_m2", 0.0)] *)
Definition template_area (templates : PyDict.dict room_template) (room : string) : Q :=
  match PyDict.get templates room with
  | Some tpl => area_m2 tpl
  | None => 0
  end.

(** [templates.get(room, {}).get("fixtures", {})] *)
Definition template_fixtures (templates : PyDict.dict room_template) (room : string)
    : PyDict.dict Q :=
  match PyDict.get templates room with
  | Some tpl => fixtures tpl
  | None => []
  end.

(** The loop [for room, cnt in counts.items(): total_area += cnt * area] *)
Definition total_area (counts : PyDict.dict Z) (templates : PyDict.dict room_template) : Q :=
  fold_left (fun acc rc => acc + inject_Z (snd rc) * template_area templates (fst rc))
            counts 0.

(** The loop seeding [qty_map] with the area-driven quantity of every
    catalog row. *)
Definition seed_qty_map (mat : list scaled_material) (area : Q) : PyDict.dict Q :=
  fold_left (fun qm row => PyDict.set (sm_item row) (sm_consumption_per_m2 row * area) qm)
            mat [].

(** [qty_map[k] = qty_map.get(k, 0.0) + amount] *)
Definition add_qty (k : string) (amount : Q) (qty_map : PyDict.dict Q) : PyDict.dict Q :=
  PyDict.set k (get_default qty_map k 0 + amount) qty_map.

(** The placeholder key [f"{fk} (user)"] *)
Definition user_label (fk : string) : string := fk ++ " (user)".

(** Where the quantity of fixture [fk] goes: the matched catalog item, or
    the placeholder when [find_match] returns a falsy value ([None], or
    the empty string). *)
Definition fixture_target (lookup : PyDict.dict string) (fk : string) : string :=
  match find_match lookup fk with
  | Some matched => if truthy matched then matched else user_label fk
  | None => user_label fk
  end.

(** The body of the inner loop [for fk, fq in fixtures.items()] *)
Definition add_fixture (lookup : PyDict.dict string) (cnt : Z)
    (qty_map : PyDict.dict Q) (fx : string * Q) : PyDict.dict Q :=
  let (fk, fq) := fx in
  if Qle_bool fq 0 then qty_map
  else add_qty (fixture_target lookup fk) (fq * inject_Z cnt) qty_map.

(** The body of the outer loop [for room, cnt in counts.items()] *)
Definition add_room (lookup : PyDict.dict string) (templates : PyDict.dict room_template)
    (qty_map : PyDict.dict Q) (rc : string * Z) : PyDict.dict Q :=
  let (room, cnt) := rc in
  if (cnt <=? 0)%Z then qty_map
  else fold_left (add_fixture lookup cnt) (template_fixtures templates room) qty_map.

(** [qty_map] when the row loop starts. *)
Definition build_qty_map (counts : PyDict.dict Z) (templates : PyDict.dict room_template)
    (mat : list scaled_material) : PyDict.dict Q :=
  let lookup := item_lookup (map sm_item mat) in
  fold_left (add_room lookup templates) counts
            (seed_qty_map mat (total_area counts templates)).

(** The body of [for item_name, qty in qty_map.items()]; the catalog row
    used is the first one with that item name ([.iloc[0]]). *)
Definition make_row (mat : list scaled_material) (entry : string * Q) : raw_row :=
  let (item_name, qty) := entry in
  match find (fun r => String.eqb (sm_item r) item_name) mat with
  | Some r =>
      {| raw_item := item_name; raw_unit := sm_unit r; raw_total_qty := qty;
         raw_unit_price := sm_price r; raw_total_cost := qty * sm_price r;
         raw_phase := sm_phase r |}
  | None =>
      {| raw_item := item_name; raw_unit := Some "each"; raw_total_qty := qty;
         raw_unit_price := 0; raw_total_cost := qty * 0;
         raw_phase := Some "Misc" |}
  end.

(** A row as [groupby] sees it: a row with a missing value in a key
    column belongs to no group ([dropna=True], the default).  The item
    is text and the unit price a number, so the unit and the phase are
    the key columns that can be missing. *)
Definition keyed_row (r : raw_row) : option boq_row :=
  match raw_unit r, raw_phase r with
  | Some unit, Some phase =>
      Some {| row_item := raw_item r; row_unit := unit;
              row_total_qty := raw_total_qty r;
              row_unit_price := raw_unit_price r;
              row_total_cost := raw_total_cost r; row_phase := phase |}
  | _, _ => None
  end.

(** The rows that enter a group, in their order. *)
Definition dropna (rows : list raw_row) : list boq_row :=
  flat_map (fun r => match keyed_row r with Some b => [b] | None => [] end) rows.

(** Order of the group keys [(item, unit, unit_price, phase)]. *)
Definition key_compare (a b : boq_row) : comparison :=
  match String.compare (row_item a) (row_item b) with
  | Eq =>
      match String.compare (row_unit a) (row_unit b) with
      | Eq =>
          match row_unit_price a ?= row_unit_price b with
          | Eq => String.compare (row_phase a) (row_phase b)
          | c => c
          end
      | c => c
      end
  | c => c
  end.

(** Adding the row [r] to a group: quantities and costs are summed. *)
Definition merge_row (g r : boq_row) : boq_row :=
  {| row_item := row_item g; row_unit := row_unit g;
     row_total_qty := row_total_qty g + row_total_qty r;
     row_unit_price := row_unit_price g;
     row_total_cost := row_total_cost g + row_total_cost r;
     row_phase := row_phase g |}.

(** One row enters the groups, which are kept sorted by key. *)
Fixpoint agg_insert (r : boq_row) (groups : list boq_row) : list boq_row :=
  match groups with
  | [] => [r]
  | g :: rest =>
      match key_compare r g with
      | Eq => merge_row g r :: rest
      | Lt => r :: g :: rest
      | Gt => g :: agg_insert r rest
      end
  end.

(** The groups of rows that all have their key: one row per key, the keys
    in ascending order (pandas sorts the group keys). *)
Definition agg_rows (rows : list boq_row) : list boq_row :=
  fold_left (fun groups r => agg_insert r groups) rows [].

(** [df.groupby(["item","unit","unit_price","phase"], as_index=False)
       .agg({"total_qty":"sum","total_cost":"sum"})]: the rows with a
    missing unit or phase are left out, the others are grouped. *)
Definition groupby_agg (rows : list raw_row) : list boq_row :=
  agg_rows (dropna rows).

(** [build_boq(counts, templates, materials_df, quality_multiplier,
    location_multiplier)] *)
Definition build_boq (counts : PyDict.dict Z) (templates : PyDict.dict room_template)
    (materials_df : list material) (quality_multiplier location_multiplier : Q)
    : list boq_row :=
  let mat := scale_catalog quality_multiplier location_multiplier materials_df in
  let qty_map := build_qty_map counts templates mat in
  let rows := map (make_row mat) qty_map in
  match rows with
  | [] => []
  | _ => groupby_agg rows
  end.

(** A row as received whose item name is text. *)
Definition typed_row (r : catalog_row) : option material :=
  match cr_item r with
  | Some item =>
      Some {| mat_item := item; mat_unit := cr_unit r; mat_price := cr_price r;
              mat_phase := cr_phase r;
              mat_consumption_per_m2 := cr_consumption_per_m2 r |}
  | None => None
  end.

(** The rows of a data frame as received, when every item name is text. *)
Fixpoint typed_catalog (frame : list catalog_row) : option (list material) :=

  match frame with
  | [] => Some []
  | r :: rest =>
      match typed_row r, typed_catalog rest with
      | Some m, Some ms => Some (m :: ms)
      | _, _ => None
      end
  end.

(** [build_boq] on a data frame as received.  The first statement that
    can fail is [item_lookup = {s.lower(): s for s in mat["item"].tolist()}]:
    it raises AttributeError when an item name is not a string, whatever
    the room counts are.  [None] stands for that exception. *)
Definition build_boq_frame (counts : PyDict.dict Z) (templates : PyDict.dict room_template)
    (frame : list catalog_row) (quality_multiplier location_multiplier : Q)
    : option (list boq_row) :=
  match typed_catalog frame with
  | Some materials_df =>
      Some (build_boq counts templates materials_df
              quality_multiplier location_multiplier)
  | None => None
  end.

(** The fixture quantities that reach [qty_map], in loop order: one
    [(fk, fq * cnt)] for every fixture of positive quantity in a room of
    positive count. *)
Definition room_contribs (templates : PyDict.dict room_template) (rc : string * Z)
    : list (string * Q) :=
  if (snd rc <=? 0)%Z then []
  else map (fun fx => (fst fx, snd fx * inject_Z (snd rc)))
           (filter (fun fx => negb (Qle_bool (snd fx) 0))
                   (template_fixtures templates (fst rc))).

Definition fixture_contribs (counts : PyDict.dict Z) (templates : PyDict.dict room_template)
    : list (string * Q) :=
  flat_map (room_contribs templates) counts.

(** The contributions made under the label [fk], added one after the
    other to [0.0] in loop order. *)
Definition contrib_sum (fk : string) (cs : list (string * Q)) : Q :=
  fold_left (fun acc c => if String.eqb (fst c) fk then acc + snd c else acc) cs 0.

(** Every room count doubled. *)
Definition double_counts (counts : PyDict.dict Z) : PyDict.dict Z :=
  map (fun rc => (fst rc, (2 * snd rc)%Z)) counts.

(* ================================================================== *)
(** ** Cost rollup (Projection page) *)

(** [boq["total_cost"].sum()] *)
Definition base_total (boq : list boq_row) : Q :=
  fold_left (fun acc r => acc + row_total_cost r) boq 0.

(** [boq.groupby("phase", sort=False)["total_cost"].sum()]: phases in the
    order they first appear. *)
Definition phase_totals (boq : list boq_row) : PyDict.dict Q :=
  fold_left (fun d r => add_qty (row_phase r) (row_total_cost r) d) boq [].

Record summary : Type := {
  sum_base_total : Q;
  sum_extra_cost : Q;
  sum_pro_cost : Q;
  sum_cont_cost : Q;
  sum_grand_total : Q
}.

(** A slider value in percent, divided by [100.0]. *)
Definition pct (slider : Z) : Q := inject_Z slider / 100.

Definition rollup (boq : list boq_row) (extra_margin professional_fees contingency : Q)
    : summary :=
  let base := base_total boq in
  let extra_cost := base * extra_margin in
  let pro_cost := base * professional_fees in
  let cont_cost := base * contingency in
  {| sum_base_total := base;
     sum_extra_cost := extra_cost;
     sum_pro_cost := pro_cost;
     sum_cont_cost := cont_cost;
     sum_grand_total := base + extra_cost + pro_cost + cont_cost |}.

Definition grand_total (boq : list boq_row) (extra_margin professional_fees contingency : Q)
    : Q :=
  sum_grand_total (rollup boq extra_margin professional_fees contingency).

(** The same rollup on binary64 numbers, the floats of Python, where
    every product and every sum is rounded: a slider value divided by
    [100.0], and the grand total from the base total. *)
Definition pct_b64 (slider : float) : float := (slider / 100)%float.

Definition grand_total_b64 (base_total extra_margin professional_fees contingency : float)
    : float :=
  let extra_cost := (base_total * extra_margin)%float in
  let pro_cost := (base_total * professional_fees)%float in
  let cont_cost := (base_total * contingency)%float in
  (base_total + extra_cost + pro_cost + cont_cost)%float.

(* ================================================================== *)
(** ** Floats with infinities *)

Inductive fnum : Type :=
  | Fin (q : Q)
  | PInf
  | NInf
  | NaN.

Definition fadd (x y : fnum) : fnum :=
  match x, y with
  | NaN, _ | _, NaN => NaN
  | Fin a, Fin b => Fin (a + b)
  | PInf, NInf | NInf, PInf => NaN
  | PInf, _ | _, PInf => PInf
  | NInf, _ | _, NInf => NInf
  end.

(** The product of an infinity of sign [pos] and the finite number [a]. *)
Definition inf_times (pos : bool) (a : Q) : fnum :=
  match a ?= 0 with
  | Eq => NaN
  | Gt => if pos then PInf else NInf
  | Lt => if pos then NInf else PInf
  end.

Definition fmul (x y : fnum) : fnum :=
  match x, y with
  | NaN, _ | _, NaN => NaN
  | Fin a, Fin b => Fin (a * b)
  | Fin a, PInf | PInf, Fin a => inf_times true a
  | Fin a, NInf | NInf, Fin a => inf_times false a
  | PInf, PInf | NInf, NInf => PInf
  | PInf, NInf | NInf, PInf => NInf
  end.

(** [x / d] for a finite divisor [d > 0], the only divisions of the
    funding loop ([12.0], and [monthly_savings] behind its guard). *)
Definition fdiv_pos (x : fnum) (d : Q) : fnum :=
  match x with
  | Fin a => Fin (a / d)
  | other => other
  end.

(** [b ** e] for a finite base.  [fpow] is the power at a finite
    exponent; at an infinite exponent the result depends on [|b|]. *)
Definition fpow_ext (fpow : Q -> Q -> Q) (b : Q) (e : fnum) : fnum :=
  match e with
  | Fin q => Fin (fpow b q)
  | PInf =>
      match Qabs b ?= 1 with
      | Gt => PInf
      | Eq => Fin 1
      | Lt => Fin 0
      end
  | NInf =>
      match Qabs b ?= 1 with
      | Gt => Fin 0
      | Eq => Fin 1
      | Lt => PInf
      end
  | NaN => if Qeq_bool b 1 then Fin 1 else NaN
  end.

(** [x] is a number and it is [0]. *)
Definition is_zero (x : fnum) : Prop :=
  match x with
  | Fin q => q == 0
  | _ => False
  end.

(** [x <= y] on floats; false as soon as a NaN is compared. *)
Definition fle (x y : fnum) : Prop :=
  match x, y with
  | NaN, _ | _, NaN => False
  | NInf, _ => True
  | _, PInf => True
  | Fin a, Fin b => a <= b
  | _, _ => False
  end.

(* ================================================================== *)
(** ** Affordability scheduler *)

(** An element of [results]. *)
Record funding_entry : Type := {
  fe_phase : string;
  fe_base : Q;
  fe_after_upfront : Q;
  fe_inflated : fnum;
  fe_months : fnum;
  fe_start : fnum;
  fe_end : fnum
}.

(** The variables the loop carries from phase to phase. *)
Record sched_state : Type := {
  remaining_upfront : Q;
  cum_month : fnum;
  results : list funding_entry
}.

Section Scheduler.

  (** Python's [b ** e] at a finite exponent, in a run in which it
      returns a float (it raises [OverflowError] when the result leaves
      the range of the floats, and the page run ends there). *)
Variable fpow : Q -> Q -> Q.

Variable phase_tot : PyDict.dict Q.
Variables one_time monthly_savings inflation_pct : Q.

  (** The [if remaining_upfront > 0: ... else: ...] of the loop body:
      the cost left after the upfront cash, and the cash left. *)
Definition apply_upfront (remaining base_cost : Q) : Q * Q :=
    if Qlt_b 0 remaining then
      let applied := py_min remaining base_cost in
      (py_max 0 (base_cost - applied), remaining - applied)
    else (base_cost, remaining).

  (** The body of [for i, ph in enumerate(phase_order, start=1)] up to
    [results.append]: the entry of phase [ph], and the upfront cash left. *)
Definition phase_entry (remaining : Q) (cum : fnum) (ph : string) : funding_entry * Q :=
  let base_cost := get_default phase_tot ph 0 in
  let (base_cost_after, remaining') := apply_upfront remaining base_cost in
  let years_until_start := fdiv_pos cum 12 in
  let infl_factor := fpow_ext fpow (1 + inflation_pct / 100) years_until_start in
  let inflated := fmul (Fin base_cost_after) infl_factor in
  let months_needed :=
    if Qlt_b 0 monthly_savings then fdiv_pos inflated monthly_savings else PInf in
  let start := cum in
  let end_ := fadd start months_needed in
  ({| fe_phase := ph; fe_base := base_cost; fe_after_upfront := base_cost_after;
      fe_inflated := inflated; fe_months := months_needed;
      fe_start := start; fe_end := end_ |}, remaining').

(** One iteration: the entry is appended and [cum_month = end]. *)
Definition sched_step (st : sched_state) (ph : string) : sched_state :=
  let (entry, remaining') := phase_entry (remaining_upfront st) (cum_month st) ph in
  {| remaining_upfront := remaining';
     cum_month := fe_end entry;
     results := results st ++ [entry] |}.

Definition sched_init : sched_state :=
  {| remaining_upfront := one_time; cum_month := Fin 0; results := [] |}.

(** The state when the loop ends. *)
Definition sched_run (phase_order : list string) : sched_state :=
  fold_left sched_step phase_order sched_init.

(** The funding entries, one per phase in build order. *)
Definition schedule (phase_order : list string) : list funding_entry :=
  results (sched_run phase_order).

(** The upfront cash left after each phase, in build order. *)
Fixpoint residuals_from (st : sched_state) (phase_order : list string) : list Q :=
  match phase_order with
  | [] => []
  | ph :: rest =>
      let st' := sched_step st ph in
      remaining_upfront st' :: residuals_from st' rest
  end.

Definition residuals (phase_order : list string) : list Q :=
  residuals_from sched_init phase_order.

(** The loop written as a recursion on the phases still to do: every
    entry with the upfront cash left after it. *)
Fixpoint run_from (remaining : Q) (cum : fnum) (phase_order : list string)
    : list (funding_entry * Q) :=
  match phase_order with
  | [] => []
  | ph :: rest =>
      let er := phase_entry remaining cum ph in
      er :: run_from (snd er) (fe_end (fst er)) rest
  end.

End Scheduler.

(** The upfront step on binary64 numbers: Python's [min] and [max], the
    [if remaining_upfront > 0] of the loop body, and the costs left after
    upfront for a list of base costs in build order. *)
Definition py_min_b64 (a b : float) : float := if (b <? a)%float then b else a.

Definition py_max_b64 (a b : float) : float := if (a <? b)%float then b else a.

Definition apply_upfront_b64 (remaining base_cost : float) : float * float :=
  if (0 <? remaining)%float then
    let applied := py_min_b64 remaining base_cost in
    (py_max_b64 0 (base_cost - applied), (remaining - applied)%float)
  else (base_cost, remaining).

Fixpoint after_upfront_b64 (remaining : float) (base_costs : list float) : list float :=
  match base_costs with
  | [] => []
  | base_cost :: rest =>
      let (base_cost_after, remaining') := apply_upfront_b64 remaining base_cost in
      base_cost_after :: after_upfront_b64 remaining' rest
  end.

(** The upfront cash that is left when a phase is reached is at least
    the base cost of the phase, phase after phase; the cash left is the
    one the loop computes. *)
Fixpoint upfront_covers (phase_tot : PyDict.dict Q) (remaining : Q)
    (phase_order : list string) : Prop :=
  match phase_order with
  | [] => True
  | ph :: rest =>
      get_default phase_tot ph 0 <= remaining /\
      upfront_covers phase_tot
        (snd (apply_upfront remaining (get_default phase_tot ph 0))) rest
  end.


Definition Qsum (xs : list Q) : Q := fold_right Qplus 0 xs.

(** Sum of the base costs of the phases in build order. *)
Definition total_base (phase_tot : PyDict.dict Q) (phase_order : list string) : Q :=
  Qsum (map (fun ph => get_default phase_tot ph 0) phase_order).

(** Every entry starts where the one before ended, the first at [start],
    and ends [months_needed] later. *)
Fixpoint chained (start : fnum) (es : list funding_entry) : Prop :=
  match es with
  | [] => True
  | e :: rest =>
      fe_start e = start /\ fe_end e = fadd (fe_start e) (fe_months e) /\
      chained (fe_end e) rest
  end.

(** The start and end months in schedule order. *)
Definition months_seq (es : list funding_entry) : list fnum :=
  flat_map (fun e => [fe_start e; fe_end e]) es.

(** [lo <= x1 <= x2 <= ...] *)
Fixpoint nondecreasing_from (lo : fnum) (xs : list fnum) : Prop :=
  match xs with
  | [] => True
  | x :: rest => fle lo x /\ nondecreasing_from x rest
  end.


(** A numeric cell that is not negative; a non-numeric cell counts. *)
Definition cell_nonneg (c : cell) : Prop :=
  match c with
  | CNum q => 0 <= q
  | CBad => True
  end.

(** The power at 0%% inflation, where the base is [1]: [1 ** e = 1]. *)
Definition pow_one (b e : Q) : Q := 1.

(* ================================================================== *)
(** ** Vocabulary of the statements *)

(** The fixture loop as one pass over the contributions: every
    contribution is added under the target of its label. *)
Definition apply_contribs (lookup : PyDict.dict string) (cs : list (string * Q))
    (qty_map : PyDict.dict Q) : PyDict.dict Q :=
  fold_left (fun qm c => add_qty (fixture_target lookup (fst c)) (snd c) qm) cs qty_map.

(** The quantity under the key [k] when the contributions whose target
    is [k] have been added one after the other, in loop order, to the
    quantity [start]. *)
Definition target_sum (lookup : PyDict.dict string) (k : string) (start : Q)
    (cs : list (string * Q)) : Q :=
  fold_left (fun acc c =>
               if String.eqb (fixture_target lookup (fst c)) k then acc + snd c else acc)
            cs start.

(** The catalog rows named [k] give no row of the BOQ: the first of them,
    the one [make_row] reads, has no unit or no phase. *)
Definition item_dropped (materials_df : list material) (k : string) : bool :=
  match find (fun m => String.eqb (mat_item m) k) materials_df with
  | Some m =>
      match mat_unit m, mat_phase m with
      | Some _, Some _ => false
      | _, _ => true
      end
  | None => false
  end.


(** No room of positive count has a fixture of positive quantity. *)


(** [m2] has the keys of [m], in the same order, with doubled values. *)
Definition dict_doubled (m m2 : PyDict.dict Q) : Prop :=
  Forall2 (fun kv kv2 => fst kv2 = fst kv /\ snd kv2 == 2 * snd kv) m m2.

(** [r2] is the row [r] with quantity and cost doubled. *)
Definition row_doubled (r r2 : boq_row) : Prop :=
  row_item r2 = row_item r /\ row_unit r2 = row_unit r /\
  row_unit_price r2 = row_unit_price r /\ row_phase r2 = row_phase r /\
  row_total_qty r2 == 2 * row_total_qty r /\
  row_total_cost r2 == 2 * row_total_cost r.

(** The rows [r] and [r2], not yet grouped, have the same item, unit,
    unit price and phase, and quantity and cost of [r2] are [c] times
    those of [r]. *)
Definition raw_scaled (c : Q) (r r2 : raw_row) : Prop :=
  raw_item r2 = raw_item r /\ raw_unit r2 = raw_unit r /\
  raw_unit_price r2 = raw_unit_price r /\ raw_phase r2 = raw_phase r /\
  raw_total_qty r2 == c * raw_total_qty r /\
  raw_total_cost r2 == c * raw_total_cost r.

(** The placeholder row of the label [fk] carrying the quantity [qty]. *)
Definition is_placeholder_row (fk : string) (qty : Q) (r : boq_row) : Prop :=
  row_item r = user_label fk /\ row_unit r = "each" /\
  row_unit_price r == 0 /\ row_phase r = "Misc" /\
  row_total_cost r == 0 /\ row_total_qty r == qty.

(* ================================================================== *)
(** ** Rows of a BOQ *)

(** The key of [a] is strictly before the key of [b]. *)
Definition key_lt (a b : boq_row) : Prop := key_compare a b = Lt.

(** The item of [a] is strictly before the item of [b] (byte order). *)
Definition item_lt (a b : boq_row) : Prop :=
  String.compare (row_item a) (row_item b) = Lt.

(** [total_cost = total_qty * unit_price] *)
Definition cost_consistent (r : boq_row) : Prop :=
  row_total_cost r == row_total_qty r * row_unit_price r.

(** [m2] has the keys of [m], in the same order, with equal values. *)
Definition dict_equiv (m m2 : PyDict.dict Q) : Prop :=
  Forall2 (fun kv kv2 => fst kv2 = fst kv /\ snd kv2 == snd kv) m m2.

(** The same row, quantity and cost being equal as numbers. *)
Definition row_equiv (r r2 : boq_row) : Prop :=
  row_item r2 = row_item r /\ row_unit r2 = row_unit r /\
  row_unit_price r2 = row_unit_price r /\ row_phase r2 = row_phase r /\
  row_total_qty r2 == row_total_qty r /\
  row_total_cost r2 == row_total_cost r.

(* ================================================================== *)
(** ** Phases of a BOQ and the build order *)

(** The distinct elements of a list in the order they first appear. *)
Definition first_seen (xs : list string) : list string :=
  fold_left (fun seen x => if existsb (String.eqb x) seen then seen else seen ++ [x]) xs [].

(** Sum of the costs of the rows of phase [ph]. *)
Definition phase_cost (boq : list boq_row) (ph : string) : Q :=
  Qsum (map row_total_cost
          (filter (fun r => String.eqb (row_phase r) ph) boq)).


(** The three sliders of the Projection page, in percent. *)
Definition slider_ranges (extra_margin professional_fees contingency : Z) : Prop :=
  (0 <= extra_margin <= 30)%Z /\ (0 <= professional_fees <= 15)%Z /\
  (0 <= contingency <= 30)%Z.

(* ================================================================== *)
(** ** The cumulative curve and the completion estimate *)

(** [np.isfinite(x)] *)
Definition is_finite (x : fnum) : bool :=
  match x with
  | Fin _ => true
  | _ => false
  end.

(** [x <= y] as a test; false as soon as a NaN is compared. *)
Definition fleb (x y : fnum) : bool :=
  match x, y with
  | NaN, _ | _, NaN => false
  | NInf, _ => true
  | _, PInf => true
  | Fin a, Fin b => Qle_bool a b
  | _, _ => false
  end.

(** [x < y] as a test; false as soon as a NaN is compared. *)
Definition fltb (x y : fnum) : bool :=
  match x, y with
  | NaN, _ | _, NaN => false
  | PInf, _ => false
  | _, NInf => false
  | Fin a, Fin b => Qlt_b a b
  | _, _ => true
  end.

Definition fneg (x : fnum) : fnum :=
  match x with
  | Fin a => Fin (- a)
  | PInf => NInf
  | NInf => PInf
  | NaN => NaN
  end.

Definition fsub (x y : fnum) : fnum := fadd x (fneg y).

(** Python's [min(1.0, v)]: [1.0] unless [v < 1.0]. *)
Definition fmin_one (v : fnum) : fnum := if fltb v (Fin 1) then v else Fin 1.



(** [Series.max()], which skips NaN; NaN when nothing is left. *)
Definition series_max (xs : list fnum) : fnum :=
  fold_left (fun acc x =>
               match x, acc with
               | NaN, _ => acc
               | _, NaN => x
               | _, _ => if fltb acc x then x else acc
               end) xs NaN.

(** [months_span]: the last month of the chart. *)
Definition months_span (results : list funding_entry) : Z :=
  let m := series_max (map fe_end results) in
  let span := match m with
              | Fin q => Qceiling q
              | _ => 1%Z
              end in
  Z.max 1 span.

(** [np.arange(0, months_span + 1)] *)
Definition chart_months (results : list funding_entry) : list Z :=
  map Z.of_nat (seq 0 (Z.to_nat (months_span results) + 1)).

(** [cumulative_savings] at month [m] *)
Definition cumulative_savings (monthly_savings one_time : Q) (m : Z) : Q :=
  inject_Z m * monthly_savings + one_time.

(** The body of [for r in results] at month [m]: what phase [r] adds to
    [req]. *)
Definition required_step (m : Z) (req : fnum) (r : funding_entry) : fnum :=
  if fleb (fe_end r) (Fin (inject_Z m)) then fadd req (fe_inflated r)
  else if fltb (fe_start r) (Fin (inject_Z m)) then
    match fe_months r with
    | Fin months =>
        if Qlt_b 0 months then
          let frac := fmin_one (fdiv_pos (fsub (Fin (inject_Z m)) (fe_start r)) months) in
          fadd req (fmul (fe_inflated r) frac)
        else req
    | _ => req
    end
  else req.

(** [required[mi]] for the month [m] *)
Definition required_at (results : list funding_entry) (m : Z) : fnum :=
  fold_left (required_step m) results (Fin 0).

(** Python's [int(x)] on a float: truncation towards zero. *)
Definition py_int (x : Q) : Z := Z.quot (Qnum x) (Zpos (Qden x)).

(** [x // d] on floats, as a number: the quotient rounded down.  The
    float operation is exact for [0 <= x < 2^53] and [d = 12], where
    [x - x % d] is a whole number that binary64 holds. *)
Definition py_floordiv (x d : Q) : Q := inject_Z (Qfloor (x / d)).

(** [x % d] on floats, as a number.  For [x >= 0] and [d > 0] the float
    operation is [fmod], which is exact; for a negative [x] it is
    [fmod(x, d) + d], which rounds and can give [d] itself. *)
Definition py_mod (x d : Q) : Q := x - d * py_floordiv x d.

(** The years and months of "Estimated completion", when the last end
    month is finite. *)
Definition completion_estimate (final_months : fnum) : option (Z * Z) :=
  match final_months with
  | Fin q => Some (py_int (py_floordiv q 12), py_int (py_mod q 12))
  | _ => None
  end.

(** [res_df["end"].iloc[-1]] *)
Definition final_months (results : list funding_entry) : fnum :=
  match rev results with
  | e :: _ => fe_end e
  | [] => NaN
  end.

(* ================================================================== *)
(** ** The project store *)

(** A saved project. *)
Record project : Type := {
  proj_name : string;
  proj_created_at : string;
  proj_counts : PyDict.dict Z;
  proj_room_templates : PyDict.dict room_template;
  proj_quality_multiplier : Q;
  proj_location_multiplier : Q
}.

(** [del d[k]] for a key that is present; nothing to delete otherwise. *)
Fixpoint dict_del {V : Type} (k : string) (d : PyDict.dict V) : PyDict.dict V :=
  match d with
  | [] => []
  | (k', v) :: d' => if String.eqb k' k then d' else (k', v) :: dict_del k d'
  end.

(** [st.session_state["projects"][project_name] = project] *)
Definition save_project (projects : PyDict.dict project) (p : project)
    : PyDict.dict project :=
  PyDict.set (proj_name p) p projects.

(** [if sel in projects: del projects[sel]] *)
Definition delete_project (projects : PyDict.dict project) (sel : string)
    : PyDict.dict project :=
  if PyDict.mem projects sel then dict_del sel projects else projects.

Definition USE_SESSION : string := "(Use current session inputs)".

(** The counts of the current session: [unsaved_counts] when it is set
    and not empty, else the count widgets of the template rooms. *)
Definition session_counts (unsaved_counts : option (PyDict.dict Z))
    (widgets : PyDict.dict Z) (templates : PyDict.dict room_template) : PyDict.dict Z :=
  match unsaved_counts with
  | Some (c :: cs) => c :: cs
  | _ => map (fun room => (room, get_default widgets ("cnt_" ++ room) 0%Z))
             (PyDict.keys templates)
  end.

(** The inputs of [build_boq] on the Projection page for the selection
    [sel_proj]: counts and both multipliers.  [None] stands for the
    failure of [project["counts"]] when the project is missing. *)
Definition projection_inputs (projects : PyDict.dict project) (sel_proj : string)
    (unsaved_counts : option (PyDict.dict Z)) (widgets : PyDict.dict Z)
    (templates : PyDict.dict room_template) (session_quality session_location : Q)
    : option (PyDict.dict Z * Q * Q) :=
  if negb (String.eqb sel_proj USE_SESSION) then
    match PyDict.get projects sel_proj with
    | Some p => Some (proj_counts p, proj_quality_multiplier p, proj_location_multiplier p)
    | None => None
    end
  else Some (session_counts unsaved_counts widgets templates,
             session_quality, session_location).

(* ================================================================== *)
(** * Properties *)

(* ------------------------------------------------------------------ *)
(** ** Lists *)

Lemma find_app_split {A : Type} (f : A -> bool) (l1 l2 : list A) :
  find f (l1 ++ l2) =
  match find f l1 with Some x => Some x | None => find f l2 end.
Proof.
  induction l1 as [|a l1 IH]; simpl; [reflexivity|].
  destruct (f a); [reflexivity|exact IH].
Qed.

Lemma find_map_pre {A B : Type} (g : A -> B) (f : B -> bool) (l : list A) :
  find f (map g l) = option_map g (find (fun a => f (g a)) l).
Proof.
  induction l as [|a l IH]; simpl; [reflexivity|].
  destruct (f (g a)); [reflexivity|exact IH].
Qed.

Lemma find_none_iff {A : Type} (f : A -> bool) (l : list A) :
  find f l = None <-> (forall x, In x l -> f x = false).
Proof.
  split; [intros H x Hx; exact (find_none f l H x Hx)|].
  induction l as [|a l IH]; simpl; intros H; [reflexivity|].
  rewrite (H a (or_introl eq_refl)). apply IH. intros x Hx. apply H. now right.
Qed.

Lemma find_rev_none {A : Type} (f : A -> bool) (l : list A) :
  find f l = None <-> find f (rev l) = None.
Proof.
  rewrite !find_none_iff. split; intros H x Hx; apply H.
  - now apply in_rev.
  - now apply -> in_rev.
Qed.

(* ------------------------------------------------------------------ *)
(** ** Strings *)

Lemma ascii_lower_app (a b : string) :
  ascii_lower (a ++ b) = (ascii_lower a ++ ascii_lower b)%string.
Proof. induction a as [|c a IH]; simpl; [reflexivity|now rewrite IH]. Qed.

Lemma prefix_app (a b : string) : String.prefix a (a ++ b) = true.
Proof.
  induction a as [|c a IH]; simpl; [now destruct b|].
  destruct (ascii_dec c c) as [_|N]; [exact IH|now elim N].
Qed.

Lemma contains_app (a b : string) : contains a (a ++ b) = true.
Proof.
  destruct a as [|c a]; simpl.
  - now destruct b.
  - destruct (ascii_dec c c) as [_|N]; [|now elim N].
    now rewrite prefix_app.
Qed.

Lemma append_inj_l (a b s : string) : (a ++ s = b ++ s)%string -> a = b.
Proof.
  intros H.
  assert (L : String.length a = String.length b).
  { apply (f_equal String.length) in H.
    assert (LA : forall x y, String.length (x ++ y) = (String.length x + String.length y)%nat).
    { intros x y. induction x as [|c x IH]; simpl; [reflexivity|now rewrite IH]. }
    rewrite !LA in H. lia. }
  revert b H L. induction a as [|c a IH]; intros [|d b] H L; simpl in *;
    try discriminate; [reflexivity|].
  injection H as -> H. f_equal. apply IH; [exact H|lia].
Qed.

(* ------------------------------------------------------------------ *)
(** ** Dicts *)

Section Facts.
Import PyDict.
Context {V : Type}.
Implicit Types (d : dict V) (k : string) (v : V).

Lemma get_set_same d k v : get (set k v d) k = Some v.
Proof.
  induction d as [|[k' v'] d IH]; simpl.
  - now rewrite String.eqb_refl.
  - destruct (String.eqb k' k) eqn:E; simpl; rewrite E; [reflexivity|exact IH].
Qed.

Lemma get_set_other d k k' v : k <> k' -> get (set k v d) k' = get d k'.
Proof.
  intros N. induction d as [|[k0 v0] d IH]; simpl.
  - apply String.eqb_neq in N. now rewrite N.
  - destruct (String.eqb k0 k) eqn:E; simpl.
    + apply String.eqb_eq in E. subst k0.
      apply String.eqb_neq in N. now rewrite N.
    + destruct (String.eqb k0 k'); [reflexivity|exact IH].
Qed.

Lemma get_Some_in_keys d k v : get d k = Some v -> In k (keys d).
Proof.
  induction d as [|[k' v'] d IH]; simpl; [discriminate|].
  destruct (String.eqb k' k) eqn:E; intros H.
  - left. now apply String.eqb_eq.
  - right. now apply IH.
Qed.

Lemma get_None_iff d k : get d k = None <-> ~ In k (keys d).
Proof.
  clear lower. induction d as [|[k' v'] d IH]; simpl; [tauto|].
  destruct (String.eqb k' k) eqn:E.
  - apply String.eqb_eq in E. split; [discriminate|]. intros N. elim N. now left.
  - apply String.eqb_neq in E. rewrite IH. tauto.
Qed.

Lemma keys_set d k v :
  keys (set k v d) = if mem d k then keys d else keys d ++ [k].
Proof.
  unfold mem. induction d as [|[k' v'] d IH]; simpl; [reflexivity|].
  destruct (String.eqb k' k) eqn:E; simpl; [reflexivity|].
  rewrite IH. now destruct (get d k).
Qed.

Lemma keys_set_nodup d k v : NoDup (keys d) -> NoDup (keys (set k v d)).
Proof.
  intros ND. rewrite keys_set. unfold mem.
  destruct (get d k) eqn:G; [exact ND|].
  apply get_None_iff in G.
  apply NoDup_rev in ND. rewrite <- (rev_involutive (keys d ++ [k])).
  apply NoDup_rev. rewrite rev_app_distr. simpl. constructor; [|exact ND].
  now rewrite <- in_rev.
Qed.

Lemma set_not_nil d k v : set k v d <> [].
Proof. destruct d as [|[k' v'] d]; simpl; [|destruct (String.eqb k' k)]; discriminate. Qed.

Lemma get_in d k v : get d k = Some v -> In (k, v) d.
Proof.
  induction d as [|[k' v'] d IH]; simpl; [discriminate|].
  destruct (String.eqb k' k) eqn:E; intros H.
  - apply String.eqb_eq in E. injection H as ->. subst. now left.
  - right. now apply IH.
Qed.

End Facts.

(* ------------------------------------------------------------------ *)
(** ** The resolver *)

Section Lookup.

(** The dict comprehension, started from any dict. *)
Let fill (d : PyDict.dict string) (items : list string) : PyDict.dict string :=
  fold_left (fun d s => PyDict.set (lower s) s d) items d.

Lemma fill_get d items k :
  PyDict.get (fill d items) k =
  match find (fun s => String.eqb (lower s) k) (rev items) with
  | Some s => Some s
  | None => PyDict.get d k
  end.
Proof.
  revert d. induction items as [|s items IH]; intros d; simpl; [reflexivity|].
  unfold fill in IH |- *. simpl. rewrite IH, find_app_split.
  destruct (find _ (rev items)); [reflexivity|]. simpl.
  destruct (String.eqb (lower s) k) eqn:E.
  - apply String.eqb_eq in E. subst k. apply get_set_same.
  - apply String.eqb_neq in E. now apply get_set_other.
Qed.

Lemma fill_find_keys (P : string -> bool) d items :
  find P (PyDict.keys (fill d items)) =
  match find P (PyDict.keys d) with
  | Some k => Some k
  | None => find P (map lower items)
  end.
Proof.
  revert d. induction items as [|s items IH]; intros d; simpl.
  - now destruct (find P (PyDict.keys d)).
  - unfold fill in IH |- *. simpl. rewrite IH, keys_set. unfold PyDict.mem.
    destruct (PyDict.get d (lower s)) eqn:G.
    + destruct (find P (PyDict.keys d)) eqn:F; [reflexivity|].
      apply get_Some_in_keys in G.
      now rewrite (find_none P _ F _ G).
    + rewrite find_app_split. destruct (find P (PyDict.keys d)); [reflexivity|].
      simpl. now destruct (P (lower s)).
Qed.

End Lookup.

Lemma item_lookup_get (catalog : list string) (k : string) :
  PyDict.get (item_lookup catalog) k =
  find (fun s => String.eqb (lower s) k) (rev catalog).
Proof.
  unfold item_lookup. rewrite fill_get. simpl.
  now destruct (find _ (rev catalog)).
Qed.

Lemma item_lookup_keys_find (P : string -> bool) (catalog : list string) :
  find P (PyDict.keys (item_lookup catalog)) = find P (map lower catalog).
Proof. unfold item_lookup. now rewrite fill_find_keys. Qed.

(** The loop over the keys returns the value stored under the first key
    that contains the label. *)
Lemma first_containing_keys (lk : string) (d : PyDict.dict string) :
  first_containing lk d =
  match find (contains lk) (PyDict.keys d) with
  | Some k => PyDict.get d k
  | None => None
  end.
Proof.
  induction d as [|[k v] d IH]; simpl; [reflexivity|].
  destruct (contains lk k) eqn:C; simpl.
  - now rewrite String.eqb_refl.
  - rewrite IH. destruct (find (contains lk) (PyDict.keys d)) as [k'|] eqn:F; [|reflexivity].
    apply find_some in F. destruct F as [_ C'].
    destruct (String.eqb k k') eqn:E; [|reflexivity].
    apply String.eqb_eq in E. subst k'. congruence.
Qed.

(** A catalog name that is looked up yields the last item with that
    lower-cased name. *)
Lemma item_lookup_get_spec (catalog : list string) (k : string) :
  PyDict.get (item_lookup catalog) k =
  option_map (last_same_name catalog) (find (fun c => String.eqb (lower c) k) catalog).
Proof.
  rewrite item_lookup_get.
  destruct (find (fun c => String.eqb (lower c) k) catalog) as [c|] eqn:F; simpl.
  - apply find_some in F. destruct F as [I E]. apply String.eqb_eq in E. subst k.
    unfold last_same_name.
    destruct (find _ (rev catalog)) eqn:R; [reflexivity|].
    apply in_rev in I. pose proof (find_none _ _ R _ I) as X. simpl in X.
    now rewrite String.eqb_refl in X.
  - now apply find_rev_none in F.
Qed.

Lemma first_containing_spec (catalog : list string) (lk : string) :
  first_containing lk (item_lookup catalog) =
  option_map (last_same_name catalog) (find (fun c => contains lk (lower c)) catalog).
Proof.
  rewrite first_containing_keys, item_lookup_keys_find, find_map_pre.
  destruct (find (fun c => contains lk (lower c)) catalog) as [c|] eqn:F; simpl;
    [|reflexivity].
  rewrite item_lookup_get_spec.
  destruct (find (fun c0 => String.eqb (lower c0) (lower c)) catalog) as [c0|] eqn:G; simpl.
  - apply find_some in G. destruct G as [_ E]. apply String.eqb_eq in E.
    apply find_some in F. destruct F as [I _].
    unfold last_same_name. rewrite E.
    destruct (find _ (rev catalog)) eqn:R; [reflexivity|].
    apply in_rev in I. pose proof (find_none _ _ R _ I) as X. simpl in X.
    now rewrite String.eqb_refl in X.
  - apply find_some in F. destruct F as [I _].
    pose proof (find_none _ _ G _ I) as X. simpl in X.
    now rewrite String.eqb_refl in X.
Qed.

(** No alias of the static table is the empty string. *)
Lemma alias_truthy (key m : string) :
  PyDict.get FIXTURE_ITEM_MAP key = Some m -> truthy m = true.
Proof.
  unfold FIXTURE_ITEM_MAP. cbn [PyDict.get].
  repeat match goal with
  | |- context [String.eqb ?a key] =>
      destruct (String.eqb a key); [intros H; injection H as <-; reflexivity|]
  end.
  discriminate.
Qed.

Lemma last_same_name_nodup (catalog : list string) (c : string) :
  NoDup (map lower catalog) -> In c catalog -> last_same_name catalog c = c.
Proof.
  intros ND I. unfold last_same_name.
  destruct (find _ (rev catalog)) as [c'|] eqn:F; [|reflexivity].
  apply find_some in F. destruct F as [I' E]. apply String.eqb_eq in E.
  apply in_rev in I'. clear - ND I I' E.
  induction catalog as [|a l IH]; simpl in *; [tauto|].
  inversion ND as [|? ? NI ND']; subst.
  destruct I as [->|I], I' as [->|I']; try reflexivity.
  - elim NI. rewrite <- E. now apply in_map.
  - elim NI. rewrite E. now apply in_map.
  - now apply IH.
Qed.

Lemma resolve_spec_in (catalog : list string) (label c : string) :
  resolve_spec catalog label = Some c -> In c catalog.
Proof.
  unfold resolve_spec.
  destruct (PyDict.get FIXTURE_ITEM_MAP label) as [a|];
    [destruct (find (fun c0 => String.eqb (lower c0) (lower a)) catalog) eqn:F1|].
  - intros H; injection H as <-. now apply find_some in F1.
  - destruct (find (fun c0 => String.eqb (lower c0) (lower label)) catalog) eqn:F2;
      intros H; [injection H as <-; now apply find_some in F2 | now apply find_some in H].
  - destruct (find (fun c0 => String.eqb (lower c0) (lower label)) catalog) eqn:F2;
      intros H; [injection H as <-; now apply find_some in F2 | now apply find_some in H].
Qed.

(** The resolver selects by the priority order and returns the last
    catalog item with the lower-cased name of the item selected. *)
Lemma resolve_last_same_name (catalog : list string) (label : string) :
  resolve catalog label =
  option_map (last_same_name catalog) (resolve_spec catalog label).
Proof.
  unfold resolve, find_match, resolve_spec.
  destruct (PyDict.get FIXTURE_ITEM_MAP label) as [a|] eqn:A.
  - rewrite (alias_truthy _ _ A), item_lookup_get_spec.
    destruct (find (fun c => String.eqb (lower c) (lower a)) catalog); [reflexivity|].
    simpl. rewrite item_lookup_get_spec.
    destruct (find (fun c => String.eqb (lower c) (lower label)) catalog); [reflexivity|].
    simpl. apply first_containing_spec.
  - rewrite item_lookup_get_spec.
    destruct (find (fun c => String.eqb (lower c) (lower label)) catalog); [reflexivity|].
    simpl. apply first_containing_spec.
Qed.

(** On a catalog whose names differ case-insensitively the resolver is
    the priority order of the specification. *)
Lemma resolve_distinct_names (catalog : list string) (label : string) :
  NoDup (map lower catalog) -> resolve catalog label = resolve_spec catalog label.
Proof.
  intros ND. rewrite resolve_last_same_name.
  destruct (resolve_spec catalog label) as [c|] eqn:R; [|reflexivity].
  simpl. f_equal. apply last_same_name_nodup; [exact ND|].
  eapply resolve_spec_in; eassumption.
Qed.

(** C1 (as amended).  The resolver follows the priority order alias
    match, exact match, first containing item, no match, each
    case-insensitive, and returns the last catalog item whose lower-cased
    name equals that of the item the priority order selects; on a catalog
    whose item names are pairwise distinct case-insensitively that is the
    selected item itself. *)
Theorem resolve_priority (catalog : list string) (label : string) :
  resolve catalog label =
    option_map (last_same_name catalog) (resolve_spec catalog label) /\
  (NoDup (map lower catalog) -> resolve catalog label = resolve_spec catalog label).
Proof.
  split; [apply resolve_last_same_name|apply resolve_distinct_names].
Qed.

(* ------------------------------------------------------------------ *)
(** ** Numbers *)

Lemma Qlt_b_true (x y : Q) : Qlt_b x y = true <-> x < y.
Proof.
  unfold Qlt_b. rewrite negb_true_iff. split.
  - intros H. apply Qnot_le_lt. intros L. apply Qle_bool_iff in L. congruence.
  - intros H. destruct (Qle_bool y x) eqn:E; [|reflexivity].
    apply Qle_bool_iff in E. lra.
Qed.

Lemma Qlt_b_false (x y : Q) : Qlt_b x y = false <-> y <= x.
Proof.
  unfold Qlt_b. rewrite negb_false_iff. apply Qle_bool_iff.
Qed.

Lemma py_min_spec (a b : Q) : py_min a b <= a /\ py_min a b <= b /\
  (py_min a b == a \/ py_min a b == b).
Proof.
  unfold py_min. destruct (Qlt_b b a) eqn:E.
  - apply Qlt_b_true in E. lra.
  - apply Qlt_b_false in E. lra.
Qed.

Lemma py_max_spec (a b : Q) : a <= py_max a b /\ b <= py_max a b /\
  (py_max a b == a \/ py_max a b == b).
Proof.
  unfold py_max. destruct (Qlt_b a b) eqn:E.
  - apply Qlt_b_true in E. lra.
  - apply Qlt_b_false in E. lra.
Qed.

(* ------------------------------------------------------------------ *)
(** ** Scaling the catalog *)

(** C3 (as amended).  A non-numeric unit price or consumption value is
    coerced to 0 before it is scaled; a numeric value, negative or not, is
    multiplied as it is.  No scaled value is negative when the numeric
    source values and both multipliers are non-negative. *)
Theorem scale_catalog_coerces (quality_multiplier location_multiplier : Q)
    (materials_df : list material) :
  Forall2 (fun m r =>
             sm_item r = mat_item m /\
             sm_price r == to_numeric_fillna (mat_price m) * location_multiplier /\
             sm_consumption_per_m2 r ==
               to_numeric_fillna (mat_consumption_per_m2 m) * quality_multiplier /\
             (mat_price m = CBad -> sm_price r == 0) /\
             (mat_consumption_per_m2 m = CBad -> sm_consumption_per_m2 r == 0))
          materials_df
          (scale_catalog quality_multiplier location_multiplier materials_df) /\
  (0 <= quality_multiplier -> 0 <= location_multiplier ->
   Forall (fun m => cell_nonneg (mat_price m) /\
                    cell_nonneg (mat_consumption_per_m2 m)) materials_df ->
   Forall (fun r => 0 <= sm_price r /\ 0 <= sm_consumption_per_m2 r)
          (scale_catalog quality_multiplier location_multiplier materials_df)).
Proof.
  split.
  - induction materials_df as [|m df IH]; simpl; constructor; [|exact IH].
    simpl. split; [reflexivity|]. split; [reflexivity|]. split; [reflexivity|].
    split; intros ->; simpl; ring.
  - intros Hq Hl H. induction H as [|m df [Hp Hc] _ IH]; simpl; constructor; [|exact IH].
    simpl. split.
    + destruct (mat_price m); simpl in *; [now apply Qmult_le_0_compat|lra].
    + destruct (mat_consumption_per_m2 m); simpl in *; [now apply Qmult_le_0_compat|lra].
Qed.

Lemma scale_catalog_coerces_witness :
  Forall (fun r => 0 <= sm_price r /\ 0 <= sm_consumption_per_m2 r)
    (scale_catalog 1 (11 # 10)
       [ {| mat_item := "Paint (ltr)"; mat_unit := Some "ltr"; mat_price := CNum 40;
            mat_phase := Some "Finishing"; mat_consumption_per_m2 := CBad |} ]).
Proof.
  apply (proj2 (scale_catalog_coerces 1 (11 # 10) _)).
  - discriminate.
  - discriminate.
  - repeat constructor. simpl. discriminate.
Defined.

(** C3 as stated fails: a negative unit price is not coerced to 0, and
    the scaled price used downstream is negative. *)
Lemma scale_keeps_negative_price :
  sm_price (scale_material 1 1
              {| mat_item := "Paint (ltr)"; mat_unit := Some "ltr"; mat_price := CNum (-5);
                 mat_phase := Some "Finishing"; mat_consumption_per_m2 := CNum 0 |}) == -5 /\
  sm_price (scale_material 1 1
              {| mat_item := "Paint (ltr)"; mat_unit := Some "ltr"; mat_price := CNum (-5);
                 mat_phase := Some "Finishing"; mat_consumption_per_m2 := CNum 0 |}) < 0.
Proof. split; reflexivity. Qed.

(* ------------------------------------------------------------------ *)
(** ** Cost rollup *)

Lemma fold_left_Qplus_acc {A : Type} (f : A -> Q) (l : list A) (acc : Q) :
  fold_left (fun a x => a + f x) l acc == acc + Qsum (map f l).
Proof.
  revert acc. induction l as [|x l IH]; intros acc; simpl.
  - unfold Qsum. simpl. ring.
  - rewrite IH. unfold Qsum. simpl. ring.
Qed.

Lemma base_total_sum (boq : list boq_row) :
  base_total boq == Qsum (map row_total_cost boq).
Proof. unfold base_total. rewrite fold_left_Qplus_acc. ring. Qed.

(** In exact arithmetic the grand total is the base total times one plus
    the three percentages.  The binary64 grand total rounds every product
    and every sum, and can differ from the rounded factored form in the
    last digit. *)
Lemma rollup_factored_exact (boq : list boq_row) (margin_pct fee_pct contingency_pct : Q) :
  grand_total boq margin_pct fee_pct contingency_pct
  == base_total boq * (1 + margin_pct + fee_pct + contingency_pct).
Proof. unfold grand_total, rollup; simpl. ring. Qed.

(** C4 (as amended).  The base total is the sum of the row costs.  Each
    of the three markups is its percentage of the base total itself, and
    the grand total is the base total plus the three markups: the
    percentages are added, not compounded.  A base total of 1000 with
    10%%, 6%% and 10%% gives 1260, also on binary64, where every
    operation is rounded. *)
Theorem rollup_additive (boq : list boq_row)
    (margin_pct fee_pct contingency_pct : Q) :
  sum_base_total (rollup boq margin_pct fee_pct contingency_pct)
    == Qsum (map row_total_cost boq) /\
  (sum_extra_cost (rollup boq margin_pct fee_pct contingency_pct)
     == base_total boq * margin_pct /\
   sum_pro_cost (rollup boq margin_pct fee_pct contingency_pct)
     == base_total boq * fee_pct /\
   sum_cont_cost (rollup boq margin_pct fee_pct contingency_pct)
     == base_total boq * contingency_pct) /\
  grand_total boq margin_pct fee_pct contingency_pct
    == base_total boq + base_total boq * margin_pct + base_total boq * fee_pct
       + base_total boq * contingency_pct /\
  (base_total boq == 1000 -> grand_total boq (pct 10) (pct 6) (pct 10) == 1260) /\
  grand_total_b64 1000 (pct_b64 10) (pct_b64 6) (pct_b64 10) = 1260%float.
Proof.
  unfold grand_total, rollup; simpl. split; [apply base_total_sum|].
  split; [repeat split; reflexivity|]. split; [reflexivity|]. split.
  - intros ->. reflexivity.
  - reflexivity.
Qed.

Lemma rollup_additive_witness :
  grand_total
    [ {| row_item := "Gate (each)"; row_unit := "each"; row_total_qty := 1 # 4;
         row_unit_price := 4000; row_total_cost := 1000; row_phase := "External" |} ]
    (pct 10) (pct 6) (pct 10) == 1260.
Proof.
  apply (proj1 (proj2 (proj2 (proj2 (rollup_additive _ 0 0 0))))). reflexivity.
Defined.

(** C4 as stated fails on the floats of the code: at base total 1000 and
    the percentages 0.10, 0.06 and 0.10 the grand total is 1260.0, and
    [base_total * (1 + margin + fee + contingency)] is
    1260.0000000000002. *)
Lemma rollup_factored_differs_b64 :
  grand_total_b64 1000 (pct_b64 10) (pct_b64 6) (pct_b64 10) = 1260%float /\
  (1000 * (1 + pct_b64 10 + pct_b64 6 + pct_b64 10))%float = 1260.0000000000002%float /\
  (1000 * (1 + pct_b64 10 + pct_b64 6 + pct_b64 10)
   =? grand_total_b64 1000 (pct_b64 10) (pct_b64 6) (pct_b64 10))%float = false.
Proof. repeat split; reflexivity. Qed.

(* ------------------------------------------------------------------ *)
(** ** Affordability scheduler *)

Lemma Qsum_nonneg (xs : list Q) : Forall (fun x => 0 <= x) xs -> 0 <= Qsum xs.
Proof.
  induction 1 as [|x xs Hx _ IH]; unfold Qsum in *; simpl; lra.
Qed.

Section SchedulerFacts.

Variable fpow : Q -> Q -> Q.
Variable phase_tot : PyDict.dict Q.
Variables monthly_savings inflation_pct : Q.

Let entry := phase_entry fpow phase_tot monthly_savings inflation_pct.
Let run := run_from fpow phase_tot monthly_savings inflation_pct.
Let cost ph := get_default phase_tot ph 0.

(** *** The loop and its recursive form *)

Lemma fold_step_results (order : list string) (st : sched_state) :
  results (fold_left (sched_step fpow phase_tot monthly_savings inflation_pct) order st)
  = results st ++ map fst (run (remaining_upfront st) (cum_month st) order).
Proof.
  revert st. induction order as [|ph order IH]; intros st; simpl.
  - now rewrite app_nil_r.
  - rewrite IH. unfold sched_step. fold entry.
    destruct (entry (remaining_upfront st) (cum_month st) ph) as [e r] eqn:E.
    simpl. rewrite <- app_assoc. reflexivity.
Qed.

Lemma schedule_run_from (one_time : Q) (order : list string) :
  schedule fpow phase_tot one_time monthly_savings inflation_pct order
  = map fst (run one_time (Fin 0) order).
Proof. unfold schedule, sched_run. now rewrite fold_step_results. Qed.

Lemma residuals_from_run (order : list string) (st : sched_state) :
  residuals_from fpow phase_tot monthly_savings inflation_pct st order
  = map snd (run (remaining_upfront st) (cum_month st) order).
Proof.
  revert st. induction order as [|ph order IH]; intros st; simpl; [reflexivity|].
  rewrite IH. unfold sched_step. fold entry.
  now destruct (entry (remaining_upfront st) (cum_month st) ph) as [e r] eqn:E.
Qed.

Lemma residuals_run_from (one_time : Q) (order : list string) :
  residuals fpow phase_tot one_time monthly_savings inflation_pct order
  = map snd (run one_time (Fin 0) order).
Proof. unfold residuals. now rewrite residuals_from_run. Qed.

(** *** One phase *)

Lemma entry_fields (rem : Q) (cum : fnum) (ph : string) :
  let e := fst (entry rem cum ph) in
  fe_phase e = ph /\ fe_base e = cost ph /\ fe_start e = cum /\
  fe_end e = fadd (fe_start e) (fe_months e) /\
  fe_after_upfront e = fst (apply_upfront rem (cost ph)) /\
  snd (entry rem cum ph) = snd (apply_upfront rem (cost ph)) /\
  fe_months e =
    (if Qlt_b 0 monthly_savings
     then fdiv_pos (fmul (Fin (fe_after_upfront e))
                         (fpow_ext fpow (1 + inflation_pct / 100) (fdiv_pos cum 12)))
                   monthly_savings
     else PInf).
Proof.
  unfold entry, phase_entry, cost.
  destruct (apply_upfront rem (get_default phase_tot ph 0)) as [a r]. simpl.
  repeat split; reflexivity.
Qed.

Lemma apply_upfront_covered (rem c : Q) :
  0 <= c -> c <= rem ->
  fst (apply_upfront rem c) == 0 /\ snd (apply_upfront rem c) == rem - c.
Proof.
  intros Hc Hr. unfold apply_upfront. destruct (Qlt_b 0 rem) eqn:E; simpl.
  - pose proof (py_min_spec rem c) as Hm.
    pose proof (py_max_spec 0 (c - py_min rem c)) as HM. lra.
  - apply Qlt_b_false in E. lra.
Qed.

Lemma apply_upfront_residual (rem c : Q) :
  0 <= rem -> 0 <= c ->
  0 <= snd (apply_upfront rem c) /\ snd (apply_upfront rem c) <= rem.
Proof.
  intros Hr Hc. unfold apply_upfront. destruct (Qlt_b 0 rem) eqn:E; simpl.
  - pose proof (py_min_spec rem c) as Hm. lra.
  - lra.
Qed.

Lemma apply_upfront_after_nonneg (rem c : Q) :
  0 <= c -> 0 <= fst (apply_upfront rem c).
Proof.
  intros Hc. unfold apply_upfront. destruct (Qlt_b 0 rem) eqn:E; simpl.
  - pose proof (py_max_spec 0 (c - py_min rem c)) as HM. lra.
  - lra.
Qed.

(** *** The chain of months *)

Lemma run_chained (order : list string) (rem : Q) (cum : fnum) :
  chained cum (map fst (run rem cum order)).
Proof.
  revert rem cum. induction order as [|ph order IH]; intros rem cum; simpl; [exact I|].
  fold entry. destruct (entry_fields rem cum ph) as (_ & _ & Hs & He & _).
  repeat split; [exact Hs|exact He|apply IH].
Qed.

Lemma run_phases (order : list string) (rem : Q) (cum : fnum) :
  map fe_phase (map fst (run rem cum order)) = order.
Proof.
  revert rem cum. induction order as [|ph order IH]; intros rem cum; simpl; [reflexivity|].
  fold entry. destruct (entry_fields rem cum ph) as (Hp & _).
  rewrite Hp. f_equal. apply IH.
Qed.

(** *** Upfront cash that covers every phase *)

Lemma run_covered (order : list string) (rem c : Q) :
  0 < monthly_savings ->
  Forall (fun ph => 0 <= cost ph) order ->
  upfront_covers phase_tot rem order ->
  Forall (fun e => is_zero (fe_months e) /\ exists c', fe_end e = Fin c')
         (map fst (run rem (Fin c) order)).
Proof.
  intros Hs. revert rem c.
  induction order as [|ph order IH]; intros rem c Hc Hcov; simpl; [constructor|].
  fold entry. inversion Hc as [|? ? Hph Hrest]; subst.
  simpl in Hcov. destruct Hcov as [Hle Hcov].
  destruct (apply_upfront_covered rem (cost ph)) as [Ha Hr]; [exact Hph|exact Hle|].
  destruct (entry_fields rem (Fin c) ph) as (_ & _ & Hst & He & Haft & Hrem & Hm).
  apply Qlt_b_true in Hs. rewrite Hs in Hm. simpl in Hm.
  assert (Hz : is_zero (fe_months (fst (entry rem (Fin c) ph)))).
  { rewrite Hm. simpl. rewrite Haft, Ha. unfold Qdiv. ring. }
  assert (Hfin : exists c', fe_end (fst (entry rem (Fin c) ph)) = Fin c').
  { rewrite He, Hst, Hm. simpl. eauto. }
  constructor; [split; assumption|].
  destruct Hfin as [c' Hc']. rewrite Hc'. apply IH; [exact Hrest|].
  rewrite Hrem. exact Hcov.
Qed.

(** In exact arithmetic upfront cash of at least the sum of the base
    costs covers every phase.  On binary64 the subtractions of the loop
    are rounded, and the cash left can end a rounding error short of the
    last base cost. *)
Lemma upfront_covers_exact (order : list string) (rem : Q) :
  Forall (fun ph => 0 <= cost ph) order ->
  Qsum (map cost order) <= rem ->
  upfront_covers phase_tot rem order.
Proof.
  revert rem. induction order as [|ph order IH]; intros rem Hc Hsum; simpl; [exact I|].
  inversion Hc as [|? ? Hph Hrest]; subst.
  unfold Qsum in Hsum. simpl in Hsum. fold (Qsum (map cost order)) in Hsum.
  pose proof (Qsum_nonneg (map cost order)) as Hnn.
  assert (Hall : Forall (fun x => 0 <= x) (map cost order)).
  { rewrite Forall_forall in *. intros x Hx. apply in_map_iff in Hx.
    destruct Hx as (p & <- & Hp). now apply Hrest. }
  specialize (Hnn Hall). fold (cost ph).
  destruct (apply_upfront_covered rem (cost ph)) as [_ Hr]; [exact Hph|lra|].
  split; [lra|]. apply IH; [exact Hrest|lra].
Qed.

(** *** Finite and infinite schedules *)


Lemma entry_unfunded (rem : Q) (cum : fnum) (ph : string) :
  Qlt_b 0 monthly_savings = false ->
  cum = PInf \/ (exists c, cum = Fin c) ->
  fe_end (fst (entry rem cum ph)) = PInf.
Proof.
  intros Hs Hc.
  destruct (entry_fields rem cum ph) as (_ & _ & Hst & He & _ & _ & Hm).
  rewrite Hs in Hm. rewrite He, Hst, Hm.
  destruct Hc as [->|[c ->]]; reflexivity.
Qed.

Lemma run_unfunded_tail (order : list string) (rem : Q) :
  Qlt_b 0 monthly_savings = false ->
  Forall (fun e => fe_start e = PInf /\ fe_end e = PInf)
         (map fst (run rem PInf order)).
Proof.
  intros Hs. revert rem.
  induction order as [|ph order IH]; intros rem; simpl; [constructor|].
  fold entry.
  pose proof (entry_unfunded rem PInf ph Hs (or_introl eq_refl)) as He.
  destruct (entry_fields rem PInf ph) as (_ & _ & Hst & _).
  constructor; [split; assumption|]. rewrite He. apply IH.
Qed.

Lemma infinite_months_nondecreasing (es : list funding_entry) :
  Forall (fun e => fe_start e = PInf /\ fe_end e = PInf) es ->
  nondecreasing_from PInf (months_seq es).
Proof.
  induction 1 as [|e es [Hs He] _ IH]; simpl; [exact I|].
  rewrite Hs, He. simpl. auto.
Qed.

(** With positive savings, costs that are not negative and a power that
    is not negative, the months never decrease. *)
Lemma run_funded_nondecreasing (order : list string) (rem c : Q) :
  (forall x, 0 <= fpow (1 + inflation_pct / 100) x) ->
  0 < monthly_savings ->
  Forall (fun ph => 0 <= cost ph) order ->
  nondecreasing_from (Fin c) (months_seq (map fst (run rem (Fin c) order))).
Proof.
  intros Hp Hs. revert rem c.
  induction order as [|ph order IH]; intros rem c Hc; simpl; [exact I|].
  fold entry. inversion Hc as [|? ? Hph Hrest]; subst.
  destruct (entry_fields rem (Fin c) ph) as (_ & _ & Hst & He & Haft & _ & Hm).
  pose proof (apply_upfront_after_nonneg rem (cost ph) Hph) as Hnn.
  rewrite <- Haft in Hnn.
  pose proof Hs as Hs'. apply Qlt_b_true in Hs'. rewrite Hs' in Hm. simpl in Hm.
  rewrite He, Hst, Hm. simpl.
  set (a := fe_after_upfront (fst (entry rem (Fin c) ph))) in *.
  set (p := fpow (1 + inflation_pct / 100) (c / 12)).
  assert (Hq : 0 <= a * p / monthly_savings).
  { apply Qle_shift_div_l; [exact Hs|].
    rewrite Qmult_0_l. apply Qmult_le_0_compat; [exact Hnn|apply Hp]. }
  split; [apply Qle_refl|]. split; [lra|]. apply IH. exact Hrest.
Qed.

(** Without savings the first phase ends at infinity and every later
    month is infinite. *)
Lemma run_unfunded_nondecreasing (order : list string) (rem c : Q) :
  Qlt_b 0 monthly_savings = false ->
  nondecreasing_from (Fin c) (months_seq (map fst (run rem (Fin c) order))).
Proof.
  intros Hs. destruct order as [|ph rest]; simpl; [exact I|]. fold entry.
  pose proof (entry_unfunded rem (Fin c) ph Hs (or_intror (ex_intro _ c eq_refl))) as He.
  destruct (entry_fields rem (Fin c) ph) as (_ & _ & Hst & _).
  rewrite He, Hst. split; [apply Qle_refl|]. split; [exact I|].
  apply infinite_months_nondecreasing. now apply run_unfunded_tail.
Qed.

(** *** The upfront cash left *)


End SchedulerFacts.

(** C5.  The funding entries, one per phase in build order, form a
    chain: the first starts at month 0, every later one starts at the end
    month of the one before, and each ends [months_needed] after it
    starts. *)
Theorem schedule_chain (fpow : Q -> Q -> Q) (phase_tot : PyDict.dict Q)
    (upfront_cash monthly_savings inflation_pct : Q) (phase_order : list string) :
  chained (Fin 0)
    (schedule fpow phase_tot upfront_cash monthly_savings inflation_pct phase_order) /\
  map fe_phase
    (schedule fpow phase_tot upfront_cash monthly_savings inflation_pct phase_order)
  = phase_order.
Proof.
  rewrite schedule_run_from. split; [apply run_chained|apply run_phases].
Qed.

(** C6 (as amended).  With positive monthly savings and phase base costs
    that are not negative, when the upfront cash left at each phase is
    at least the base cost of that phase, [months_needed] is zero in
    every funding entry. *)
Theorem upfront_covers_all (fpow : Q -> Q -> Q) (phase_tot : PyDict.dict Q)
    (upfront_cash monthly_savings inflation_pct : Q) (phase_order : list string) :
  0 < monthly_savings ->
  Forall (fun ph => 0 <= get_default phase_tot ph 0) phase_order ->
  upfront_covers phase_tot upfront_cash phase_order ->
  Forall (fun e => is_zero (fe_months e))
    (schedule fpow phase_tot upfront_cash monthly_savings inflation_pct phase_order).
Proof.
  intros Hs Hc Hcov. rewrite schedule_run_from.
  pose proof (run_covered fpow phase_tot monthly_savings inflation_pct
                phase_order upfront_cash 0 Hs Hc Hcov) as H.
  eapply Forall_impl; [|exact H]. now intros e [Hz _].
Qed.

Lemma upfront_covers_all_witness :
  Forall (fun e => is_zero (fe_months e))
    (schedule pow_one [("Foundation", 1200); ("Roofing", 300)] 1500 400 10
       ["Foundation"; "Roofing"]).
Proof.
  apply upfront_covers_all.
  - reflexivity.
  - repeat constructor; discriminate.
  - vm_compute. repeat split; discriminate.
Defined.

(** C6 as stated fails: the upfront cash covers both phases, yet with no
    monthly savings [months_needed] is infinite. *)
Lemma upfront_covers_all_no_savings :
  total_base [("Foundation", 1200); ("Roofing", 300)] ["Foundation"; "Roofing"] <= 5000 /\
  map fe_after_upfront
    (schedule pow_one [("Foundation", 1200); ("Roofing", 300)] 5000 0 0
       ["Foundation"; "Roofing"]) = [0; 0] /\
  map fe_months
    (schedule pow_one [("Foundation", 1200); ("Roofing", 300)] 5000 0 0
       ["Foundation"; "Roofing"]) = [PInf; PInf] /\
  ~ Forall (fun e => is_zero (fe_months e))
      (schedule pow_one [("Foundation", 1200); ("Roofing", 300)] 5000 0 0
         ["Foundation"; "Roofing"]).
Proof.
  split; [discriminate|]. split; [reflexivity|]. split; [reflexivity|].
  intros H. inversion H as [|? ? Hz _]. exact Hz.
Qed.

(** On the floats of the code the claim as stated fails also with
    savings: the base costs 1550.8, 2549.0 and 1694.2 add up to 5794.0,
    yet with 5794.0 of upfront cash the third phase keeps a cost of
    2.27e-13, which at savings of 400 a month (the power at start month 0
    being 1) needs 5.7e-16 months. *)
Example upfront_residue_b64 :
  (1550.8 + 2549.0 + 1694.2 <=? 5794.0)%float = true /\
  after_upfront_b64 5794.0%float [1550.8; 2549.0; 1694.2]%float
    = [0; 0; 2.2737367544323206e-13]%float /\
  (2.2737367544323206e-13 * 1 / 400)%float = 5.6843418860808015e-16%float.
Proof. repeat split; reflexivity. Qed.

(** A base cost that is negative is not paid by upfront cash that is
    used up: it is covered in the sense of the hypothesis, and the phase
    gets a negative [months_needed]. *)
Example negative_cost_needs_months :
  upfront_covers [("Refund", -5)] 0 ["Refund"] /\
  map fe_after_upfront (schedule pow_one [("Refund", -5)] 0 1 0 ["Refund"]) = [-5] /\
  ~ Forall (fun e => is_zero (fe_months e))
      (schedule pow_one [("Refund", -5)] 0 1 0 ["Refund"]).
Proof.
  split; [vm_compute; split; [discriminate|exact I]|]. split; [reflexivity|].
  intros H. inversion H as [|? ? Hz _]. vm_compute in Hz. discriminate Hz.
Qed.


(** With base costs and a power that are not negative, the months of
    the schedule never decrease and are not negative, whatever the
    savings. *)
Lemma schedule_nondecreasing (fpow : Q -> Q -> Q) (phase_tot : PyDict.dict Q)
    (upfront_cash monthly_savings inflation_pct : Q) (phase_order : list string) :
  (forall x, 0 <= fpow (1 + inflation_pct / 100) x) ->
  Forall (fun ph => 0 <= get_default phase_tot ph 0) phase_order ->
  nondecreasing_from (Fin 0)
    (months_seq
       (schedule fpow phase_tot upfront_cash monthly_savings inflation_pct phase_order)).
Proof.
  intros Hp Hc. rewrite schedule_run_from.
  destruct (Qlt_b 0 monthly_savings) eqn:Hs.
  - apply run_funded_nondecreasing; [exact Hp|now apply Qlt_b_true|exact Hc].
  - now apply run_unfunded_nondecreasing.
Qed.



Example funded_months_nondecreasing :
  nondecreasing_from (Fin 0)
    (months_seq
       (schedule pow_one [("Foundation", 1200); ("Roofing", 300)] 500 400 0
          ["Foundation"; "Roofing"])).
Proof.
  apply schedule_nondecreasing.
  - intros x. discriminate.
  - repeat constructor; discriminate.
Qed.



Example scenario_C :
  map (fun e => (fe_months e, fe_end e))
    (schedule pow_one [("Structure", 1200)] 0 400 0 ["Structure"])
  = [(Fin (1200 * 1 / 400), Fin (0 + 1200 * 1 / 400))] /\
  1200 * 1 / 400 == 3.
Proof. split; reflexivity. Qed.

Example scenario_D :
  map fe_after_upfront (schedule pow_one [("Structure", 1200)] 500 400 0 ["Structure"])
  = [1200 - 500].
Proof. reflexivity. Qed.

(* ------------------------------------------------------------------ *)
(** ** The BOQ builder: the quantity map *)

Lemma total_area_sum (counts : PyDict.dict Z) (templates : PyDict.dict room_template) :
  total_area counts templates ==
  Qsum (map (fun rc => inject_Z (snd rc) * template_area templates (fst rc)) counts).
Proof. unfold total_area. rewrite fold_left_Qplus_acc. ring. Qed.

Lemma scale_catalog_items (qm lm : Q) (df : list material) :
  map sm_item (scale_catalog qm lm df) = map mat_item df.
Proof. unfold scale_catalog. rewrite map_map. reflexivity. Qed.


Lemma fold_add_fixture (lookup : PyDict.dict string) (cnt : Z)
    (fxs : PyDict.dict Q) (qty_map : PyDict.dict Q) :
  fold_left (add_fixture lookup cnt) fxs qty_map =
  apply_contribs lookup
    (map (fun fx => (fst fx, snd fx * inject_Z cnt))
         (filter (fun fx => negb (Qle_bool (snd fx) 0)) fxs))
    qty_map.
Proof.
  revert qty_map. induction fxs as [|[fk fq] fxs IH]; intros qty_map; simpl; [reflexivity|].
  rewrite IH. destruct (Qle_bool fq 0); reflexivity.
Qed.

Lemma apply_contribs_app (lookup : PyDict.dict string) (cs1 cs2 : list (string * Q))
    (qty_map : PyDict.dict Q) :
  apply_contribs lookup (cs1 ++ cs2) qty_map =
  apply_contribs lookup cs2 (apply_contribs lookup cs1 qty_map).
Proof. unfold apply_contribs. apply fold_left_app. Qed.

(** The two nested loops add the contributions one after the other. *)
Lemma fold_add_room (lookup : PyDict.dict string) (templates : PyDict.dict room_template)
    (counts : PyDict.dict Z) (qty_map : PyDict.dict Q) :
  fold_left (add_room lookup templates) counts qty_map =
  apply_contribs lookup (fixture_contribs counts templates) qty_map.
Proof.
  revert qty_map. induction counts as [|[room cnt] counts IH]; intros qty_map; simpl;
    [reflexivity|].
  rewrite IH, apply_contribs_app. f_equal.
  unfold room_contribs. simpl. destruct (cnt <=? 0)%Z; [reflexivity|].
  apply fold_add_fixture.
Qed.



Lemma fold_set_not_nil {A : Type} (f : A -> string) (g : A -> Q)
    (l : list A) (d : PyDict.dict Q) :
  d <> [] -> fold_left (fun qm x => PyDict.set (f x) (g x) qm) l d <> [].
Proof.
  revert d. induction l as [|x l IH]; intros d Hd; simpl; [exact Hd|].
  apply IH. apply set_not_nil.
Qed.

Lemma seed_qty_map_nil_iff (mat : list scaled_material) (area : Q) :
  seed_qty_map mat area = [] <-> mat = [].
Proof.
  unfold seed_qty_map. split; [|now intros ->].
  destruct mat as [|r mat]; [reflexivity|]. simpl. intros H. exfalso.
  revert H. apply fold_set_not_nil. discriminate.
Qed.

Lemma apply_contribs_not_nil (lookup : PyDict.dict string) (cs : list (string * Q))
    (qty_map : PyDict.dict Q) :
  qty_map <> [] -> apply_contribs lookup cs qty_map <> [].
Proof.
  unfold apply_contribs. revert qty_map.
  induction cs as [|c cs IH]; intros qty_map H; simpl; [exact H|].
  apply IH. apply set_not_nil.
Qed.

Lemma apply_contribs_nil_iff (lookup : PyDict.dict string) (cs : list (string * Q))
    (qty_map : PyDict.dict Q) :
  apply_contribs lookup cs qty_map = [] <-> cs = [] /\ qty_map = [].
Proof.
  split; [|now intros [-> ->]].
  destruct cs as [|c cs].
  - now split.
  - intros H. exfalso. revert H. unfold apply_contribs. simpl.
    apply (apply_contribs_not_nil lookup cs). apply set_not_nil.
Qed.

(* ------------------------------------------------------------------ *)
(** ** The BOQ builder: grouping *)

Lemma agg_insert_not_nil (r : boq_row) (groups : list boq_row) :
  agg_insert r groups <> [].
Proof.
  destruct groups as [|g rest]; simpl; [discriminate|].
  destruct (key_compare r g); discriminate.
Qed.

Lemma agg_rows_nil_iff (rows : list boq_row) : agg_rows rows = [] <-> rows = [].
Proof.
  unfold agg_rows. split; [|now intros ->].
  destruct rows as [|r rows]; [reflexivity|]. simpl. intros H. exfalso. revert H.
  assert (G : forall (l acc : list boq_row), acc <> [] ->
                fold_left (fun groups r => agg_insert r groups) l acc <> []).
  { induction l as [|x l IH]; intros acc Ha; simpl; [exact Ha|].
    apply IH. apply agg_insert_not_nil. }
  apply G. discriminate.
Qed.

(** *** Rows that [groupby] leaves out *)

Lemma keyed_row_item (r : raw_row) (b : boq_row) :
  keyed_row r = Some b -> row_item b = raw_item r.
Proof.
  unfold keyed_row. destruct (raw_unit r), (raw_phase r); try discriminate.
  now intros [= <-].
Qed.

Lemma in_dropna (rows : list raw_row) (b : boq_row) :
  In b (dropna rows) <-> exists r, In r rows /\ keyed_row r = Some b.
Proof.
  unfold dropna. rewrite in_flat_map. split; intros (r & I & H); exists r; split; trivial.
  - destruct (keyed_row r) as [b'|]; [|destruct H]. destruct H as [->|[]]. reflexivity.
  - rewrite H. now left.
Qed.


Lemma dropna_nodup (rows : list raw_row) :
  NoDup (map raw_item rows) -> NoDup (map row_item (dropna rows)).
Proof.
  induction rows as [|r rows IH]; simpl; intros N; [constructor|].
  inversion N as [|? ? NI N']; subst.
  destruct (keyed_row r) as [b|] eqn:K; simpl; [|now apply IH].
  constructor; [|now apply IH].
  intros I. apply NI. apply in_map_iff in I. destruct I as (b' & E & I).
  apply in_dropna in I. destruct I as (r' & I & K').
  apply keyed_row_item in K, K'. apply in_map_iff. exists r'. split; [congruence|exact I].
Qed.


(* ------------------------------------------------------------------ *)
(** ** Doubling the room counts *)

Lemma dict_doubled_get (m m2 : PyDict.dict Q) (k : string) :
  dict_doubled m m2 -> get_default m2 k 0 == 2 * get_default m k 0.
Proof.
  unfold get_default. induction 1 as [|[k1 v1] [k2 v2] m m2 [Hk Hv] _ IH]; simpl in *.
  - ring.
  - subst k2. destruct (String.eqb k1 k); [exact Hv|exact IH].
Qed.

Lemma dict_doubled_set (m m2 : PyDict.dict Q) (k : string) (v v2 : Q) :
  dict_doubled m m2 -> v2 == 2 * v ->
  dict_doubled (PyDict.set k v m) (PyDict.set k v2 m2).
Proof.
  intros H Hv. induction H as [|[k1 v1] [k2 w2] m m2 [Hk Hw] Hrest IH]; simpl in *.
  - constructor; [now split|constructor].
  - subst k2. destruct (String.eqb k1 k).
    + constructor; [now split|exact Hrest].
    + constructor; [now split|exact IH].
Qed.

Lemma dict_doubled_add_qty (m m2 : PyDict.dict Q) (k : string) (a a2 : Q) :
  dict_doubled m m2 -> a2 == 2 * a ->
  dict_doubled (add_qty k a m) (add_qty k a2 m2).
Proof.
  intros H Ha. unfold add_qty. apply dict_doubled_set; [exact H|].
  rewrite (dict_doubled_get m m2 k H), Ha. ring.
Qed.

Lemma dict_doubled_seed (mat : list scaled_material) (area area2 : Q) :
  area2 == 2 * area ->
  dict_doubled (seed_qty_map mat area) (seed_qty_map mat area2).
Proof.
  intros Ha. unfold seed_qty_map.
  assert (G : forall d d2, dict_doubled d d2 ->
    dict_doubled
      (fold_left (fun qm row => PyDict.set (sm_item row) (sm_consumption_per_m2 row * area) qm)
                 mat d)
      (fold_left (fun qm row => PyDict.set (sm_item row) (sm_consumption_per_m2 row * area2) qm)
                 mat d2)).
  { induction mat as [|r mat IH]; intros d d2 Hd; simpl; [exact Hd|].
    apply IH. apply dict_doubled_set; [exact Hd|]. rewrite Ha. ring. }
  apply G. constructor.
Qed.

Lemma dict_doubled_add_room (lookup : PyDict.dict string)
    (templates : PyDict.dict room_template) (m m2 : PyDict.dict Q)
    (room : string) (cnt : Z) :
  dict_doubled m m2 ->
  dict_doubled (add_room lookup templates m (room, cnt))
               (add_room lookup templates m2 (room, (2 * cnt)%Z)).
Proof.
  intros H. unfold add_room.
  replace (2 * cnt <=? 0)%Z with (cnt <=? 0)%Z
    by (destruct (cnt <=? 0)%Z eqn:E; symmetry;
        [apply Z.leb_le in E; apply Z.leb_le; lia
        |apply Z.leb_gt in E; apply Z.leb_gt; lia]).
  destruct (cnt <=? 0)%Z; [exact H|].
  assert (Hc : inject_Z (2 * cnt) == 2 * inject_Z cnt)
    by (rewrite inject_Z_mult; reflexivity).
  revert Hc. generalize (2 * cnt)%Z. intros c2 Hc.
  revert m m2 H.
  induction (template_fixtures templates room) as [|[fk fq] fxs IH]; intros m m2 H; simpl;
    [exact H|].
  apply IH. destruct (Qle_bool fq 0); [exact H|].
  apply dict_doubled_add_qty; [exact H|].
  rewrite Hc. ring.
Qed.

Lemma dict_doubled_rooms (lookup : PyDict.dict string)
    (templates : PyDict.dict room_template) (counts : PyDict.dict Z)
    (m m2 : PyDict.dict Q) :
  dict_doubled m m2 ->
  dict_doubled (fold_left (add_room lookup templates) counts m)
               (fold_left (add_room lookup templates) (double_counts counts) m2).
Proof.
  revert m m2. induction counts as [|[room cnt] counts IH]; intros m m2 H; simpl;
    [exact H|].
  apply IH. now apply dict_doubled_add_room.
Qed.

Lemma total_area_double (counts : PyDict.dict Z) (templates : PyDict.dict room_template) :
  total_area (double_counts counts) templates == 2 * total_area counts templates.
Proof.
  rewrite !total_area_sum. unfold double_counts, Qsum.
  induction counts as [|[room cnt] counts IH]; cbn [map fold_right fst snd].
  - ring.
  - rewrite IH, inject_Z_mult. change (inject_Z 2) with 2. ring.
Qed.

(** A quantity [c] times as large gives the same row with quantity and
    cost [c] times as large. *)
Lemma make_row_scaled (c : Q) (mat : list scaled_material) (kv kv2 : string * Q) :
  fst kv2 = fst kv -> snd kv2 == c * snd kv ->
  raw_scaled c (make_row mat kv) (make_row mat kv2).
Proof.
  destruct kv as [k v], kv2 as [k2 v2]. simpl. intros -> Hv. unfold make_row, raw_scaled.
  destruct (find (fun r => String.eqb (sm_item r) k) mat) as [r|]; simpl;
    repeat (split; [reflexivity|]); split; try exact Hv; rewrite Hv; ring.
Qed.

Lemma map_make_row_scaled (c : Q) (mat : list scaled_material) (m m2 : PyDict.dict Q) :
  Forall2 (fun kv kv2 => fst kv2 = fst kv /\ snd kv2 == c * snd kv) m m2 ->
  Forall2 (raw_scaled c) (map (make_row mat) m) (map (make_row mat) m2).
Proof.
  induction 1 as [|kv kv2 m m2 [Hk Hv] _ IH]; simpl; constructor; [|exact IH].
  now apply make_row_scaled.
Qed.

Lemma dropna_cons (r : raw_row) (rows : list raw_row) :
  dropna (r :: rows) =
  match keyed_row r with Some b => b :: dropna rows | None => dropna rows end.
Proof. unfold dropna. simpl. now destruct (keyed_row r). Qed.

(** Rows with the same key are dropped together. *)
Lemma dropna_doubled (rows rows2 : list raw_row) :
  Forall2 (raw_scaled 2) rows rows2 -> Forall2 row_doubled (dropna rows) (dropna rows2).
Proof.
  induction 1 as [|r r2 rows rows2 (H1 & H2 & H3 & H4 & H5 & H6) _ IH];
    [constructor|].
  rewrite !dropna_cons. unfold keyed_row. rewrite H2, H4.
  destruct (raw_unit r), (raw_phase r); try exact IH.
  constructor; [|exact IH]. unfold row_doubled. simpl.
  split; [exact H1|]. split; [reflexivity|]. split; [exact H3|].
  split; [reflexivity|]. split; assumption.
Qed.


Lemma key_compare_doubled (r r2 g g2 : boq_row) :
  row_doubled r r2 -> row_doubled g g2 -> key_compare r2 g2 = key_compare r g.
Proof.
  intros (A1 & A2 & A3 & A4 & _) (B1 & B2 & B3 & B4 & _).
  unfold key_compare. now rewrite A1, A2, A3, A4, B1, B2, B3, B4.
Qed.

Lemma row_doubled_merge (g g2 r r2 : boq_row) :
  row_doubled g g2 -> row_doubled r r2 -> row_doubled (merge_row g r) (merge_row g2 r2).
Proof.
  intros (A1 & A2 & A3 & A4 & A5 & A6) (B1 & B2 & B3 & B4 & B5 & B6).
  unfold row_doubled, merge_row. simpl.
  repeat (split; [assumption|]). split; [rewrite A5, B5|rewrite A6, B6]; ring.
Qed.

Lemma agg_insert_doubled (r r2 : boq_row) (gs gs2 : list boq_row) :
  row_doubled r r2 -> Forall2 row_doubled gs gs2 ->
  Forall2 row_doubled (agg_insert r gs) (agg_insert r2 gs2).
Proof.
  intros Hr H. induction H as [|g g2 gs gs2 Hg Hrest IH]; simpl.
  - constructor; [exact Hr|constructor].
  - rewrite (key_compare_doubled r r2 g g2 Hr Hg).
    destruct (key_compare r g).
    + constructor; [now apply row_doubled_merge|exact Hrest].
    + constructor; [exact Hr|]. constructor; [exact Hg|exact Hrest].
    + constructor; [exact Hg|exact IH].
Qed.

Lemma agg_rows_doubled (rows rows2 : list boq_row) :
  Forall2 row_doubled rows rows2 ->
  Forall2 row_doubled (agg_rows rows) (agg_rows rows2).
Proof.
  unfold agg_rows. intros H.
  assert (G : forall acc acc2, Forall2 row_doubled acc acc2 ->
    Forall2 row_doubled
      (fold_left (fun groups r => agg_insert r groups) rows acc)
      (fold_left (fun groups r => agg_insert r groups) rows2 acc2)).
  { induction H as [|r r2 rows rows2 Hr _ IH]; intros acc acc2 Ha; simpl; [exact Ha|].
    apply IH. now apply agg_insert_doubled. }
  apply G. constructor.
Qed.

(** C8.  Doubling every room count doubles the total area, doubles the
    area-driven quantity seeded for every catalog item, and in the
    resulting BOQ every row keeps its item, unit, unit price and phase
    while its quantity and its cost are doubled. *)
Theorem doubling_counts_doubles (room_counts : PyDict.dict Z)
    (templates : PyDict.dict room_template) (materials_df : list material)
    (quality_multiplier location_multiplier : Q) :
  total_area (double_counts room_counts) templates
    == 2 * total_area room_counts templates /\
  dict_doubled
    (seed_qty_map (scale_catalog quality_multiplier location_multiplier materials_df)
       (total_area room_counts templates))
    (seed_qty_map (scale_catalog quality_multiplier location_multiplier materials_df)
       (total_area (double_counts room_counts) templates)) /\
  Forall2 row_doubled
    (build_boq room_counts templates materials_df quality_multiplier location_multiplier)
    (build_boq (double_counts room_counts) templates materials_df
       quality_multiplier location_multiplier).
Proof.
  pose proof (total_area_double room_counts templates) as Ha.
  split; [exact Ha|]. split; [now apply dict_doubled_seed|].
  unfold build_boq, build_qty_map.
  set (mat := scale_catalog quality_multiplier location_multiplier materials_df).
  pose proof (dict_doubled_rooms (item_lookup (map sm_item mat)) templates room_counts
                _ _ (dict_doubled_seed mat _ _ Ha)) as Hq.
  assert (Hrows : Forall2 (raw_scaled 2)
            (map (make_row mat)
               (fold_left (add_room (item_lookup (map sm_item mat)) templates) room_counts
                  (seed_qty_map mat (total_area room_counts templates))))
            (map (make_row mat)
               (fold_left (add_room (item_lookup (map sm_item mat)) templates)
                  (double_counts room_counts)
                  (seed_qty_map mat (total_area (double_counts room_counts) templates)))))
    by exact (map_make_row_scaled 2 mat _ _ Hq).
  revert Hrows. generalize (map (make_row mat)
      (fold_left (add_room (item_lookup (map sm_item mat)) templates) room_counts
         (seed_qty_map mat (total_area room_counts templates)))).
  generalize (map (make_row mat)
      (fold_left (add_room (item_lookup (map sm_item mat)) templates)
         (double_counts room_counts)
         (seed_qty_map mat (total_area (double_counts room_counts) templates)))).
  intros rows2 rows Hrows.
  pose proof (agg_rows_doubled _ _ (dropna_doubled _ _ Hrows)) as Hg.
  destruct Hrows; [constructor|exact Hg].
Qed.


(* ------------------------------------------------------------------ *)
(** ** Unmatched fixtures *)

Lemma last_same_name_in (catalog : list string) (c : string) :
  In c catalog -> In (last_same_name catalog c) catalog.
Proof.
  intros I. unfold last_same_name.
  destruct (find _ (rev catalog)) as [c'|] eqn:F; [|exact I].
  apply find_some in F. apply in_rev. tauto.
Qed.

Lemma resolve_in_catalog (catalog : list string) (label m : string) :
  resolve catalog label = Some m -> In m catalog.
Proof.
  rewrite resolve_last_same_name.
  destruct (resolve_spec catalog label) as [c|] eqn:R; simpl; [|discriminate].
  intros H. injection H as <-. apply last_same_name_in.
  eapply resolve_spec_in; eassumption.
Qed.

Lemma resolve_none_no_substring (catalog : list string) (label c : string) :
  resolve catalog label = None -> In c catalog ->
  contains (lower label) (lower c) = false.
Proof.
  rewrite resolve_last_same_name. intros H I.
  assert (R : resolve_spec catalog label = None)
    by (destruct (resolve_spec catalog label); [discriminate|reflexivity]).
  clear H. unfold resolve_spec in R.
  assert (F : find (fun c => contains (lower label) (lower c)) catalog = None).
  { destruct (PyDict.get FIXTURE_ITEM_MAP label) as [a|];
      [destruct (find (fun c0 => String.eqb (lower c0) (lower a)) catalog);
         [discriminate|]|];
      destruct (find (fun c0 => String.eqb (lower c0) (lower label)) catalog);
      try discriminate; exact R. }
  exact (find_none _ _ F c I).
Qed.

(** The placeholder label of an unmatched fixture is no catalog item:
    its lower-cased name would contain the lower-cased label. *)
Lemma user_label_not_item (catalog : list string) (fk : string) :
  contains (lower fk) (lower (user_label fk)) = true ->
  resolve catalog fk = None -> ~ In (user_label fk) catalog.
Proof.
  intros L H I. pose proof (resolve_none_no_substring catalog fk _ H I) as C.
  congruence.
Qed.

Lemma fixture_target_user_iff (catalog : list string) (fk fk' : string) :
  contains (lower fk) (lower (user_label fk)) = true ->
  resolve catalog fk = None ->
  fixture_target (item_lookup catalog) fk' = user_label fk <-> fk' = fk.
Proof.
  intros L H. unfold fixture_target. fold (resolve catalog fk'). split.
  - destruct (resolve catalog fk') as [m|] eqn:R.
    + destruct (truthy m).
      * intros ->. apply resolve_in_catalog in R.
        now elim (user_label_not_item catalog fk L H).
      * unfold user_label. apply append_inj_l.
    + unfold user_label. apply append_inj_l.
  - intros ->. now rewrite H.
Qed.

Section Contribs.

Variable lookup : PyDict.dict string.

Lemma add_qty_keys_in (k k' : string) (a : Q) (m : PyDict.dict Q) :
  In k' (PyDict.keys (add_qty k a m)) <-> In k' (PyDict.keys m) \/ k' = k.
Proof.
  clear lower.
  unfold add_qty. rewrite keys_set. unfold PyDict.mem.
  destruct (PyDict.get m k) eqn:G.
  - apply get_Some_in_keys in G. split; [tauto|]. intros [I| ->]; assumption.
  - rewrite in_app_iff. simpl. intuition.
Qed.

Lemma add_qty_get (k k' : string) (a : Q) (m : PyDict.dict Q) :
  get_default (add_qty k a m) k' 0 =
  if String.eqb k k' then get_default m k 0 + a else get_default m k' 0.
Proof.
  unfold add_qty. unfold get_default at 1.
  destruct (String.eqb k k') eqn:E.
  - apply String.eqb_eq in E. subst k'. now rewrite get_set_same.
  - apply String.eqb_neq in E. now rewrite get_set_other.
Qed.

Lemma apply_contribs_keys_in (cs : list (string * Q)) (m : PyDict.dict Q) (k : string) :
  In k (PyDict.keys (apply_contribs lookup cs m)) <->
  In k (PyDict.keys m) \/ exists c, In c cs /\ fixture_target lookup (fst c) = k.
Proof.
  unfold apply_contribs. revert m.
  induction cs as [|c cs IH]; intros m; simpl.
  - split; [tauto|]. intros [I|(c & [] & _)]. exact I.
  - rewrite IH, add_qty_keys_in. split.
    + intros [[I|E]|(c' & I & E)]; [tauto| |].
      * right. exists c. split; [now left|now symmetry].
      * right. exists c'. split; [now right|exact E].
    + intros [I|(c' & [->|I] & E)]; [tauto| |].
      * left. right. now symmetry.
      * right. exists c'. tauto.
Qed.

Lemma apply_contribs_get (cs : list (string * Q)) (m : PyDict.dict Q) (k : string) :
  get_default (apply_contribs lookup cs m) k 0 =
  target_sum lookup k (get_default m k 0) cs.
Proof.
  unfold apply_contribs, target_sum. revert m.
  induction cs as [|c cs IH]; intros m; simpl; [reflexivity|].
  rewrite IH, add_qty_get.
  destruct (String.eqb (fixture_target lookup (fst c)) k) eqn:E; [|reflexivity].
  apply String.eqb_eq in E. now rewrite E.
Qed.

Lemma apply_contribs_nodup (cs : list (string * Q)) (m : PyDict.dict Q) :
  NoDup (PyDict.keys m) -> NoDup (PyDict.keys (apply_contribs lookup cs m)).
Proof.
  unfold apply_contribs. revert m.
  induction cs as [|c cs IH]; intros m H; simpl; [exact H|].
  apply IH. unfold add_qty. now apply keys_set_nodup.
Qed.

End Contribs.

Lemma target_sum_user (catalog : list string) (fk : string) (cs : list (string * Q)) :
  contains (lower fk) (lower (user_label fk)) = true ->
  resolve catalog fk = None ->
  target_sum (item_lookup catalog) (user_label fk) 0 cs = contrib_sum fk cs.
Proof.
  intros L H. unfold target_sum, contrib_sum. generalize 0.
  induction cs as [|c cs IH]; intros start; simpl; [reflexivity|].
  destruct (String.eqb (fst c) fk) eqn:E.
  - apply String.eqb_eq in E.
    apply (fixture_target_user_iff catalog fk (fst c) L H) in E.
    rewrite E, String.eqb_refl. apply IH.
  - destruct (String.eqb (fixture_target (item_lookup catalog) (fst c)) (user_label fk))
      eqn:E'; [|apply IH].
    apply String.eqb_eq in E'.
    apply (fixture_target_user_iff catalog fk (fst c) L H) in E'.
    apply String.eqb_neq in E. contradiction.
Qed.

Lemma seed_qty_map_keys (mat : list scaled_material) (area : Q) :
  NoDup (PyDict.keys (seed_qty_map mat area)) /\
  (forall k, In k (PyDict.keys (seed_qty_map mat area)) -> In k (map sm_item mat)).
Proof.
  clear lower.
  unfold seed_qty_map.
  assert (G : forall (d : PyDict.dict Q), NoDup (PyDict.keys d) ->
    let d' := fold_left
                (fun qm row => PyDict.set (sm_item row) (sm_consumption_per_m2 row * area) qm)
                mat d in
    NoDup (PyDict.keys d') /\
    (forall k, In k (PyDict.keys d') -> In k (PyDict.keys d) \/ In k (map sm_item mat))).
  { induction mat as [|r mat IH]; intros d Hd; simpl; [tauto|].
    destruct (IH (PyDict.set (sm_item r) (sm_consumption_per_m2 r * area) d)) as [N K];
      [now apply keys_set_nodup|].
    split; [exact N|]. intros k I. apply K in I. destruct I as [I|I]; [|tauto].
    rewrite keys_set in I. unfold PyDict.mem in I.
    destruct (PyDict.get d (sm_item r)); [tauto|].
    apply in_app_iff in I. simpl in I. intuition. }
  destruct (G [] (NoDup_nil _)) as [N K]. split; [exact N|].
  intros k I. apply K in I. destruct I as [[]|I]. exact I.
Qed.

Lemma make_row_item (mat : list scaled_material) (kv : string * Q) :
  raw_item (make_row mat kv) = fst kv.
Proof.
  destruct kv as [k v]. unfold make_row.
  now destruct (find (fun r => String.eqb (sm_item r) k) mat).
Qed.

Lemma make_row_placeholder (mat : list scaled_material) (k : string) (v : Q) :
  ~ In k (map sm_item mat) ->
  make_row mat (k, v) =
  {| raw_item := k; raw_unit := Some "each"; raw_total_qty := v;
     raw_unit_price := 0; raw_total_cost := v * 0; raw_phase := Some "Misc" |}.
Proof.
  intros N. unfold make_row.
  destruct (find (fun r => String.eqb (sm_item r) k) mat) as [r|] eqn:F; [|reflexivity].
  apply find_some in F. destruct F as [I E]. apply String.eqb_eq in E.
  elim N. rewrite <- E. now apply in_map.
Qed.

(** *** Grouping rows whose items are all different *)

Lemma key_compare_Eq_item (r g : boq_row) :
  key_compare r g = Eq -> row_item r = row_item g.
Proof.
  unfold key_compare.
  destruct (String.compare (row_item r) (row_item g)) eqn:C; try discriminate.
  intros _. now apply String.compare_eq_iff.
Qed.

Lemma agg_insert_fresh (r : boq_row) (groups : list boq_row) :
  ~ In (row_item r) (map row_item groups) ->
  Permutation (agg_insert r groups) (r :: groups).
Proof.
  induction groups as [|g rest IH]; simpl; intros N; [reflexivity|].
  destruct (key_compare r g) eqn:C.
  - apply key_compare_Eq_item in C. elim N. now left.
  - reflexivity.
  - rewrite IH by tauto. apply perm_swap.
Qed.

Lemma agg_rows_distinct (rows : list boq_row) :
  NoDup (map row_item rows) -> Permutation (agg_rows rows) rows.
Proof.
  unfold agg_rows.
  assert (G : forall acc, NoDup (map row_item (acc ++ rows)) ->
    Permutation (fold_left (fun groups r => agg_insert r groups) rows acc) (acc ++ rows)).
  { induction rows as [|r rows IH]; intros acc N; simpl.
    - now rewrite app_nil_r.
    - assert (F : ~ In (row_item r) (map row_item acc)).
      { rewrite map_app in N. simpl in N. apply NoDup_remove_2 in N.
        intros I. apply N. apply in_or_app. now left. }
      pose proof (agg_insert_fresh r acc F) as P.
      assert (P2 : Permutation (agg_insert r acc ++ rows) (acc ++ r :: rows)).
      { rewrite P. simpl. apply Permutation_middle. }
      rewrite IH; [exact P2|].
      eapply Permutation_NoDup; [|exact N].
      apply Permutation_map. now symmetry. }
  intros N. exact (G [] N).
Qed.

Lemma in_fixture_contribs (counts : PyDict.dict Z) (templates : PyDict.dict room_template)
    (room : string) (cnt : Z) (fk : string) (fq : Q) :
  In (room, cnt) counts -> (0 < cnt)%Z ->
  In (fk, fq) (template_fixtures templates room) -> 0 < fq ->
  In (fk, fq * inject_Z cnt) (fixture_contribs counts templates).
Proof.
  intros I P F L. unfold fixture_contribs. apply in_flat_map.
  exists (room, cnt). split; [exact I|]. unfold room_contribs. simpl.
  apply Z.leb_gt in P. rewrite P.
  apply in_map_iff. exists (fk, fq). split; [reflexivity|].
  apply filter_In. split; [exact F|]. simpl.
  destruct (Qle_bool fq 0) eqn:B; [|reflexivity].
  apply Qle_bool_iff in B. lra.
Qed.

Lemma NoDup_map_same {A B : Type} (f : A -> B) (l : list A) (x y : A) :
  NoDup (map f l) -> In x l -> In y l -> f x = f y -> x = y.
Proof.
  induction l as [|a l IH]; simpl; [tauto|].
  intros N [->|Ix] [->|Iy] E; try reflexivity; inversion N as [|? ? NI N']; subst.
  - elim NI. rewrite E. now apply in_map.
  - elim NI. rewrite <- E. now apply in_map.
  - now apply IH.
Qed.

Lemma seed_qty_map_get (mat : list scaled_material) (area : Q) (k : string) :
  PyDict.get (seed_qty_map mat area) k =
  option_map (fun r => sm_consumption_per_m2 r * area)
             (find (fun r => String.eqb (sm_item r) k) (rev mat)).
Proof.
  unfold seed_qty_map.
  assert (G : forall d,
    PyDict.get
      (fold_left (fun qm row => PyDict.set (sm_item row) (sm_consumption_per_m2 row * area) qm)
                 mat d) k =
    match find (fun r => String.eqb (sm_item r) k) (rev mat) with
    | Some r => Some (sm_consumption_per_m2 r * area)
    | None => PyDict.get d k
    end).
  { induction mat as [|r mat IH]; intros d; simpl; [reflexivity|].
    rewrite IH, find_app_split.
    destruct (find _ (rev mat)); [reflexivity|]. simpl.
    destruct (String.eqb (sm_item r) k) eqn:E.
    - apply String.eqb_eq in E. subst k. apply get_set_same.
    - apply String.eqb_neq in E. now apply get_set_other. }
  rewrite G. now destruct (find _ (rev mat)).
Qed.

Lemma find_scale_catalog (qm lm : Q) (df : list material) (k : string) :
  find (fun r => String.eqb (sm_item r) k) (scale_catalog qm lm df) =
  option_map (scale_material qm lm) (find (fun m => String.eqb (mat_item m) k) df).
Proof. unfold scale_catalog. now rewrite find_map_pre. Qed.

Lemma find_in_some {A : Type} (f : A -> bool) (l : list A) (x : A) :
  In x l -> f x = true -> exists y, find f l = Some y.
Proof.
  intros I E. destruct (find f l) eqn:F; [eauto|].
  rewrite (find_none f l F x I) in E. discriminate.
Qed.

Lemma get_default_some {V : Type} (d : PyDict.dict V) (k : string) (v dflt : V) :
  PyDict.get d k = Some v -> get_default d k dflt = v.
Proof. unfold get_default. now intros ->. Qed.

Lemma seed_qty_map_key_iff (mat : list scaled_material) (area : Q) (k : string) :
  In k (PyDict.keys (seed_qty_map mat area)) <-> In k (map sm_item mat).
Proof.
  split; [apply seed_qty_map_keys|]. intros I.
  apply in_map_iff in I. destruct I as (r & <- & Hr).
  destruct (find_in_some (fun x => String.eqb (sm_item x) (sm_item r)) (rev mat) r
              (proj1 (in_rev _ _) Hr) (String.eqb_refl _)) as [l Hl].
  eapply get_Some_in_keys. rewrite seed_qty_map_get, Hl. reflexivity.
Qed.

(** The rows of the builder: its output is, up to order, the rows built
    from [qty_map] that have a unit and a phase. *)
Lemma build_boq_rows (counts : PyDict.dict Z) (templates : PyDict.dict room_template)
    (materials_df : list material) (qm lm : Q) :
  let mat := scale_catalog qm lm materials_df in
  let qty_map := apply_contribs (item_lookup (map mat_item materials_df))
                   (fixture_contribs counts templates)
                   (seed_qty_map mat (total_area counts templates)) in
  NoDup (PyDict.keys qty_map) /\
  NoDup (map row_item (build_boq counts templates materials_df qm lm)) /\
  Permutation (build_boq counts templates materials_df qm lm)
              (dropna (map (make_row mat) qty_map)).
Proof.
  intros mat qty_map.
  assert (N : NoDup (PyDict.keys qty_map)).
  { apply apply_contribs_nodup. apply seed_qty_map_keys. }
  assert (E : build_boq counts templates materials_df qm lm =
              agg_rows (dropna (map (make_row mat) qty_map))).
  { unfold build_boq, build_qty_map. rewrite fold_add_room, scale_catalog_items.
    fold mat. fold qty_map.
    now destruct (map (make_row mat) qty_map). }
  assert (NR : NoDup (map row_item (dropna (map (make_row mat) qty_map)))).
  { apply dropna_nodup. rewrite map_map.
    rewrite (map_ext _ fst (fun kv => make_row_item mat kv)). exact N. }
  pose proof (agg_rows_distinct _ NR) as P.
  split; [exact N|]. rewrite E. split; [|exact P].
  eapply Permutation_NoDup; [|exact NR].
  apply Permutation_map. now symmetry.
Qed.

(** A row of the output is the row of a key of [qty_map], when that row
    has a unit and a phase. *)
Lemma in_build_boq (counts : PyDict.dict Z) (templates : PyDict.dict room_template)
    (materials_df : list material) (qm lm : Q) (b : boq_row) :
  In b (build_boq counts templates materials_df qm lm) <->
  exists kv,
    In kv (apply_contribs (item_lookup (map mat_item materials_df))
             (fixture_contribs counts templates)
             (seed_qty_map (scale_catalog qm lm materials_df)
                (total_area counts templates))) /\
    keyed_row (make_row (scale_catalog qm lm materials_df) kv) = Some b.
Proof.
  destruct (build_boq_rows counts templates materials_df qm lm) as (_ & _ & P).
  split.
  - intros I. apply (Permutation_in _ P) in I. apply in_dropna in I.
    destruct I as (r & I & K). apply in_map_iff in I. destruct I as (kv & <- & I).
    exists kv. now split.
  - intros (kv & I & K). apply (Permutation_in _ (Permutation_sym P)).
    apply in_dropna. exists (make_row (scale_catalog qm lm materials_df) kv).
    split; [now apply in_map|exact K].
Qed.


(** The row of a key is left out by the grouping exactly when the first
    catalog row of that name has no unit or no phase. *)
Lemma keyed_make_row_none (qm lm : Q) (df : list material) (k : string) (q : Q) :
  keyed_row (make_row (scale_catalog qm lm df) (k, q)) = None <->
  item_dropped df k = true.
Proof.
  unfold make_row, item_dropped. rewrite find_scale_catalog.
  destruct (find (fun m => String.eqb (mat_item m) k) df) as [m|]; simpl.
  - unfold keyed_row. simpl. destruct (mat_unit m), (mat_phase m); split; congruence.
  - split; discriminate.
Qed.

Lemma keyed_make_row_catalog (qm lm : Q) (df : list material) (k : string) (q : Q)
    (first : material) (unit phase : string) :
  find (fun m => String.eqb (mat_item m) k) df = Some first ->
  mat_unit first = Some unit -> mat_phase first = Some phase ->
  keyed_row (make_row (scale_catalog qm lm df) (k, q)) =
  Some {| row_item := k; row_unit := unit; row_total_qty := q;
          row_unit_price := to_numeric_fillna (mat_price first) * lm;
          row_total_cost := q * (to_numeric_fillna (mat_price first) * lm);
          row_phase := phase |}.
Proof.
  intros F U P. unfold make_row. rewrite find_scale_catalog, F. simpl.
  unfold keyed_row. simpl. now rewrite U, P.
Qed.

Lemma keyed_make_row_placeholder (mat : list scaled_material) (k : string) (v : Q) :
  ~ In k (map sm_item mat) ->
  keyed_row (make_row mat (k, v)) =
  Some {| row_item := k; row_unit := "each"; row_total_qty := v;
          row_unit_price := 0; row_total_cost := v * 0; row_phase := "Misc" |}.
Proof. intros N. now rewrite make_row_placeholder. Qed.








(** C9 (as amended).  For a fixture label of positive quantity in the
    template of a room of positive count, when the resolver finds no
    catalog item the BOQ has exactly one row labelled
    ["<fixture_label> (user)"]; its unit is ["each"], its unit price and
    cost are 0, its phase is ["Misc"], and its quantity is the sum of
    fixture quantity times room count over the rooms of positive count
    that carry the label with a positive quantity.  This is for a label
    whose lower-cased placeholder label contains the lower-cased label:
    [str.lower] gives that for every label, since it lowers
    ["<label> (user)"] to the lowered label followed by [" (user)"]. *)

Theorem unmatched_fixture_placeholder (room_counts : PyDict.dict Z)
    (templates : PyDict.dict room_template) (materials_df : list material)
    (quality_multiplier location_multiplier : Q)
    (room : string) (cnt : Z) (fk : string) (fq : Q) :
  In (room, cnt) room_counts -> (0 < cnt)%Z ->
  In (fk, fq) (template_fixtures templates room) -> 0 < fq ->
  contains (lower fk) (lower (user_label fk)) = true ->
  resolve (map mat_item materials_df) fk = None ->
  exists r,
    In r (build_boq room_counts templates materials_df
            quality_multiplier location_multiplier) /\
    is_placeholder_row fk (contrib_sum fk (fixture_contribs room_counts templates)) r /\
    (forall r',
       In r' (build_boq room_counts templates materials_df
                quality_multiplier location_multiplier) ->
       row_item r' = user_label fk -> r' = r).
Proof.
  intros Hroom Hcnt Hfx Hfq Hlow Hres.
  destruct (build_boq_rows room_counts templates materials_df
              quality_multiplier location_multiplier) as (N & NR & _).
  pose proof (in_build_boq room_counts templates materials_df
                quality_multiplier location_multiplier) as Hrow.
  set (catalog := map mat_item materials_df) in *.
  set (mat := scale_catalog quality_multiplier location_multiplier materials_df) in *.
  set (cs := fixture_contribs room_counts templates) in *.
  set (seed := seed_qty_map mat (total_area room_counts templates)) in *.
  set (qty_map := apply_contribs (item_lookup catalog) cs seed) in *.
  assert (Hitems : map sm_item mat = catalog) by apply scale_catalog_items.
  pose proof (user_label_not_item catalog fk Hlow Hres) as Hnot.
  assert (Hkey : In (user_label fk) (PyDict.keys qty_map)).
  { apply apply_contribs_keys_in. right. exists (fk, fq * inject_Z cnt). split.
    - now apply (in_fixture_contribs room_counts templates room).
    - simpl. now apply fixture_target_user_iff. }
  destruct (PyDict.get qty_map (user_label fk)) as [q|] eqn:G;
    [|now apply get_None_iff in G].
  assert (Hseed : PyDict.get seed (user_label fk) = None).
  { apply get_None_iff. intros I. apply Hnot. rewrite <- Hitems.
    now apply (proj2 (seed_qty_map_keys mat (total_area room_counts templates))). }
  assert (Hq : q == contrib_sum fk cs).
  { pose proof (apply_contribs_get (item_lookup catalog) cs seed (user_label fk)) as E.
    fold qty_map in E. unfold get_default in E. rewrite G, Hseed in E.
    rewrite (target_sum_user catalog fk cs Hlow Hres) in E. now rewrite E. }
  assert (Hin : In {| row_item := user_label fk; row_unit := "each"; row_total_qty := q;
                      row_unit_price := 0; row_total_cost := q * 0;
                      row_phase := "Misc" |}
                   (build_boq room_counts templates materials_df
                      quality_multiplier location_multiplier)).
  { apply Hrow. exists (user_label fk, q). split; [now apply get_in|].
    apply keyed_make_row_placeholder. rewrite Hitems. exact Hnot. }
  eexists. split; [exact Hin|]. split.

  - unfold is_placeholder_row. simpl.
    repeat (split; [reflexivity|]). split; [ring|exact Hq].
  - intros r' Hr' Hitem.
    eapply (NoDup_map_same row_item); [exact NR|exact Hr'|exact Hin|exact Hitem].
Qed.

(* ================================================================== *)
(** * Further properties of the builder *)

Arguments Qsum : simpl never.

(** ** Grouping *)

Lemma key_compare_Eq_fields (r g : boq_row) :
  key_compare r g = Eq ->
  row_item r = row_item g /\ row_unit r = row_unit g /\
  row_unit_price r == row_unit_price g /\ row_phase r = row_phase g.
Proof.
  unfold key_compare.
  destruct (String.compare (row_item r) (row_item g)) eqn:C1; try discriminate.
  destruct (String.compare (row_unit r) (row_unit g)) eqn:C2; try discriminate.
  destruct (row_unit_price r ?= row_unit_price g) eqn:C3; try discriminate.
  intros C4. apply String.compare_eq_iff in C1, C2, C4. apply Qeq_alt in C3. tauto.
Qed.

Lemma key_compare_antisym (r g : boq_row) :
  key_compare g r = CompOpp (key_compare r g).
Proof.
  unfold key_compare.
  rewrite (String.compare_antisym (row_item g) (row_item r)).
  destruct (String.compare (row_item r) (row_item g)); simpl; try reflexivity.
  rewrite (String.compare_antisym (row_unit g) (row_unit r)).
  destruct (String.compare (row_unit r) (row_unit g)); simpl; try reflexivity.
  rewrite <- (Qcompare_antisym (row_unit_price r) (row_unit_price g)).
  destruct (row_unit_price r ?= row_unit_price g); simpl; try reflexivity.
  apply String.compare_antisym.
Qed.

Lemma key_compare_merge_l (g r x : boq_row) :
  key_compare (merge_row g r) x = key_compare g x.
Proof. reflexivity. Qed.

Lemma key_compare_merge_r (g r x : boq_row) :
  key_compare x (merge_row g r) = key_compare x g.
Proof. reflexivity. Qed.

Lemma agg_insert_hd (x r : boq_row) (groups : list boq_row) :
  key_lt x r -> HdRel key_lt x groups -> HdRel key_lt x (agg_insert r groups).
Proof.
  intros Hr H. destruct groups as [|g rest]; simpl; [now constructor|].
  inversion H as [|? ? Hg]; subst.
  destruct (key_compare r g); constructor; assumption.
Qed.

Lemma agg_insert_sorted (r : boq_row) (groups : list boq_row) :
  Sorted key_lt groups -> Sorted key_lt (agg_insert r groups).
Proof.
  induction 1 as [|g rest Hs IH Hh]; simpl; [repeat constructor|].
  destruct (key_compare r g) eqn:C.
  - constructor; [exact Hs|].
    destruct Hh as [|h rest' Hh]; constructor.
    unfold key_lt. now rewrite key_compare_merge_l.
  - constructor; [now constructor|now constructor].
  - constructor; [exact IH|]. apply agg_insert_hd; [|exact Hh].
    unfold key_lt. rewrite key_compare_antisym, C. reflexivity.
Qed.

Lemma agg_rows_sorted (rows : list boq_row) : Sorted key_lt (agg_rows rows).
Proof.
  unfold agg_rows.
  assert (G : forall acc, Sorted key_lt acc ->
            Sorted key_lt (fold_left (fun groups r => agg_insert r groups) rows acc)).
  { induction rows as [|r rows IH]; intros acc Ha; simpl; [exact Ha|].
    apply IH. now apply agg_insert_sorted. }
  apply G. constructor.
Qed.

Lemma Qsum_cons (x : Q) (xs : list Q) : Qsum (x :: xs) = x + Qsum xs.
Proof. reflexivity. Qed.

Lemma Qsum_app (xs ys : list Q) : Qsum (xs ++ ys) == Qsum xs + Qsum ys.
Proof.
  induction xs as [|x xs IH]; simpl.
  - change (Qsum []) with 0. ring.
  - rewrite !Qsum_cons, IH. ring.
Qed.

Lemma agg_insert_sums (r : boq_row) (groups : list boq_row) :
  Qsum (map row_total_cost (agg_insert r groups))
    == row_total_cost r + Qsum (map row_total_cost groups) /\
  Qsum (map row_total_qty (agg_insert r groups))
    == row_total_qty r + Qsum (map row_total_qty groups).
Proof.
  induction groups as [|g rest [IH1 IH2]]; simpl; [split; reflexivity|].
  destruct (key_compare r g); simpl; rewrite ?Qsum_cons; simpl.
  - split; ring.
  - split; reflexivity.
  - rewrite IH1, IH2. split; ring.
Qed.

Lemma agg_rows_sums (rows : list boq_row) :
  Qsum (map row_total_cost (agg_rows rows)) == Qsum (map row_total_cost rows) /\
  Qsum (map row_total_qty (agg_rows rows)) == Qsum (map row_total_qty rows).
Proof.
  unfold agg_rows.
  assert (G : forall acc,
    Qsum (map row_total_cost (fold_left (fun groups r => agg_insert r groups) rows acc))
      == Qsum (map row_total_cost acc) + Qsum (map row_total_cost rows) /\
    Qsum (map row_total_qty (fold_left (fun groups r => agg_insert r groups) rows acc))
      == Qsum (map row_total_qty acc) + Qsum (map row_total_qty rows)).
  { induction rows as [|r rows IH]; intros acc; simpl.
    - change (Qsum []) with 0. split; ring.
    - destruct (IH (agg_insert r acc)) as [I1 I2].
      destruct (agg_insert_sums r acc) as [A1 A2].
      rewrite I1, I2, A1, A2, !Qsum_cons. split; ring. }
  destruct (G []) as [G1 G2]. rewrite G1, G2. simpl. change (Qsum []) with 0.
  split; ring.
Qed.

Lemma agg_insert_consistent (r : boq_row) (groups : list boq_row) :
  cost_consistent r -> Forall cost_consistent groups ->
  Forall cost_consistent (agg_insert r groups).
Proof.
  intros Hr H. induction H as [|g rest Hg Hrest IH]; simpl; [now repeat constructor|].
  destruct (key_compare r g) eqn:C.
  - constructor; [|exact Hrest].
    apply key_compare_Eq_fields in C. destruct C as (_ & _ & Hp & _).
    unfold cost_consistent in *. simpl. rewrite Hr, Hg, Hp. ring.
  - now repeat constructor.
  - now constructor.
Qed.

Lemma agg_rows_consistent (rows : list boq_row) :
  Forall cost_consistent rows -> Forall cost_consistent (agg_rows rows).
Proof.
  unfold agg_rows. intros H.
  assert (G : forall acc, Forall cost_consistent acc ->
    Forall cost_consistent (fold_left (fun groups r => agg_insert r groups) rows acc)).
  { induction H as [|r rows Hr _ IH]; intros acc Ha; simpl; [exact Ha|].
    apply IH. now apply agg_insert_consistent. }
  apply G. constructor.
Qed.

(** ** The rows of the builder *)

(** [qty_map] as the fixture contributions applied to the seeded map. *)
Lemma build_boq_groupby (counts : PyDict.dict Z) (templates : PyDict.dict room_template)
    (materials_df : list material) (qm lm : Q) :
  build_boq counts templates materials_df qm lm =
  agg_rows
    (dropna
       (map (make_row (scale_catalog qm lm materials_df))
          (apply_contribs (item_lookup (map mat_item materials_df))
             (fixture_contribs counts templates)
             (seed_qty_map (scale_catalog qm lm materials_df)
                (total_area counts templates))))).
Proof.
  unfold build_boq, build_qty_map. rewrite fold_add_room, scale_catalog_items.
  now destruct (map _ _).
Qed.

Lemma keyed_row_fields (r : raw_row) (b : boq_row) :
  keyed_row r = Some b ->
  row_total_qty b = raw_total_qty r /\ row_unit_price b = raw_unit_price r /\
  row_total_cost b = raw_total_cost r.
Proof.
  unfold keyed_row. destruct (raw_unit r), (raw_phase r); try discriminate.
  intros [= <-]. simpl. now repeat split.
Qed.

Lemma make_row_consistent (mat : list scaled_material) (kv : string * Q) (b : boq_row) :
  keyed_row (make_row mat kv) = Some b -> cost_consistent b.
Proof.
  intros K. destruct (keyed_row_fields _ _ K) as (E1 & E2 & E3).
  unfold cost_consistent. rewrite E1, E2, E3.
  destruct kv as [k v]. unfold make_row.
  destruct (find (fun r => String.eqb (sm_item r) k) mat); simpl; reflexivity.
Qed.

Lemma sorted_key_item (l : list boq_row) :
  Sorted key_lt l -> NoDup (map row_item l) -> Sorted item_lt l.
Proof.
  induction 1 as [|a l Hs IH Hh]; intros N; [constructor|].
  simpl in N. inversion N as [|? ? NI N']; subst.
  constructor; [now apply IH|].
  destruct Hh as [|b l' Hab]; constructor.
  unfold key_lt, key_compare in Hab. unfold item_lt.
  destruct (String.compare (row_item a) (row_item b)) eqn:C; try discriminate;
    [|reflexivity].
  apply String.compare_eq_iff in C. elim NI. rewrite C. now left.
Qed.

(** The items of the output: the keys of [qty_map] whose row the
    grouping keeps. *)
Lemma boq_items (counts : PyDict.dict Z) (templates : PyDict.dict room_template)
    (materials_df : list material) (qm lm : Q) (k : string) :
  In k (map row_item (build_boq counts templates materials_df qm lm)) <->
  In k (PyDict.keys
          (apply_contribs (item_lookup (map mat_item materials_df))
             (fixture_contribs counts templates)
             (seed_qty_map (scale_catalog qm lm materials_df)
                (total_area counts templates)))) /\
  item_dropped materials_df k = false.
Proof.
  split.
  - intros I. apply in_map_iff in I. destruct I as (b & <- & I).
    apply in_build_boq in I. destruct I as ([k' q] & I & K).
    pose proof (keyed_row_item _ _ K) as E. rewrite make_row_item in E. simpl in E.
    rewrite E. split; [change k' with (fst (k', q)); now apply in_map|].
    destruct (item_dropped materials_df k') eqn:D; [|reflexivity].
    apply (keyed_make_row_none qm lm materials_df k' q) in D. congruence.
  - intros [I D]. apply in_map_iff in I. destruct I as ([k' q] & Ek & I).
    simpl in Ek. subst k'.
    destruct (keyed_row (make_row (scale_catalog qm lm materials_df) (k, q)))
      as [b|] eqn:K.
    + apply in_map_iff. exists b. split.
      * rewrite (keyed_row_item _ _ K). apply make_row_item.
      * apply in_build_boq. exists (k, q). now split.
    + apply keyed_make_row_none in K. congruence.
Qed.

(** X1.  Every row of the BOQ has
    [total_cost = total_qty * unit_price]. *)
Theorem boq_cost_is_qty_times_price (counts : PyDict.dict Z)
    (templates : PyDict.dict room_template) (materials_df : list material)
    (quality_multiplier location_multiplier : Q) :
  Forall cost_consistent
    (build_boq counts templates materials_df quality_multiplier location_multiplier).
Proof.
  rewrite build_boq_groupby. apply agg_rows_consistent.
  apply Forall_forall. intros b Hb. apply in_dropna in Hb.
  destruct Hb as (r & Hr & K). apply in_map_iff in Hr.
  destruct Hr as (kv & <- & _). exact (make_row_consistent _ _ _ K).
Qed.

(** X2.  The rows of the BOQ come in strictly ascending order of their
    item names (byte order), so no item name appears twice. *)
Theorem boq_sorted_by_item (counts : PyDict.dict Z)
    (templates : PyDict.dict room_template) (materials_df : list material)
    (quality_multiplier location_multiplier : Q) :
  Sorted item_lt
    (build_boq counts templates materials_df quality_multiplier location_multiplier) /\
  NoDup (map row_item
           (build_boq counts templates materials_df quality_multiplier
              location_multiplier)).
Proof.
  destruct (build_boq_rows counts templates materials_df
              quality_multiplier location_multiplier) as (_ & NR & _).
  split; [|exact NR]. apply sorted_key_item; [|exact NR].
  rewrite build_boq_groupby. apply agg_rows_sorted.
Qed.

(** X3.  Every catalog item whose first catalog row has a unit and a
    phase has a row in the BOQ.  The row takes its unit, phase and scaled
    unit price from that first row, and its quantity is the scaled
    consumption of the last catalog row with that name times the total
    area, to which the fixture quantities that resolve to the item are
    added in loop order.  An item whose first catalog row has no unit or
    no phase has no row: the grouping leaves it out. *)
Theorem catalog_item_has_row (counts : PyDict.dict Z)
    (templates : PyDict.dict room_template) (materials_df : list material)
    (quality_multiplier location_multiplier : Q) (m : material) :
  In m materials_df ->
  exists first last,
    find (fun x => String.eqb (mat_item x) (mat_item m)) materials_df = Some first /\
    find (fun x => String.eqb (mat_item x) (mat_item m)) (rev materials_df) = Some last /\
    (forall unit phase,
       mat_unit first = Some unit -> mat_phase first = Some phase ->
       exists r,
         In r (build_boq counts templates materials_df
                 quality_multiplier location_multiplier) /\
         row_item r = mat_item m /\
         row_unit r = unit /\
         row_phase r = phase /\
         row_unit_price r == to_numeric_fillna (mat_price first) * location_multiplier /\
         row_total_qty r ==
           target_sum (item_lookup (map mat_item materials_df)) (mat_item m)
             (to_numeric_fillna (mat_consumption_per_m2 last) * quality_multiplier
              * total_area counts templates)
             (fixture_contribs counts templates)) /\
    (mat_unit first = None \/ mat_phase first = None ->
     ~ In (mat_item m)
          (map row_item (build_boq counts templates materials_df
                           quality_multiplier location_multiplier))).
Proof.
  intros Hm. set (k := mat_item m).
  destruct (find_in_some (fun x => String.eqb (mat_item x) k) materials_df m Hm
              (String.eqb_refl _)) as [first Hfirst].
  destruct (find_in_some (fun x => String.eqb (mat_item x) k) (rev materials_df) m
              (proj1 (in_rev _ _) Hm) (String.eqb_refl _)) as [last Hlast].
  exists first, last. split; [exact Hfirst|]. split; [exact Hlast|]. split.
  - intros unit phase Hu Hp.
    pose proof (in_build_boq counts templates materials_df
                  quality_multiplier location_multiplier) as Hrow.
    set (mat := scale_catalog quality_multiplier location_multiplier materials_df) in *.
    set (cs := fixture_contribs counts templates) in *.
    set (seed := seed_qty_map mat (total_area counts templates)) in *.
    set (lookup := item_lookup (map mat_item materials_df)) in *.
    set (qty_map := apply_contribs lookup cs seed) in *.
    assert (Hseed : PyDict.get seed k =
                    Some (sm_consumption_per_m2
                            (scale_material quality_multiplier location_multiplier last)
                          * total_area counts templates)).
    { unfold seed. rewrite seed_qty_map_get. unfold mat, scale_catalog.
      rewrite <- map_rev, find_map_pre. simpl.
      now rewrite Hlast. }
    assert (Hkey : In k (PyDict.keys qty_map)).
    { apply apply_contribs_keys_in. left. eapply get_Some_in_keys. exact Hseed. }
    destruct (PyDict.get qty_map k) as [q|] eqn:G; [|now apply get_None_iff in G].
    pose proof (apply_contribs_get lookup cs seed k) as Hq. fold qty_map in Hq.
    rewrite (get_default_some _ _ _ _ G), (get_default_some _ _ _ _ Hseed) in Hq.
    eexists. split.
    + apply Hrow. exists (k, q). split; [now apply get_in|].
      exact (keyed_make_row_catalog quality_multiplier location_multiplier materials_df
               k q first unit phase Hfirst Hu Hp).
    + simpl. repeat (split; [reflexivity|]). now rewrite Hq.
  - intros Hnone Hin. apply boq_items in Hin. destruct Hin as [_ D].
    unfold item_dropped in D. fold k in Hfirst. rewrite Hfirst in D.
    destruct Hnone as [E|E]; rewrite E in D; [discriminate|].
    destruct (mat_unit first); discriminate.
Qed.

(** X4.  The BOQ has no other rows: a row is a catalog item, or it is
    the placeholder ["<label> (user)"] of a fixture label that
    contributes, with unit ["each"], unit price 0, cost 0 and phase
    ["Misc"]. *)
Theorem boq_row_origin (counts : PyDict.dict Z)
    (templates : PyDict.dict room_template) (materials_df : list material)
    (quality_multiplier location_multiplier : Q) (r : boq_row) :
  In r (build_boq counts templates materials_df quality_multiplier location_multiplier) ->
  In (row_item r) (map mat_item materials_df) \/
  exists fk amount,
    In (fk, amount) (fixture_contribs counts templates) /\
    row_item r = user_label fk /\ row_unit r = "each" /\
    row_unit_price r = 0 /\ row_phase r = "Misc" /\ row_total_cost r == 0.
Proof.
  intros Hr. apply in_build_boq in Hr. destruct Hr as ([k q] & Hkq & K).
  set (mat := scale_catalog quality_multiplier location_multiplier materials_df) in *.
  set (catalog := map mat_item materials_df) in *.
  assert (Hitems : map sm_item mat = catalog) by apply scale_catalog_items.
  pose proof (keyed_row_item _ _ K) as Hk0. rewrite make_row_item in Hk0. simpl in Hk0.
  rewrite Hk0.
  destruct (in_dec string_dec k catalog) as [I|NI]; [now left|]. right.
  rewrite keyed_make_row_placeholder in K by (rewrite Hitems; exact NI).
  injection K as <-. simpl.
  assert (Hk : In k (PyDict.keys
                       (apply_contribs (item_lookup catalog)
                          (fixture_contribs counts templates)
                          (seed_qty_map mat (total_area counts templates))))).
  { change k with (fst (k, q)). now apply in_map. }
  apply apply_contribs_keys_in in Hk. destruct Hk as [Hk|([fk a] & Hc & Ht)].
  - elim NI. rewrite <- Hitems.
    exact (proj2 (seed_qty_map_keys mat (total_area counts templates)) k Hk).
  - simpl in Ht. exists fk, a. split; [exact Hc|].
    assert (Hu : k = user_label fk).
    { unfold fixture_target in Ht. fold (resolve catalog fk) in Ht.
      destruct (resolve catalog fk) as [m|] eqn:R; [|now symmetry].
      destruct (truthy m); [|now symmetry].
      subst k. apply resolve_in_catalog in R. contradiction. }
    split; [exact Hu|]. repeat (split; [reflexivity|]). ring.
Qed.

(** ** Rooms that are not counted *)

Lemma set_values_Forall (P : Q -> Prop) (k : string) (v : Q) (d : PyDict.dict Q) :
  P v -> Forall (fun kv => P (snd kv)) d ->
  Forall (fun kv => P (snd kv)) (PyDict.set k v d).
Proof.
  intros Hv H. induction H as [|[k' v'] d Hk Hd IH]; simpl.
  - now repeat constructor.
  - destruct (String.eqb k' k); constructor; assumption.
Qed.

Lemma seed_qty_map_values (mat : list scaled_material) (area : Q) :
  Forall (fun kv => exists c, snd kv = c * area) (seed_qty_map mat area).
Proof.
  unfold seed_qty_map.
  assert (G : forall d, Forall (fun kv => exists c, snd kv = c * area) d ->
    Forall (fun kv => exists c, snd kv = c * area)
      (fold_left (fun qm row => PyDict.set (sm_item row) (sm_consumption_per_m2 row * area) qm)
                 mat d)).
  { induction mat as [|r mat IH]; intros d Hd; simpl; [exact Hd|].
    apply IH. apply (set_values_Forall (fun v => exists c, v = c * area)); [|exact Hd].
    eauto. }
  apply G. constructor.
Qed.

Lemma Qsum_all_zero (xs : list Q) : Forall (fun x => x == 0) xs -> Qsum xs == 0.
Proof.
  induction 1 as [|x xs Hx _ IH]; [reflexivity|]. rewrite Qsum_cons, Hx, IH. ring.
Qed.

Lemma zero_counts_no_contribs (counts : PyDict.dict Z)
    (templates : PyDict.dict room_template) :
  Forall (fun rc => snd rc = 0%Z) counts ->
  fixture_contribs counts templates = [] /\ total_area counts templates == 0.
Proof.
  intros H. split.
  - unfold fixture_contribs. induction H as [|[room cnt] counts Hc _ IH]; simpl;
      [reflexivity|].
    simpl in Hc. subst cnt. unfold room_contribs at 1. simpl. exact IH.
  - rewrite total_area_sum. apply Qsum_all_zero.
    apply Forall_forall. intros x Hx. apply in_map_iff in Hx.
    destruct Hx as ([room cnt] & <- & Hin).
    rewrite Forall_forall in H. specialize (H _ Hin). simpl in H. subst cnt.
    simpl. ring.
Qed.

(** X5.  When every room count is zero (or no room is listed) the rows
    of the BOQ are exactly the catalog items that the grouping keeps
    (those whose first catalog row has a unit and a phase), each with
    quantity 0 and cost 0, and the base total is 0. *)
Theorem zero_counts_zero_rows (counts : PyDict.dict Z)
    (templates : PyDict.dict room_template) (materials_df : list material)
    (quality_multiplier location_multiplier : Q) :
  Forall (fun rc => snd rc = 0%Z) counts ->
  Forall (fun r => row_total_qty r == 0 /\ row_total_cost r == 0)
    (build_boq counts templates materials_df quality_multiplier location_multiplier) /\
  (forall k,
     In k (map row_item
             (build_boq counts templates materials_df quality_multiplier
                location_multiplier))
     <-> In k (map mat_item materials_df) /\ item_dropped materials_df k = false) /\
  base_total
    (build_boq counts templates materials_df quality_multiplier location_multiplier) == 0.
Proof.
  intros H. destruct (zero_counts_no_contribs counts templates H) as [Hc Ha].
  set (mat := scale_catalog quality_multiplier location_multiplier materials_df).
  assert (Hout : Forall (fun r => row_total_qty r == 0 /\ row_total_cost r == 0)
                   (build_boq counts templates materials_df
                      quality_multiplier location_multiplier)).
  { apply Forall_forall. intros b Hb. apply in_build_boq in Hb.
    destruct Hb as ([k v] & Hkv & K). rewrite Hc in Hkv.
    unfold apply_contribs in Hkv. simpl in Hkv.
    pose proof (seed_qty_map_values mat (total_area counts templates)) as V.
    rewrite Forall_forall in V. destruct (V _ Hkv) as [c Hv]. simpl in Hv.
    assert (Hz : v == 0) by (rewrite Hv, Ha; ring).
    destruct (keyed_row_fields _ _ K) as (E1 & _ & E3). rewrite E1, E3.
    unfold make_row. destruct (find _ _); simpl; rewrite Hz; split; ring. }
  split; [exact Hout|]. split.
  - intros k. rewrite boq_items, Hc. unfold apply_contribs. simpl.
    now rewrite seed_qty_map_key_iff, scale_catalog_items.
  - rewrite base_total_sum. apply Qsum_all_zero.
    apply Forall_forall. intros x Hx. apply in_map_iff in Hx.
    destruct Hx as (r & <- & Hr). rewrite Forall_forall in Hout.
    now apply Hout.
Qed.

(** ** The location multiplier *)

Lemma seed_qty_map_location (qm lm lm' : Q) (df : list material) (area : Q) :
  seed_qty_map (scale_catalog qm lm df) area = seed_qty_map (scale_catalog qm lm' df) area.
Proof.
  unfold seed_qty_map, scale_catalog. generalize (@nil (string * Q)).
  induction df as [|m df IH]; intros d; simpl; [reflexivity|]. apply IH.
Qed.

Lemma make_row_location (qm lm lm' : Q) (df : list material) (kv : string * Q)
    (r : boq_row) :
  keyed_row (make_row (scale_catalog qm lm df) kv) = Some r ->
  exists r' price,
    keyed_row (make_row (scale_catalog qm lm' df) kv) = Some r' /\
    row_item r' = row_item r /\ row_unit r' = row_unit r /\
    row_phase r' = row_phase r /\ row_total_qty r' = row_total_qty r /\
    row_unit_price r == price * lm /\ row_unit_price r' == price * lm'.
Proof.
  destruct kv as [k q]. unfold make_row. rewrite !find_scale_catalog.
  destruct (find (fun m => String.eqb (mat_item m) k) df) as [m|]; simpl;
    unfold keyed_row; simpl.
  - destruct (mat_unit m), (mat_phase m); try discriminate. intros [= <-].
    eexists. exists (to_numeric_fillna (mat_price m)).
    split; [reflexivity|]. simpl. do 4 (split; [reflexivity|]). split; reflexivity.
  - intros [= <-]. eexists. exists 0.
    split; [reflexivity|]. simpl. do 4 (split; [reflexivity|]). split; ring.
Qed.

(** X6.  The location multiplier changes no quantity of the BOQ: with
    another multiplier the BOQ has the same items with the same unit,
    phase and quantity, and the unit price of a row is one price times
    the multiplier in both. *)
Theorem location_multiplier_keeps_quantities (counts : PyDict.dict Z)
    (templates : PyDict.dict room_template) (materials_df : list material)
    (quality_multiplier location_multiplier location_multiplier' : Q) (r : boq_row) :
  In r (build_boq counts templates materials_df quality_multiplier location_multiplier) ->
  exists r' price,
    In r' (build_boq counts templates materials_df quality_multiplier
             location_multiplier') /\
    row_item r' = row_item r /\ row_unit r' = row_unit r /\
    row_phase r' = row_phase r /\ row_total_qty r' = row_total_qty r /\
    row_unit_price r == price * location_multiplier /\
    row_unit_price r' == price * location_multiplier'.
Proof.
  intros Hr. apply in_build_boq in Hr. destruct Hr as (kv & Hkv & K).
  destruct (make_row_location quality_multiplier location_multiplier
              location_multiplier' materials_df kv r K) as (r' & price & K' & H).
  exists r', price. split; [|exact H].
  apply in_build_boq. exists kv. split; [|exact K'].
  now rewrite (seed_qty_map_location quality_multiplier location_multiplier'
                 location_multiplier).
Qed.

(* ================================================================== *)
(** * Phase totals and rollup *)

Section FoldAdd.

Context {A : Type}.
Variable f : A -> string.
Variable g : A -> Q.

Let fold_add (l : list A) (d : PyDict.dict Q) : PyDict.dict Q :=
  fold_left (fun d x => add_qty (f x) (g x) d) l d.

Lemma fold_add_get (l : list A) (d : PyDict.dict Q) (k : string) :
  get_default (fold_add l d) k 0 ==
  get_default d k 0 + Qsum (map g (filter (fun x => String.eqb (f x) k) l)).
Proof.
  unfold fold_add. revert d. induction l as [|x l IH]; intros d; simpl.
  - change (Qsum []) with 0. ring.
  - rewrite IH, add_qty_get.
    destruct (String.eqb (f x) k) eqn:E; simpl; [|reflexivity].
    apply String.eqb_eq in E. rewrite E, Qsum_cons. ring.
Qed.

Lemma set_values_sum (k : string) (v : Q) (d : PyDict.dict Q) :
  Qsum (map snd (PyDict.set k v d)) == Qsum (map snd d) - get_default d k 0 + v.
Proof.
  unfold get_default. induction d as [|[k' v'] d IH]; simpl.
  - rewrite Qsum_cons. change (Qsum []) with 0. ring.
  - destruct (String.eqb k' k); simpl; rewrite !Qsum_cons; simpl.
    + ring.
    + rewrite IH. ring.
Qed.

Lemma add_qty_sum (k : string) (a : Q) (d : PyDict.dict Q) :
  Qsum (map snd (add_qty k a d)) == Qsum (map snd d) + a.
Proof. unfold add_qty. rewrite set_values_sum. ring. Qed.

Lemma fold_add_sum (l : list A) (d : PyDict.dict Q) :
  Qsum (map snd (fold_add l d)) == Qsum (map snd d) + Qsum (map g l).
Proof.
  unfold fold_add. revert d. induction l as [|x l IH]; intros d; simpl.
  - change (Qsum []) with 0. ring.
  - rewrite IH, add_qty_sum, Qsum_cons. ring.
Qed.

Lemma mem_existsb (d : PyDict.dict Q) (k : string) :
  PyDict.mem d k = existsb (String.eqb k) (PyDict.keys d).
Proof.
  unfold PyDict.mem. induction d as [|[k' v'] d IH]; simpl; [reflexivity|].
  rewrite (String.eqb_sym k k'). destruct (String.eqb k' k); [reflexivity|exact IH].
Qed.

Lemma fold_add_keys (l : list A) (d : PyDict.dict Q) :
  PyDict.keys (fold_add l d) =
  fold_left (fun seen x => if existsb (String.eqb x) seen then seen else seen ++ [x])
            (map f l) (PyDict.keys d).
Proof.
  unfold fold_add. revert d. induction l as [|x l IH]; intros d; simpl; [reflexivity|].
  rewrite IH. f_equal. unfold add_qty. now rewrite keys_set, mem_existsb.
Qed.

Lemma fold_add_nodup (l : list A) (d : PyDict.dict Q) :
  NoDup (PyDict.keys d) -> NoDup (PyDict.keys (fold_add l d)).
Proof.
  unfold fold_add. revert d. induction l as [|x l IH]; intros d H; simpl; [exact H|].
  apply IH. unfold add_qty. now apply keys_set_nodup.
Qed.


End FoldAdd.

Lemma phase_totals_facts (boq : list boq_row) :
  PyDict.keys (phase_totals boq) = first_seen (map row_phase boq) /\
  NoDup (PyDict.keys (phase_totals boq)) /\
  (forall ph, get_default (phase_totals boq) ph 0 == phase_cost boq ph) /\
  Qsum (map snd (phase_totals boq)) == base_total boq.
Proof.
  unfold phase_totals, first_seen, phase_cost. split; [|split; [|split]].
  - apply (fold_add_keys row_phase row_total_cost boq []).
  - apply (fold_add_nodup row_phase row_total_cost boq []). constructor.
  - intros ph. rewrite (fold_add_get row_phase row_total_cost boq [] ph).
    unfold get_default. simpl. ring.
  - rewrite (fold_add_sum row_phase row_total_cost boq []), base_total_sum.
    simpl. change (Qsum []) with 0. ring.
Qed.


Lemma pct_bounds (s hi : Z) :
  (0 <= s <= hi)%Z -> 0 <= pct s /\ pct s <= inject_Z hi / 100.
Proof.
  intros [H0 H1]. unfold pct.
  assert (A : 0 <= inject_Z s) by (change 0 with (inject_Z 0); now rewrite <- Zle_Qle).
  assert (B : inject_Z s <= inject_Z hi) by now rewrite <- Zle_Qle.
  split.
  - apply Qle_shift_div_l; [reflexivity|]. lra.
  - apply Qle_shift_div_l; [reflexivity|].
    unfold Qdiv. rewrite <- Qmult_assoc, (Qmult_comm (/ 100)), Qmult_inv_r by discriminate.
    lra.
Qed.

(** X8.  With the three sliders inside their ranges (0-30, 0-15, 0-30
    percent) and a base total that is not negative, every markup lies
    between 0 and the markup at the maximum of its slider, and the grand
    total lies between the base total and the grand total at the three
    maxima. *)
Theorem grand_total_slider_bounds (boq : list boq_row)
    (extra_margin professional_fees contingency : Z) :
  slider_ranges extra_margin professional_fees contingency ->
  0 <= base_total boq ->
  (0 <= base_total boq * pct extra_margin <= base_total boq * pct 30 /\
   0 <= base_total boq * pct professional_fees <= base_total boq * pct 15 /\
   0 <= base_total boq * pct contingency <= base_total boq * pct 30) /\
  base_total boq
    <= grand_total boq (pct extra_margin) (pct professional_fees) (pct contingency) /\
  grand_total boq (pct extra_margin) (pct professional_fees) (pct contingency)
    <= grand_total boq (pct 30) (pct 15) (pct 30).
Proof.
  intros (H1 & H2 & H3) Hb. unfold grand_total, rollup. simpl.
  destruct (pct_bounds extra_margin 30 H1) as [A1 B1].
  destruct (pct_bounds professional_fees 15 H2) as [A2 B2].
  destruct (pct_bounds contingency 30 H3) as [A3 B3].
  fold (pct 30) in B1, B3. fold (pct 15) in B2.
  set (b := base_total boq) in *.
  set (p1 := pct extra_margin) in *. set (p2 := pct professional_fees) in *.
  set (p3 := pct contingency) in *.
  assert (C1 : 0 <= b * p1) by now apply Qmult_le_0_compat.
  assert (C2 : 0 <= b * p2) by now apply Qmult_le_0_compat.
  assert (C3 : 0 <= b * p3) by now apply Qmult_le_0_compat.
  assert (D1 : b * p1 <= b * pct 30).
  { rewrite !(Qmult_comm b). apply Qmult_le_compat_r; [exact B1|exact Hb]. }
  assert (D2 : b * p2 <= b * pct 15).
  { rewrite !(Qmult_comm b). apply Qmult_le_compat_r; [exact B2|exact Hb]. }
  assert (D3 : b * p3 <= b * pct 30).
  { rewrite !(Qmult_comm b). apply Qmult_le_compat_r; [exact B3|exact Hb]. }
  repeat split; try assumption; lra.
Qed.

Lemma grand_total_slider_bounds_witness :
  base_total
    [ {| row_item := "Gate (each)"; row_unit := "each"; row_total_qty := 1 # 4;
         row_unit_price := 4000; row_total_cost := 1000; row_phase := "External" |} ]
  <= grand_total
       [ {| row_item := "Gate (each)"; row_unit := "each"; row_total_qty := 1 # 4;
            row_unit_price := 4000; row_total_cost := 1000; row_phase := "External" |} ]
       (pct 10) (pct 6) (pct 10) /\
  grand_total
    [ {| row_item := "Gate (each)"; row_unit := "each"; row_total_qty := 1 # 4;
         row_unit_price := 4000; row_total_cost := 1000; row_phase := "External" |} ]
    (pct 10) (pct 6) (pct 10)
  <= grand_total
       [ {| row_item := "Gate (each)"; row_unit := "each"; row_total_qty := 1 # 4;
            row_unit_price := 4000; row_total_cost := 1000; row_phase := "External" |} ]
       (pct 30) (pct 15) (pct 30).
Proof.
  apply grand_total_slider_bounds.
  - unfold slider_ranges. lia.
  - discriminate.
Defined.

(* ================================================================== *)
(** * Further properties of the scheduler *)

Lemma last_cons_default {A : Type} (a d : A) (l : list A) : last (a :: l) d = last l a.
Proof.
  revert a d. induction l as [|b l IH]; intros a d; [reflexivity|].
  change (last (a :: b :: l) d) with (last (b :: l) d). rewrite !IH. reflexivity.
Qed.

Lemma final_months_last (es : list funding_entry) (d : fnum) :
  es <> [] -> final_months es = last (map fe_end es) d.
Proof.
  destruct es as [|e es' _] using rev_ind; [now intros H; elim H|]. intros _.
  unfold final_months. rewrite rev_app_distr, map_app. simpl.
  now rewrite last_last.
Qed.

Section SchedulerMore.

Variable fpow : Q -> Q -> Q.
Variable phase_tot : PyDict.dict Q.
Variables monthly_savings inflation_pct : Q.

Let entry := phase_entry fpow phase_tot monthly_savings inflation_pct.
Let run := run_from fpow phase_tot monthly_savings inflation_pct.
Let cost ph := get_default phase_tot ph 0.


Lemma run_not_nil (order : list string) (rem : Q) (cum : fnum) :
  order <> [] -> map fst (run rem cum order) <> [].
Proof. destruct order; [now intros H; elim H|discriminate]. Qed.

(** *** How the upfront cash is used *)

Lemma apply_upfront_exact (rem c : Q) :
  0 <= rem -> 0 <= c ->
  fst (apply_upfront rem c) == c - py_min rem c /\
  snd (apply_upfront rem c) == rem - py_min rem c.
Proof.
  intros Hr Hc. unfold apply_upfront. pose proof (py_min_spec rem c) as Hm.
  destruct (Qlt_b 0 rem) eqn:E; simpl.
  - pose proof (py_max_spec 0 (c - py_min rem c)) as HM. lra.
  - apply Qlt_b_false in E. lra.
Qed.

(** A phase is paid in full by the upfront cash, or it uses up what is
    left of it. *)
Lemma apply_upfront_all_or_nothing (rem c : Q) :
  0 <= rem ->
  fst (apply_upfront rem c) == 0 \/ snd (apply_upfront rem c) == 0.
Proof.
  intros Hr. unfold apply_upfront, py_min. destruct (Qlt_b 0 rem) eqn:E; simpl.
  - destruct (Qlt_b c rem) eqn:E2.
    + left. pose proof (py_max_spec 0 (c - c)) as HM. lra.
    + right. ring.
  - right. apply Qlt_b_false in E. lra.
Qed.

Lemma run_all_or_nothing (order : list string) (rem : Q) (cum : fnum) :
  0 <= rem ->
  Forall (fun ph => 0 <= cost ph) order ->
  Forall2 (fun e left => fe_after_upfront e == 0 \/ left == 0)
          (map fst (run rem cum order)) (map snd (run rem cum order)).
Proof.
  revert rem cum. induction order as [|ph order IH]; intros rem cum Hr Hc; simpl;
    [constructor|].
  fold entry. inversion Hc as [|? ? Hph Hrest]; subst.
  destruct (entry_fields fpow phase_tot monthly_savings inflation_pct rem cum ph)
    as (_ & _ & _ & _ & Haft & Hrem & _).
  fold entry in Haft, Hrem. fold (cost ph) in Haft, Hrem.
  destruct (apply_upfront_residual rem (cost ph) Hr Hph) as [R0 _].
  constructor.
  - rewrite Haft, Hrem. now apply apply_upfront_all_or_nothing.
  - apply IH; [rewrite Hrem; exact R0|exact Hrest].
Qed.

Lemma run_after_bounds (order : list string) (rem : Q) (cum : fnum) :
  0 <= rem ->
  Forall (fun ph => 0 <= cost ph) order ->
  Forall (fun e => 0 <= fe_after_upfront e /\ fe_after_upfront e <= fe_base e)
         (map fst (run rem cum order)).
Proof.
  revert rem cum. induction order as [|ph order IH]; intros rem cum Hr Hc; simpl;
    [constructor|].
  fold entry. inversion Hc as [|? ? Hph Hrest]; subst.
  destruct (entry_fields fpow phase_tot monthly_savings inflation_pct rem cum ph)
    as (_ & Hb & _ & _ & Haft & Hrem & _).
  fold entry in Hb, Haft, Hrem. fold (cost ph) in Hb, Haft, Hrem.
  destruct (apply_upfront_exact rem (cost ph) Hr Hph) as [Ea Er].
  destruct (apply_upfront_residual rem (cost ph) Hr Hph) as [R0 _].
  pose proof (py_min_spec rem (cost ph)) as M1.
  constructor.
  - rewrite Haft, Hb. lra.
  - apply IH; [rewrite Hrem; exact R0|exact Hrest].
Qed.

Lemma run_no_upfront (order : list string) (rem : Q) (cum : fnum) :
  rem <= 0 ->
  Forall (fun e => fe_after_upfront e = fe_base e) (map fst (run rem cum order)).
Proof.
  revert rem cum. induction order as [|ph order IH]; intros rem cum Hr; simpl;
    [constructor|].
  fold entry.
  destruct (entry_fields fpow phase_tot monthly_savings inflation_pct rem cum ph)
    as (_ & Hb & _ & _ & Haft & Hrem & _).
  fold entry in Hb, Haft, Hrem.
  assert (E : apply_upfront rem (get_default phase_tot ph 0)
              = (get_default phase_tot ph 0, rem)).
  { unfold apply_upfront. apply Qlt_b_false in Hr. now rewrite Hr. }
  rewrite E in Haft, Hrem. simpl in Haft, Hrem.
  constructor; [congruence|]. apply IH. now rewrite Hrem.
Qed.

Lemma run_in_order (order : list string) (rem : Q) (cum : fnum)
    (i j : nat) (ei ej : funding_entry) :
  0 <= rem ->
  Forall (fun ph => 0 <= cost ph) order ->
  nth_error (map fst (run rem cum order)) i = Some ei ->
  nth_error (map fst (run rem cum order)) j = Some ej ->
  (i < j)%nat ->
  0 < fe_after_upfront ei ->
  fe_after_upfront ej = fe_base ej.
Proof.
  revert rem cum i j. induction order as [|ph order IH]; intros rem cum i j Hr Hc Hi Hj Hij Hpos.
  - destruct i; discriminate.
  - simpl in Hi, Hj. fold entry in Hi, Hj. inversion Hc as [|? ? Hph Hrest]; subst.
    destruct (entry_fields fpow phase_tot monthly_savings inflation_pct rem cum ph)
      as (_ & _ & _ & _ & Haft & Hrem & _).
    fold entry in Haft, Hrem. fold (cost ph) in Haft, Hrem.
    destruct (apply_upfront_exact rem (cost ph) Hr Hph) as [Ea Er].
    destruct (apply_upfront_residual rem (cost ph) Hr Hph) as [R0 _].
    rewrite <- Haft in Ea. rewrite <- Hrem in Er, R0.
    destruct j as [|j]; [lia|]. simpl in Hj.
    destruct i as [|i]; simpl in Hi.
    + injection Hi as <-.
      assert (Hz : snd (entry rem cum ph) <= 0).
      { pose proof (py_min_spec rem (cost ph)) as M1. lra. }
      pose proof (run_no_upfront order _ (fe_end (fst (entry rem cum ph))) Hz) as F.
      rewrite Forall_forall in F. apply F. eapply nth_error_In. exact Hj.
    + eapply (IH _ _ i j); try eassumption. lia.
Qed.

End SchedulerMore.


(** X9.  With upfront cash and base costs that are not negative, the
    upfront cash is used strictly in build order: every phase keeps a
    cost between 0 and its base cost; a phase is paid in full by the
    upfront cash, or it uses up what is left of it; and once a phase is
    left with a positive cost no later phase receives upfront cash. *)
Theorem upfront_used_in_build_order (fpow : Q -> Q -> Q) (phase_tot : PyDict.dict Q)
    (upfront_cash monthly_savings inflation_pct : Q) (phase_order : list string) :
  0 <= upfront_cash ->
  Forall (fun ph => 0 <= get_default phase_tot ph 0) phase_order ->
  Forall (fun e => 0 <= fe_after_upfront e /\ fe_after_upfront e <= fe_base e)
    (schedule fpow phase_tot upfront_cash monthly_savings inflation_pct phase_order) /\
  Forall2 (fun e left => fe_after_upfront e == 0 \/ left == 0)
    (schedule fpow phase_tot upfront_cash monthly_savings inflation_pct phase_order)
    (residuals fpow phase_tot upfront_cash monthly_savings inflation_pct phase_order) /\
  (forall i j ei ej,
     nth_error
       (schedule fpow phase_tot upfront_cash monthly_savings inflation_pct phase_order) i
       = Some ei ->
     nth_error
       (schedule fpow phase_tot upfront_cash monthly_savings inflation_pct phase_order) j
       = Some ej ->
     (i < j)%nat -> 0 < fe_after_upfront ei -> fe_after_upfront ej = fe_base ej).
Proof.
  intros Hu Hc. rewrite schedule_run_from, residuals_run_from. split; [|split].
  - now apply run_after_bounds.
  - now apply run_all_or_nothing.
  - intros i j ei ej Hi Hj Hij Hpos.
    eapply (run_in_order fpow phase_tot monthly_savings inflation_pct phase_order
              upfront_cash (Fin 0) i j); eassumption.
Qed.

Lemma upfront_used_in_build_order_witness :
  Forall (fun e => 0 <= fe_after_upfront e /\ fe_after_upfront e <= fe_base e)
    (schedule pow_one [("Foundation", 1200); ("Roofing", 300)] 500 400 10
       ["Foundation"; "Roofing"]) /\
  Forall2 (fun e left => fe_after_upfront e == 0 \/ left == 0)
    (schedule pow_one [("Foundation", 1200); ("Roofing", 300)] 500 400 10
       ["Foundation"; "Roofing"])
    (residuals pow_one [("Foundation", 1200); ("Roofing", 300)] 500 400 10
       ["Foundation"; "Roofing"]) /\
  (forall i j ei ej,
     nth_error
       (schedule pow_one [("Foundation", 1200); ("Roofing", 300)] 500 400 10
          ["Foundation"; "Roofing"]) i = Some ei ->
     nth_error
       (schedule pow_one [("Foundation", 1200); ("Roofing", 300)] 500 400 10
          ["Foundation"; "Roofing"]) j = Some ej ->
     (i < j)%nat -> 0 < fe_after_upfront ei -> fe_after_upfront ej = fe_base ej).
Proof.
  apply upfront_used_in_build_order.
  - discriminate.
  - repeat constructor; discriminate.
Defined.




(* ================================================================== *)
(** * The cumulative curve and the completion estimate *)


Lemma required_none_due (es : list funding_entry) (m : Z) :
  Forall (fun e => fe_end e = PInf /\ fe_months e = PInf) es ->
  required_at es m = Fin 0.
Proof.
  unfold required_at. generalize (Fin 0).
  induction es as [|e es IH]; intros acc H; simpl; [reflexivity|].
  inversion H as [|? ? [He Hm] Hes]; subst.
  unfold required_step at 2. rewrite He, Hm. simpl.
  destruct (fltb (fe_start e) (Fin (inject_Z m))); now apply IH.
Qed.


Lemma series_max_infinite (xs : list fnum) :
  Forall (fun x => x = PInf) xs -> xs <> [] -> series_max xs = PInf.
Proof.
  unfold series_max. intros H Hne. destruct xs as [|x xs]; [now elim Hne|].
  inversion H as [|? ? -> Hxs]; subst. simpl. clear H Hne.
  induction Hxs as [|y ys -> _ IH]; simpl; [reflexivity|exact IH].
Qed.

Lemma last_all_default {A : Type} (d : A) (xs : list A) :
  Forall (fun x => x = d) xs -> last xs d = d.
Proof.
  induction 1 as [|x xs -> _ IH]; [reflexivity|].
  rewrite last_cons_default. destruct xs; [reflexivity|exact IH].
Qed.

Section CurveFacts.

Variable fpow : Q -> Q -> Q.
Variable phase_tot : PyDict.dict Q.
Variables monthly_savings inflation_pct : Q.

Let run := run_from fpow phase_tot monthly_savings inflation_pct.

Lemma run_unfunded_all (order : list string) (rem : Q) (cum : fnum) :
  Qlt_b 0 monthly_savings = false ->
  cum = PInf \/ (exists c, cum = Fin c) ->
  Forall (fun e => fe_end e = PInf /\ fe_months e = PInf) (map fst (run rem cum order)).
Proof.
  intros Hs. revert rem cum.
  induction order as [|ph order IH]; intros rem cum Hc; simpl; [constructor|].
  pose proof (entry_unfunded fpow phase_tot monthly_savings inflation_pct
                rem cum ph Hs Hc) as He.
  destruct (entry_fields fpow phase_tot monthly_savings inflation_pct rem cum ph)
    as (_ & _ & _ & _ & _ & _ & Hm).
  rewrite Hs in Hm.
  constructor; [split; assumption|]. rewrite He. apply IH. now left.
Qed.


End CurveFacts.



(** X13.  Without monthly savings no phase ever falls due: the
    requirement curve is 0 at every month, and the chart spans the two
    months 0 and 1. *)
Theorem unfunded_requirement_flat (fpow : Q -> Q -> Q) (phase_tot : PyDict.dict Q)
    (upfront_cash monthly_savings inflation_pct : Q) (phase_order : list string) :
  monthly_savings <= 0 ->
  phase_order <> [] ->
  (forall m,
     required_at
       (schedule fpow phase_tot upfront_cash monthly_savings inflation_pct phase_order) m
     = Fin 0) /\
  final_months
    (schedule fpow phase_tot upfront_cash monthly_savings inflation_pct phase_order)
  = PInf /\
  chart_months
    (schedule fpow phase_tot upfront_cash monthly_savings inflation_pct phase_order)
  = [0%Z; 1%Z].
Proof.
  intros Hs Ho. apply Qlt_b_false in Hs. rewrite schedule_run_from.
  pose proof (run_unfunded_all fpow phase_tot monthly_savings inflation_pct
                phase_order upfront_cash (Fin 0) Hs
                (or_intror (ex_intro _ 0 eq_refl))) as H.
  pose proof (run_not_nil fpow phase_tot monthly_savings inflation_pct
                phase_order upfront_cash (Fin 0) Ho) as Hne.
  set (es := map fst (run_from fpow phase_tot monthly_savings inflation_pct
                        upfront_cash (Fin 0) phase_order)) in *.
  assert (Hends : Forall (fun x => x = PInf) (map fe_end es)).
  { apply Forall_forall. intros x Hx. apply in_map_iff in Hx.
    destruct Hx as (e & <- & He). rewrite Forall_forall in H. now apply H. }
  split; [|split].
  - intros m. now apply required_none_due.
  - rewrite (final_months_last es PInf Hne). now apply last_all_default.
  - unfold chart_months, months_span. rewrite series_max_infinite; [reflexivity|exact Hends|].
    destruct es; [now elim Hne|discriminate].
Qed.

Lemma unfunded_requirement_flat_witness :
  (forall m,
     required_at
       (schedule pow_one [("Foundation", 1200)] 500 0 10 ["Foundation"]) m = Fin 0) /\
  final_months (schedule pow_one [("Foundation", 1200)] 500 0 10 ["Foundation"]) = PInf /\
  chart_months (schedule pow_one [("Foundation", 1200)] 500 0 10 ["Foundation"])
  = [0%Z; 1%Z].
Proof.
  apply unfunded_requirement_flat.
  - discriminate.
  - discriminate.
Defined.

Lemma py_int_Z (z : Z) : py_int (inject_Z z) = z.
Proof. unfold py_int. simpl. apply Z.quot_1_r. Qed.

Lemma py_int_nonneg (x : Q) : 0 <= x -> py_int x = Qfloor x.
Proof.
  intros H. unfold py_int, Qfloor. destruct x as [n d]. simpl.
  apply Z.quot_div_nonneg; [|reflexivity].
  unfold Qle in H. simpl in H. lia.
Qed.

(** X14.  "Estimated completion" splits a finite end month that is not
    negative and below 2^53 (the range in which the float operations
    [//] and [%] by 12 are exact) into whole years and whole months:
    the months are between 0 and 11, and [12 * years + months] is the end
    month rounded down. *)
Theorem completion_estimate_floor (q : Q) :
  0 <= q -> q < inject_Z (2 ^ 53) ->
  exists years months,
    completion_estimate (Fin q) = Some (years, months) /\
    (0 <= years)%Z /\ (0 <= months < 12)%Z /\
    inject_Z (12 * years + months) <= q /\
    q < inject_Z (12 * years + months) + 1.
Proof.
  intros Hq0 _.
  unfold completion_estimate. eexists. eexists. split; [reflexivity|].
  unfold py_mod, py_floordiv. rewrite py_int_Z.
  set (y := Qfloor (q / 12)).
  pose proof (Qfloor_le (q / 12)) as L1. pose proof (Qlt_floor (q / 12)) as L2.
  fold y in L1, L2. rewrite inject_Z_plus in L2. change (inject_Z 1) with 1 in L2.
  assert (Hy0 : (0 <= y)%Z).
  { change 0%Z with (Qfloor 0). apply Qfloor_resp_le.
    apply Qle_shift_div_l; [reflexivity|]. lra. }
  assert (Hd : q / 12 * 12 == q) by field.
  revert L1 L2 Hd. generalize (q / 12). intros d L1 L2 Hd.
  assert (Hlo : inject_Z y * 12 <= q) by lra.
  assert (Hhi : q < (inject_Z y + 1) * 12) by lra.
  set (r := q - 12 * inject_Z y).
  assert (Hr0 : 0 <= r) by (unfold r; lra).
  assert (Hr12 : r < 12) by (unfold r; lra).
  rewrite (py_int_nonneg r Hr0).
  pose proof (Qfloor_le r) as F1. pose proof (Qlt_floor r) as F2.
  rewrite inject_Z_plus in F2. change (inject_Z 1) with 1 in F2.
  assert (Hm0 : (0 <= Qfloor r)%Z).
  { change 0%Z with (Qfloor 0). now apply Qfloor_resp_le. }
  assert (Hm12 : (Qfloor r < 12)%Z).
  { rewrite Zlt_Qlt. apply Qle_lt_trans with r; assumption. }
  split; [exact Hy0|]. split; [lia|].
  rewrite inject_Z_plus, inject_Z_mult. change (inject_Z 12) with 12.
  assert (Er : r == q - 12 * inject_Z y) by reflexivity.
  clearbody r. split; lra.
Qed.

Lemma completion_estimate_floor_witness :
  exists years months,
    completion_estimate (Fin (61 # 2)) = Some (years, months) /\
    (0 <= years)%Z /\ (0 <= months < 12)%Z /\
    inject_Z (12 * years + months) <= 61 # 2 /\
    61 # 2 < inject_Z (12 * years + months) + 1.
Proof. apply completion_estimate_floor; [discriminate|reflexivity]. Defined.


(* ================================================================== *)
(** * Further properties of the resolver *)

Lemma prefix_refl (s : string) : String.prefix s s = true.
Proof.
  induction s as [|c s IH]; simpl; [reflexivity|].
  destruct (ascii_dec c c) as [_|N]; [exact IH|now elim N].
Qed.

Lemma contains_refl (s : string) : contains s s = true.
Proof.
  destruct s as [|c s]; [reflexivity|]. cbn [contains].
  now rewrite prefix_refl.
Qed.

Lemma contains_empty (s : string) : contains "" s = true.
Proof. destruct s; reflexivity. Qed.

Lemma last_same_name_lower (catalog : list string) (c : string) :
  lower (last_same_name catalog c) = lower c.
Proof.
  unfold last_same_name. destruct (find _ (rev catalog)) as [c'|] eqn:F; [|reflexivity].
  apply find_some in F. destruct F as [_ E]. now apply String.eqb_eq in E.
Qed.

Lemma resolve_spec_none_iff (catalog : list string) (label : string) :
  resolve_spec catalog label = None <->
  (forall c, In c catalog -> contains (lower label) (lower c) = false) /\
  (forall a, PyDict.get FIXTURE_ITEM_MAP label = Some a ->
             forall c, In c catalog -> lower c <> lower a).
Proof.
  unfold resolve_spec. split.
  - intros H.
    assert (F3 : find (fun c => contains (lower label) (lower c)) catalog = None).
    { destruct (PyDict.get FIXTURE_ITEM_MAP label) as [a|];
        [destruct (find (fun c0 => String.eqb (lower c0) (lower a)) catalog);
           [discriminate|]|];
        destruct (find (fun c0 => String.eqb (lower c0) (lower label)) catalog);
        try discriminate; exact H. }
    split; [intros c I; exact (find_none _ _ F3 c I)|].
    intros a Ha c I E. rewrite Ha in H.
    destruct (find (fun c0 => String.eqb (lower c0) (lower a)) catalog) eqn:F1;
      [discriminate|].
    pose proof (find_none _ _ F1 c I) as X. simpl in X.
    apply String.eqb_neq in X. contradiction.
  - intros [H3 H1].
    assert (F3 : find (fun c => contains (lower label) (lower c)) catalog = None)
      by now apply find_none_iff.
    assert (F2 : find (fun c => String.eqb (lower c) (lower label)) catalog = None).
    { apply find_none_iff. intros c I. apply String.eqb_neq. intros E.
      specialize (H3 c I). rewrite E, contains_refl in H3. discriminate. }
    rewrite F2, F3.
    destruct (PyDict.get FIXTURE_ITEM_MAP label) as [a|]; [|reflexivity].
    assert (F1 : find (fun c => String.eqb (lower c) (lower a)) catalog = None).
    { apply find_none_iff. intros c I. apply String.eqb_neq. now apply (H1 a). }
    now rewrite F1.
Qed.

Lemma resolve_none_iff_spec (catalog : list string) (label : string) :
  resolve catalog label = None <-> resolve_spec catalog label = None.
Proof.
  rewrite resolve_last_same_name.
  destruct (resolve_spec catalog label); simpl; split; congruence.
Qed.

(** X15.  The resolver finds no match exactly when no catalog item
    contains the label and the alias of the label, if it has one, is no
    catalog item, all compared case-insensitively. *)
Theorem resolve_none_iff (catalog : list string) (label : string) :
  resolve catalog label = None <->
  (forall c, In c catalog -> contains (lower label) (lower c) = false) /\
  (forall a, PyDict.get FIXTURE_ITEM_MAP label = Some a ->
             forall c, In c catalog -> lower c <> lower a).
Proof. rewrite resolve_none_iff_spec. apply resolve_spec_none_iff. Qed.

(** X16.  Whatever the resolver returns is a catalog item, and its
    lower-cased name is the lower-cased alias of the label or contains
    the lower-cased label. *)
Theorem resolve_sound (catalog : list string) (label m : string) :
  resolve catalog label = Some m ->
  In m catalog /\
  ((exists a, PyDict.get FIXTURE_ITEM_MAP label = Some a /\ lower m = lower a) \/
   contains (lower label) (lower m) = true).
Proof.
  intros H. split; [eapply resolve_in_catalog; exact H|].
  rewrite resolve_last_same_name in H.
  destruct (resolve_spec catalog label) as [c|] eqn:R; [|discriminate].
  simpl in H. injection H as <-. rewrite last_same_name_lower.
  unfold resolve_spec in R.
  destruct (PyDict.get FIXTURE_ITEM_MAP label) as [a|] eqn:A.
  - destruct (find (fun c0 => String.eqb (lower c0) (lower a)) catalog) as [c1|] eqn:F1.
    + injection R as <-. apply find_some in F1. destruct F1 as [_ E].
      apply String.eqb_eq in E. left. eauto.
    + right.
      destruct (find (fun c0 => String.eqb (lower c0) (lower label)) catalog)
        as [c2|] eqn:F2.
      * injection R as <-. apply find_some in F2. destruct F2 as [_ E].
        apply String.eqb_eq in E. rewrite E. apply contains_refl.
      * apply find_some in R. tauto.
  - right.
    destruct (find (fun c0 => String.eqb (lower c0) (lower label)) catalog)
      as [c2|] eqn:F2.
    + injection R as <-. apply find_some in F2. destruct F2 as [_ E].
      apply String.eqb_eq in E. rewrite E. apply contains_refl.
    + apply find_some in R. tauto.
Qed.

(** X17.  An empty fixture label is never unmatched on a catalog that
    has an item: every name contains the empty string, so the label
    resolves to a catalog item.  The lower-cased empty label is the empty
    string, as it is for [str.lower]. *)
Theorem resolve_empty_label (catalog : list string) :
  lower "" = "" ->
  catalog <> [] -> exists m, resolve catalog "" = Some m /\ In m catalog.
Proof.
  intros Hlow Hne. destruct (resolve catalog "") as [m|] eqn:R.
  - exists m. split; [reflexivity|]. eapply resolve_in_catalog. exact R.
  - apply resolve_none_iff_spec, resolve_spec_none_iff in R.
    destruct R as [H _]. destruct catalog as [|c l]; [now elim Hne|].
    specialize (H c (or_introl eq_refl)). rewrite Hlow in H.
    rewrite contains_empty in H. discriminate.
Qed.

(* ================================================================== *)
(** * The project store *)

Lemma dict_del_get_other {V : Type} (d : PyDict.dict V) (k k' : string) :
  k <> k' -> PyDict.get (dict_del k d) k' = PyDict.get d k'.
Proof.
  intros N. induction d as [|[k0 v0] d IH]; simpl; [reflexivity|].
  destruct (String.eqb k0 k) eqn:E.
  - apply String.eqb_eq in E. subst k0. apply String.eqb_neq in N. now rewrite N.
  - simpl. destruct (String.eqb k0 k'); [reflexivity|exact IH].
Qed.

Lemma dict_del_keys_in {V : Type} (d : PyDict.dict V) (k k' : string) :
  In k' (PyDict.keys (dict_del k d)) -> In k' (PyDict.keys d).
Proof.
  clear lower.
  induction d as [|[k0 v0] d IH]; simpl; [tauto|].
  destruct (String.eqb k0 k); simpl; tauto.
Qed.

Lemma dict_del_nodup {V : Type} (d : PyDict.dict V) (k : string) :
  NoDup (PyDict.keys d) -> NoDup (PyDict.keys (dict_del k d)).
Proof.
  induction d as [|[k0 v0] d IH]; simpl; intros N; [constructor|].
  inversion N as [|? ? NI N']; subst.
  destruct (String.eqb k0 k); [exact N'|]. simpl. constructor; [|now apply IH].
  intros I. apply NI. eapply dict_del_keys_in. exact I.
Qed.

Lemma dict_del_get_same {V : Type} (d : PyDict.dict V) (k : string) :
  NoDup (PyDict.keys d) -> PyDict.get (dict_del k d) k = None.
Proof.
  induction d as [|[k0 v0] d IH]; simpl; intros N; [reflexivity|].
  inversion N as [|? ? NI N']; subst.
  destruct (String.eqb k0 k) eqn:E.
  - apply String.eqb_eq in E. subst k0. now apply get_None_iff.
  - simpl. rewrite E. now apply IH.
Qed.

(** X18.  A saved project is found again under its name, with the
    counts and multipliers it was saved with; saving replaces a project
    of the same name, leaves every other project as it was and keeps the
    names of the store distinct. *)
Theorem save_project_roundtrip (projects : PyDict.dict project) (p : project)
    (unsaved_counts : option (PyDict.dict Z)) (widgets : PyDict.dict Z)
    (templates : PyDict.dict room_template) (session_quality session_location : Q) :
  proj_name p <> USE_SESSION ->
  PyDict.get (save_project projects p) (proj_name p) = Some p /\
  projection_inputs (save_project projects p) (proj_name p)
    unsaved_counts widgets templates session_quality session_location
  = Some (proj_counts p, proj_quality_multiplier p, proj_location_multiplier p) /\
  (forall other, other <> proj_name p ->
     PyDict.get (save_project projects p) other = PyDict.get projects other) /\
  (NoDup (PyDict.keys projects) -> NoDup (PyDict.keys (save_project projects p))).
Proof.
  intros Hn. unfold save_project. split; [apply get_set_same|]. split; [|split].
  - unfold projection_inputs. apply String.eqb_neq in Hn. rewrite Hn. simpl.
    now rewrite get_set_same.
  - intros other Ho. apply get_set_other. congruence.
  - apply keys_set_nodup.
Qed.

Lemma save_project_roundtrip_witness :
  PyDict.get
    (save_project []
       {| proj_name := "My Project"; proj_created_at := "2024-01-01T00:00:00";
          proj_counts := [("Verandah", 1%Z)]; proj_room_templates := [];
          proj_quality_multiplier := 1; proj_location_multiplier := 11 # 10 |})
    "My Project"
  = Some {| proj_name := "My Project"; proj_created_at := "2024-01-01T00:00:00";
            proj_counts := [("Verandah", 1%Z)]; proj_room_templates := [];
            proj_quality_multiplier := 1; proj_location_multiplier := 11 # 10 |}.
Proof.
  apply (save_project_roundtrip []
           {| proj_name := "My Project"; proj_created_at := "2024-01-01T00:00:00";
              proj_counts := [("Verandah", 1%Z)]; proj_room_templates := [];
              proj_quality_multiplier := 1; proj_location_multiplier := 11 # 10 |}
           None [] [] 1 1).
  discriminate.
Defined.

(** X19.  Deleting a project removes it from the store and leaves every
    other project as it was; deleting a name that is not in the store
    changes nothing. *)
Theorem delete_project_removes (projects : PyDict.dict project) (sel : string) :
  NoDup (PyDict.keys projects) ->
  PyDict.get (delete_project projects sel) sel = None /\
  (forall other, other <> sel ->
     PyDict.get (delete_project projects sel) other = PyDict.get projects other) /\
  NoDup (PyDict.keys (delete_project projects sel)) /\
  (PyDict.get projects sel = None -> delete_project projects sel = projects).
Proof.
  intros N. unfold delete_project, PyDict.mem.
  destruct (PyDict.get projects sel) eqn:G.
  - split; [now apply dict_del_get_same|]. split; [|split].
    + intros other Ho. apply dict_del_get_other. congruence.
    + now apply dict_del_nodup.
    + discriminate.
  - repeat split; auto.
Qed.

Lemma delete_project_removes_witness :
  PyDict.get
    (delete_project
       [("My Project",
         {| proj_name := "My Project"; proj_created_at := "2024-01-01T00:00:00";
            proj_counts := []; proj_room_templates := [];
            proj_quality_multiplier := 1; proj_location_multiplier := 1 |})]
       "My Project") "My Project" = None.
Proof.
  apply (delete_project_removes
           [("My Project",
             {| proj_name := "My Project"; proj_created_at := "2024-01-01T00:00:00";
                proj_counts := []; proj_room_templates := [];
                proj_quality_multiplier := 1; proj_location_multiplier := 1 |})]
           "My Project").
  repeat constructor. intros [].
Defined.

(* ================================================================== *)
(** * Rooms that do not count *)

Lemma dict_equiv_refl (m : PyDict.dict Q) : dict_equiv m m.
Proof. induction m as [|kv m IH]; constructor; [split; reflexivity|exact IH]. Qed.

Lemma dict_equiv_get (m m2 : PyDict.dict Q) (k : string) :
  dict_equiv m m2 -> get_default m2 k 0 == get_default m k 0.
Proof.
  unfold get_default. induction 1 as [|[k1 v1] [k2 v2] m m2 [Hk Hv] _ IH]; simpl in *.
  - reflexivity.
  - subst k2. destruct (String.eqb k1 k); [exact Hv|exact IH].
Qed.

Lemma dict_equiv_set (m m2 : PyDict.dict Q) (k : string) (v v2 : Q) :
  dict_equiv m m2 -> v2 == v -> dict_equiv (PyDict.set k v m) (PyDict.set k v2 m2).
Proof.
  intros H Hv. induction H as [|[k1 v1] [k2 w2] m m2 [Hk Hw] Hrest IH]; simpl in *.
  - constructor; [now split|constructor].
  - subst k2. destruct (String.eqb k1 k).
    + constructor; [now split|exact Hrest].
    + constructor; [now split|exact IH].
Qed.

Lemma dict_equiv_seed (mat : list scaled_material) (area area2 : Q) :
  area2 == area -> dict_equiv (seed_qty_map mat area) (seed_qty_map mat area2).
Proof.
  intros Ha. unfold seed_qty_map.
  assert (G : forall d d2, dict_equiv d d2 ->
    dict_equiv
      (fold_left (fun qm row => PyDict.set (sm_item row) (sm_consumption_per_m2 row * area) qm)
                 mat d)
      (fold_left (fun qm row => PyDict.set (sm_item row) (sm_consumption_per_m2 row * area2) qm)
                 mat d2)).
  { induction mat as [|r mat IH]; intros d d2 Hd; simpl; [exact Hd|].
    apply IH. apply dict_equiv_set; [exact Hd|]. now rewrite Ha. }
  apply G. constructor.
Qed.

Lemma dict_equiv_contribs (lookup : PyDict.dict string) (cs : list (string * Q))
    (m m2 : PyDict.dict Q) :
  dict_equiv m m2 -> dict_equiv (apply_contribs lookup cs m) (apply_contribs lookup cs m2).
Proof.
  unfold apply_contribs. revert m m2.
  induction cs as [|c cs IH]; intros m m2 H; simpl; [exact H|].
  apply IH. unfold add_qty. apply dict_equiv_set; [exact H|].
  now rewrite (dict_equiv_get m m2 _ H).
Qed.

Lemma dropna_equiv (rows rows2 : list raw_row) :
  Forall2 (raw_scaled 1) rows rows2 -> Forall2 row_equiv (dropna rows) (dropna rows2).
Proof.
  induction 1 as [|r r2 rows rows2 (H1 & H2 & H3 & H4 & H5 & H6) _ IH];
    [constructor|].
  rewrite !dropna_cons. unfold keyed_row. rewrite H2, H4.
  destruct (raw_unit r), (raw_phase r); try exact IH.
  constructor; [|exact IH]. unfold row_equiv. simpl.
  split; [exact H1|]. split; [reflexivity|]. split; [exact H3|].
  split; [reflexivity|]. split; [rewrite H5|rewrite H6]; ring.
Qed.

Lemma key_compare_equiv (r r2 g g2 : boq_row) :
  row_equiv r r2 -> row_equiv g g2 -> key_compare r2 g2 = key_compare r g.
Proof.
  intros (A1 & A2 & A3 & A4 & _) (B1 & B2 & B3 & B4 & _).
  unfold key_compare. now rewrite A1, A2, A3, A4, B1, B2, B3, B4.
Qed.

Lemma agg_insert_equiv (r r2 : boq_row) (gs gs2 : list boq_row) :
  row_equiv r r2 -> Forall2 row_equiv gs gs2 ->
  Forall2 row_equiv (agg_insert r gs) (agg_insert r2 gs2).
Proof.
  intros Hr H. induction H as [|g g2 gs gs2 Hg Hrest IH]; simpl.
  - constructor; [exact Hr|constructor].
  - rewrite (key_compare_equiv r r2 g g2 Hr Hg).
    destruct (key_compare r g).
    + constructor; [|exact Hrest].
      destruct Hr as (A1 & A2 & A3 & A4 & A5 & A6), Hg as (B1 & B2 & B3 & B4 & B5 & B6).
      unfold row_equiv, merge_row. simpl.
      repeat (split; [assumption|]). split; [rewrite A5, B5|rewrite A6, B6]; reflexivity.
    + constructor; [exact Hr|]. constructor; [exact Hg|exact Hrest].
    + constructor; [exact Hg|exact IH].
Qed.

Lemma agg_rows_equiv (rows rows2 : list boq_row) :
  Forall2 row_equiv rows rows2 ->
  Forall2 row_equiv (agg_rows rows) (agg_rows rows2).
Proof.
  unfold agg_rows. intros H.
  assert (G : forall acc acc2, Forall2 row_equiv acc acc2 ->
    Forall2 row_equiv
      (fold_left (fun groups r => agg_insert r groups) rows acc)
      (fold_left (fun groups r => agg_insert r groups) rows2 acc2)).
  { induction H as [|r r2 rows rows2 Hr _ IH]; intros acc acc2 Ha; simpl; [exact Ha|].
    apply IH. now apply agg_insert_equiv. }
  apply G. constructor.
Qed.

(** The output depends on the counts only through the total area and
    the fixture contributions. *)
Lemma build_boq_equiv (counts counts2 : PyDict.dict Z)
    (templates : PyDict.dict room_template) (materials_df : list material) (qm lm : Q) :
  total_area counts2 templates == total_area counts templates ->
  fixture_contribs counts2 templates = fixture_contribs counts templates ->
  Forall2 row_equiv (build_boq counts templates materials_df qm lm)
                    (build_boq counts2 templates materials_df qm lm).
Proof.
  intros Ha Hc. rewrite !build_boq_groupby, Hc. apply agg_rows_equiv, dropna_equiv.
  apply (map_make_row_scaled 1).
  pose proof (dict_equiv_contribs (item_lookup (map mat_item materials_df))
                (fixture_contribs counts templates) _ _
                (dict_equiv_seed (scale_catalog qm lm materials_df) _ _ Ha)) as H.
  induction H as [|kv kv2 m m2 [Hk Hv] _ IH]; constructor; [|exact IH].
  split; [exact Hk|]. rewrite Hv. ring.
Qed.

(** X20.  A room whose count is 0, and a room that has no template,
    leave the BOQ as it is: dropping the room from the counts gives the
    same rows with the same quantities and costs. *)
Theorem uncounted_room_ignored (before after : PyDict.dict Z) (room : string) (cnt : Z)
    (templates : PyDict.dict room_template) (materials_df : list material)
    (quality_multiplier location_multiplier : Q) :
  cnt = 0%Z \/ PyDict.get templates room = None ->
  Forall2 row_equiv
    (build_boq (before ++ (room, cnt) :: after) templates materials_df
       quality_multiplier location_multiplier)
    (build_boq (before ++ after) templates materials_df
       quality_multiplier location_multiplier).
Proof.
  intros H. apply build_boq_equiv.
  - rewrite !total_area_sum, !map_app, !Qsum_app. simpl map. rewrite Qsum_cons. simpl.
    assert (Z0 : inject_Z cnt * template_area templates room == 0).
    { destruct H as [->|H]; [ring|]. unfold template_area. rewrite H. ring. }
    rewrite Z0. ring.
  - unfold fixture_contribs. rewrite !flat_map_app. simpl.
    assert (E : room_contribs templates (room, cnt) = []).
    { unfold room_contribs, template_fixtures. simpl.
      destruct H as [->|H]; [reflexivity|]. rewrite H. simpl.
      now destruct (cnt <=? 0)%Z. }
    now rewrite E.
Qed.

(* ================================================================== *)
(** * From a sound catalog to the scheduler *)

Lemma get_default_nonneg (d : PyDict.dict Q) (k : string) :
  Forall (fun kv => 0 <= snd kv) d -> 0 <= get_default d k 0.
Proof.
  unfold get_default. induction 1 as [|[k' v'] d Hv _ IH]; simpl; [apply Qle_refl|].
  destruct (String.eqb k' k); [exact Hv|exact IH].
Qed.

Lemma template_area_nonneg (templates : PyDict.dict room_template) (room : string) :
  Forall (fun t => 0 <= area_m2 (snd t)) templates -> 0 <= template_area templates room.
Proof.
  intros H. unfold template_area.
  destruct (PyDict.get templates room) as [tpl|] eqn:G; [|apply Qle_refl].
  apply get_in in G. rewrite Forall_forall in H. exact (H _ G).
Qed.

Lemma total_area_nonneg (counts : PyDict.dict Z) (templates : PyDict.dict room_template) :
  Forall (fun rc => (0 <= snd rc)%Z) counts ->
  Forall (fun t => 0 <= area_m2 (snd t)) templates ->
  0 <= total_area counts templates.
Proof.
  intros Hc Ht. rewrite total_area_sum. apply Qsum_nonneg.
  apply Forall_forall. intros x Hx. apply in_map_iff in Hx.
  destruct Hx as ([room cnt] & <- & Hin). simpl.
  rewrite Forall_forall in Hc. specialize (Hc _ Hin). simpl in Hc.
  apply Qmult_le_0_compat; [|now apply template_area_nonneg].
  change 0 with (inject_Z 0). now rewrite <- Zle_Qle.
Qed.

Lemma seed_qty_map_nonneg (mat : list scaled_material) (area : Q) :
  0 <= area ->
  Forall (fun r => 0 <= sm_consumption_per_m2 r) mat ->
  Forall (fun kv => 0 <= snd kv) (seed_qty_map mat area).
Proof.
  intros Ha H. unfold seed_qty_map.
  assert (G : forall d, Forall (fun kv => 0 <= snd kv) d ->
    Forall (fun kv => 0 <= snd kv)
      (fold_left (fun qm row => PyDict.set (sm_item row) (sm_consumption_per_m2 row * area) qm)
                 mat d)).
  { induction H as [|r mat Hr _ IH]; intros d Hd; simpl; [exact Hd|].
    apply IH. apply (set_values_Forall (fun v => 0 <= v)); [|exact Hd].
    now apply Qmult_le_0_compat. }
  apply G. constructor.
Qed.

Lemma fixture_contribs_positive (counts : PyDict.dict Z)
    (templates : PyDict.dict room_template) (c : string * Q) :
  In c (fixture_contribs counts templates) -> 0 < snd c.
Proof.
  unfold fixture_contribs. intros H. apply in_flat_map in H.
  destruct H as ([room cnt] & _ & H). unfold room_contribs in H. simpl in H.
  destruct (cnt <=? 0)%Z eqn:E; [destruct H|]. apply Z.leb_gt in E.
  apply in_map_iff in H. destruct H as ([fk fq] & <- & H). simpl.
  apply filter_In in H. destruct H as [_ B]. simpl in B.
  apply negb_true_iff in B.
  assert (Hq : 0 < fq).
  { apply Qnot_le_lt. intros L. apply Qle_bool_iff in L. congruence. }
  assert (Hc : 0 < inject_Z cnt) by (change 0 with (inject_Z 0); now rewrite <- Zlt_Qlt).
  rewrite <- (Qmult_0_l (inject_Z cnt)). now apply Qmult_lt_compat_r.
Qed.

Lemma apply_contribs_nonneg (lookup : PyDict.dict string) (cs : list (string * Q))
    (m : PyDict.dict Q) :
  Forall (fun c => 0 <= snd c) cs ->
  Forall (fun kv => 0 <= snd kv) m ->
  Forall (fun kv => 0 <= snd kv) (apply_contribs lookup cs m).
Proof.
  unfold apply_contribs. intros H. revert m.
  induction H as [|c cs Hc _ IH]; intros m Hm; simpl; [exact Hm|].
  apply IH. unfold add_qty. apply (set_values_Forall (fun v => 0 <= v)); [|exact Hm].
  pose proof (get_default_nonneg m (fixture_target lookup (fst c)) Hm). lra.
Qed.

Lemma scale_catalog_nonneg (qm lm : Q) (df : list material) :
  0 <= qm -> 0 <= lm ->
  Forall (fun m => cell_nonneg (mat_price m) /\
                   cell_nonneg (mat_consumption_per_m2 m)) df ->
  Forall (fun r => 0 <= sm_price r /\ 0 <= sm_consumption_per_m2 r)
         (scale_catalog qm lm df).
Proof.
  intros Hq Hl H. induction H as [|m df [Hp Hc] _ IH]; simpl; constructor; [|exact IH].
  simpl. split.
  - destruct (mat_price m); simpl in *; [now apply Qmult_le_0_compat|lra].
  - destruct (mat_consumption_per_m2 m); simpl in *; [now apply Qmult_le_0_compat|lra].
Qed.

Lemma make_row_nonneg (mat : list scaled_material) (kv : string * Q) :
  Forall (fun r => 0 <= sm_price r /\ 0 <= sm_consumption_per_m2 r) mat ->
  0 <= snd kv ->
  0 <= raw_total_qty (make_row mat kv) /\ 0 <= raw_unit_price (make_row mat kv) /\
  0 <= raw_total_cost (make_row mat kv).
Proof.
  destruct kv as [k v]. simpl. intros H Hv. unfold make_row.
  destruct (find (fun r => String.eqb (sm_item r) k) mat) as [r|] eqn:F; simpl.
  - apply find_some in F. destruct F as [I _]. rewrite Forall_forall in H.
    destruct (H r I) as [Hp _].
    repeat split; try assumption. now apply Qmult_le_0_compat.
  - repeat split; try assumption; [apply Qle_refl|]. rewrite Qmult_0_r. apply Qle_refl.
Qed.

Lemma boq_nonneg_rows (counts : PyDict.dict Z) (templates : PyDict.dict room_template)
    (materials_df : list material) (qm lm : Q) :
  0 <= qm -> 0 <= lm ->
  Forall (fun m => cell_nonneg (mat_price m) /\
                   cell_nonneg (mat_consumption_per_m2 m)) materials_df ->
  Forall (fun rc => (0 <= snd rc)%Z) counts ->
  Forall (fun t => 0 <= area_m2 (snd t)) templates ->
  Forall (fun r => 0 <= row_total_qty r /\ 0 <= row_unit_price r /\ 0 <= row_total_cost r)
         (build_boq counts templates materials_df qm lm).
Proof.
  intros Hq Hl Hdf Hc Ht.
  pose proof (scale_catalog_nonneg qm lm materials_df Hq Hl Hdf) as Hmat.
  set (mat := scale_catalog qm lm materials_df) in *.
  assert (Hmap : Forall (fun kv => 0 <= snd kv)
                   (apply_contribs (item_lookup (map mat_item materials_df))
                      (fixture_contribs counts templates)
                      (seed_qty_map mat (total_area counts templates)))).
  { apply apply_contribs_nonneg.
    - apply Forall_forall. intros c Hin.
      apply Qlt_le_weak. eapply fixture_contribs_positive. exact Hin.
    - apply seed_qty_map_nonneg; [now apply total_area_nonneg|].
      eapply Forall_impl; [|exact Hmat]. now intros r [_ H]. }
  apply Forall_forall. intros b Hb. apply in_build_boq in Hb.
  destruct Hb as (kv & Hkv & K).
  destruct (keyed_row_fields _ _ K) as (E1 & E2 & E3). rewrite E1, E2, E3.
  apply make_row_nonneg; [exact Hmat|]. rewrite Forall_forall in Hmap. now apply Hmap.
Qed.


(** X21.  With a catalog whose prices and consumption rates are not
    negative, multipliers, room counts and template areas that are not
    negative, no quantity, unit price or cost of the BOQ is negative, and
    so neither the base total nor any phase total is. *)
Theorem boq_nonnegative (counts : PyDict.dict Z) (templates : PyDict.dict room_template)
    (materials_df : list material) (quality_multiplier location_multiplier : Q) :
  0 <= quality_multiplier -> 0 <= location_multiplier ->
  Forall (fun m => cell_nonneg (mat_price m) /\
                   cell_nonneg (mat_consumption_per_m2 m)) materials_df ->
  Forall (fun rc => (0 <= snd rc)%Z) counts ->
  Forall (fun t => 0 <= area_m2 (snd t)) templates ->
  Forall (fun r => 0 <= row_total_qty r /\ 0 <= row_unit_price r /\ 0 <= row_total_cost r)
    (build_boq counts templates materials_df quality_multiplier location_multiplier) /\
  0 <= base_total
         (build_boq counts templates materials_df quality_multiplier location_multiplier) /\
  (forall ph,
     0 <= get_default
            (phase_totals
               (build_boq counts templates materials_df quality_multiplier
                  location_multiplier)) ph 0).
Proof.
  intros Hq Hl Hdf Hc Ht.
  pose proof (boq_nonneg_rows counts templates materials_df
                quality_multiplier location_multiplier Hq Hl Hdf Hc Ht) as H.
  set (boq := build_boq counts templates materials_df
                quality_multiplier location_multiplier) in *.
  split; [exact H|]. split.
  - rewrite base_total_sum. apply Qsum_nonneg.
    apply Forall_forall. intros x Hx. apply in_map_iff in Hx.
    destruct Hx as (r & <- & Hr). rewrite Forall_forall in H. now apply H.
  - intros ph. destruct (phase_totals_facts boq) as (_ & _ & Hv & _).
    rewrite Hv. unfold phase_cost. apply Qsum_nonneg.
    apply Forall_forall. intros x Hx. apply in_map_iff in Hx.
    destruct Hx as (r & <- & Hr). apply filter_In in Hr.
    rewrite Forall_forall in H. now apply H.
Qed.

End Estimator.

(* ================================================================== *)
(** * The resolver and the builder on ASCII names

    What is proved above holds for every [lower], and so for
    [str.lower].  On names made of ASCII characters [str.lower] is
    [ascii_lower]; the statements below are evaluated on such names. *)

(** [ascii_lower] has the two properties of [str.lower] that are used as
    hypotheses above. *)
Lemma ascii_lower_empty : ascii_lower "" = "".
Proof. reflexivity. Qed.

Lemma ascii_lower_user_label (fk : string) :
  contains (ascii_lower fk) (ascii_lower (user_label fk)) = true.
Proof. unfold user_label. now rewrite ascii_lower_app, contains_app. Qed.

Example resolve_alias :
  resolve ascii_lower ["Paint (ltr)"; "Internal door (each)"] "Internal door"
  = Some "Internal door (each)".
Proof. reflexivity. Qed.

Example resolve_exact :
  resolve ascii_lower ["Paint (ltr)"; "GATE (each)"] "Gate (EACH)" = Some "GATE (each)".
Proof. reflexivity. Qed.

Example resolve_substring :
  resolve ascii_lower ["Paint (ltr)"; "Roof nails (kg)"; "Nails / screws (kg)"] "nails"
  = Some "Roof nails (kg)".
Proof. reflexivity. Qed.

Example resolve_none :
  resolve ascii_lower ["Paint (ltr)"] "Jacuzzi" = None.
Proof. reflexivity. Qed.

Lemma resolve_priority_witness :
  resolve ascii_lower ["Paint (ltr)"; "Roof nails (kg)"; "Nails / screws (kg)"] "nails"
  = resolve_spec ascii_lower
      ["Paint (ltr)"; "Roof nails (kg)"; "Nails / screws (kg)"] "nails".
Proof.
  apply (proj2 (resolve_priority ascii_lower _ "nails")). simpl.
  repeat constructor; simpl; intuition discriminate.
Defined.

(** C1 as stated fails: with two catalog items that differ only in case,
    the item returned for a substring match is not the first catalog item
    containing the label. *)
Lemma resolve_not_first_item :
  PyDict.get FIXTURE_ITEM_MAP "door" = None /\
  find (fun c => String.eqb (ascii_lower c) (ascii_lower "door")) ["Door A"; "DOOR A"]
    = None /\
  find (fun c => contains (ascii_lower "door") (ascii_lower c)) ["Door A"; "DOOR A"]
    = Some "Door A" /\
  resolve ascii_lower ["Door A"; "DOOR A"] "door" = Some "DOOR A" /\
  resolve ascii_lower ["Door A"; "DOOR A"] "door"
    <> resolve_spec ascii_lower ["Door A"; "DOOR A"] "door".
Proof. repeat split; try reflexivity. discriminate. Qed.

Lemma resolve_none_iff_witness :
  resolve ascii_lower ["Paint (ltr)"] "Internal door" = None.
Proof.
  apply (proj2 (resolve_none_iff ascii_lower ["Paint (ltr)"] "Internal door")). split.
  - intros c [<-|[]]. reflexivity.
  - intros a Ha c [<-|[]]. injection Ha as <-. discriminate.
Defined.

Lemma resolve_sound_witness :
  In "Roof nails (kg)" ["Paint (ltr)"; "Roof nails (kg)"; "Nails / screws (kg)"] /\
  ((exists a, PyDict.get FIXTURE_ITEM_MAP "nails" = Some a /\
              ascii_lower "Roof nails (kg)" = ascii_lower a) \/
   contains (ascii_lower "nails") (ascii_lower "Roof nails (kg)") = true).
Proof.
  apply (resolve_sound ascii_lower
           ["Paint (ltr)"; "Roof nails (kg)"; "Nails / screws (kg)"]
           "nails" "Roof nails (kg)").
  reflexivity.
Defined.

Lemma resolve_empty_label_witness :
  exists m, resolve ascii_lower ["Paint (ltr)"; "Gate (each)"] "" = Some m /\
            In m ["Paint (ltr)"; "Gate (each)"].
Proof. apply resolve_empty_label; [reflexivity|discriminate]. Defined.

(** The builder on one catalog row, a room of 12 m2 counted once. *)
Example scenario_A :
  map (fun r => (row_item r, Qred (row_total_qty r), Qred (row_total_cost r)))
    (build_boq ascii_lower [("Standard Bedroom", 1%Z)]
       [("Standard Bedroom", {| area_m2 := 12; fixtures := [] |})]
       [ {| mat_item := "Paint (ltr)"; mat_unit := Some "ltr"; mat_price := CNum 40;
            mat_phase := Some "Finishing"; mat_consumption_per_m2 := CNum (8 # 100) |} ]
       1 1)
  = [("Paint (ltr)", Qred (96 # 100), Qred (384 # 10))].
Proof. reflexivity. Qed.

Example phase_totals_first_seen :
  map (fun kv => (fst kv, Qred (snd kv)))
    (phase_totals
       (build_boq ascii_lower [("Garage (1 car)", 1%Z)]
          [("Garage (1 car)", {| area_m2 := 18; fixtures := [("Gate (each)", 1)] |})]
          [ {| mat_item := "Paint (ltr)"; mat_unit := Some "ltr"; mat_price := CNum 40;
               mat_phase := Some "Finishing"; mat_consumption_per_m2 := CNum (8 # 100) |};
            {| mat_item := "Gate (each)"; mat_unit := Some "each"; mat_price := CNum 4000;
               mat_phase := Some "External"; mat_consumption_per_m2 := CNum 0 |} ]
          1 1))
  = [("External", 4000); ("Finishing", Qred (576 # 10))].
Proof. reflexivity. Qed.

(** A catalog row without unit gives no row: of the two catalog items
    only the one with a unit and a phase is in the BOQ. *)
Example blank_unit_row_dropped :
  map row_item
    (build_boq ascii_lower [("Standard Bedroom", 1%Z)]
       [("Standard Bedroom", {| area_m2 := 12; fixtures := [] |})]
       [ {| mat_item := "Paint (ltr)"; mat_unit := None; mat_price := CNum 40;
            mat_phase := Some "Finishing"; mat_consumption_per_m2 := CNum (8 # 100) |};
         {| mat_item := "Gate (each)"; mat_unit := Some "each"; mat_price := CNum 4000;
            mat_phase := Some "External"; mat_consumption_per_m2 := CNum 0 |} ]
       1 1)
  = ["Gate (each)"].
Proof. reflexivity. Qed.

(** An item name that is not a string makes the builder raise, with
    rooms counted or not. *)
Example build_boq_frame_raises :
  build_boq_frame ascii_lower [] []
    [ {| cr_item := None; cr_unit := Some "ltr"; cr_price := CNum 40;
         cr_phase := Some "Finishing"; cr_consumption_per_m2 := CNum (8 # 100) |} ]
    1 1 = None /\
  build_boq_frame ascii_lower [("Verandah", (-1)%Z)]
    [("Verandah", {| area_m2 := 8; fixtures := [] |})]
    [ {| cr_item := Some "Paint (ltr)"; cr_unit := Some "ltr"; cr_price := CNum 40;
         cr_phase := Some "Finishing"; cr_consumption_per_m2 := CNum (8 # 100) |} ]
    1 1 <> None.
Proof. split; [reflexivity|discriminate]. Qed.



Lemma unmatched_fixture_placeholder_witness :
  exists r,
    In r (build_boq ascii_lower [("Spa", 2%Z)]
            [("Spa", {| area_m2 := 6; fixtures := [("Jacuzzi", 1)] |})]
            [ {| mat_item := "Paint (ltr)"; mat_unit := Some "ltr"; mat_price := CNum 40;
                 mat_phase := Some "Finishing";
                 mat_consumption_per_m2 := CNum (8 # 100) |} ]
            1 1) /\
    is_placeholder_row "Jacuzzi"
      (contrib_sum "Jacuzzi"
         (fixture_contribs [("Spa", 2%Z)]
            [("Spa", {| area_m2 := 6; fixtures := [("Jacuzzi", 1)] |})])) r /\
    (forall r',
       In r' (build_boq ascii_lower [("Spa", 2%Z)]
                [("Spa", {| area_m2 := 6; fixtures := [("Jacuzzi", 1)] |})]
                [ {| mat_item := "Paint (ltr)"; mat_unit := Some "ltr";
                     mat_price := CNum 40; mat_phase := Some "Finishing";
                     mat_consumption_per_m2 := CNum (8 # 100) |} ]
                1 1) ->
       row_item r' = user_label "Jacuzzi" -> r' = r).
Proof.
  apply (unmatched_fixture_placeholder ascii_lower _ _ _ 1 1 "Spa" 2 "Jacuzzi" 1).
  - left. reflexivity.
  - lia.
  - left. reflexivity.
  - reflexivity.
  - reflexivity.
  - reflexivity.
Defined.

(** C9 as stated fails: an unmatched fixture label whose quantity in the
    template is 0 gets no placeholder row. *)
Lemma unmatched_zero_fixture_no_row :
  resolve ascii_lower ["Paint (ltr)"] "Jacuzzi" = None /\
  map row_item
    (build_boq ascii_lower [("Spa", 1%Z)]
       [("Spa", {| area_m2 := 6; fixtures := [("Jacuzzi", 0)] |})]
       [ {| mat_item := "Paint (ltr)"; mat_unit := Some "ltr"; mat_price := CNum 40;
            mat_phase := Some "Finishing"; mat_consumption_per_m2 := CNum (8 # 100) |} ]
       1 1) = ["Paint (ltr)"] /\
  ~ exists r,
      In r (build_boq ascii_lower [("Spa", 1%Z)]
              [("Spa", {| area_m2 := 6; fixtures := [("Jacuzzi", 0)] |})]
              [ {| mat_item := "Paint (ltr)"; mat_unit := Some "ltr"; mat_price := CNum 40;
                   mat_phase := Some "Finishing";
                   mat_consumption_per_m2 := CNum (8 # 100) |} ]
              1 1) /\
      row_item r = "Jacuzzi (user)".
Proof.
  split; [reflexivity|]. split; [reflexivity|].
  intros (r & [<-|[]] & E). discriminate E.
Qed.

Lemma catalog_item_has_row_witness :
  exists first last,
    find (fun x => String.eqb (mat_item x) "Gate (each)")
      [ {| mat_item := "Gate (each)"; mat_unit := Some "each"; mat_price := CNum 4000;
           mat_phase := Some "External"; mat_consumption_per_m2 := CNum 0 |} ]
      = Some first /\
    find (fun x => String.eqb (mat_item x) "Gate (each)")
      (rev [ {| mat_item := "Gate (each)"; mat_unit := Some "each";
                mat_price := CNum 4000; mat_phase := Some "External";
                mat_consumption_per_m2 := CNum 0 |} ])
      = Some last /\
    (forall unit phase,
       mat_unit first = Some unit -> mat_phase first = Some phase ->
       exists r,
         In r (build_boq ascii_lower [("Garage (1 car)", 2%Z)]
                 [("Garage (1 car)",
                   {| area_m2 := 18; fixtures := [("Gate (each)", 1)] |})]
                 [ {| mat_item := "Gate (each)"; mat_unit := Some "each";
                      mat_price := CNum 4000; mat_phase := Some "External";
                      mat_consumption_per_m2 := CNum 0 |} ]
                 1 (11 # 10)) /\
         row_item r = "Gate (each)" /\
         row_unit r = unit /\
         row_phase r = phase /\
         row_unit_price r == to_numeric_fillna (mat_price first) * (11 # 10) /\
         row_total_qty r ==
           target_sum ascii_lower
             (item_lookup ascii_lower
                (map mat_item
                   [ {| mat_item := "Gate (each)"; mat_unit := Some "each";
                        mat_price := CNum 4000; mat_phase := Some "External";
                        mat_consumption_per_m2 := CNum 0 |} ]))
             "Gate (each)"
             (to_numeric_fillna (mat_consumption_per_m2 last) * 1
              * total_area [("Garage (1 car)", 2%Z)]
                  [("Garage (1 car)",
                    {| area_m2 := 18; fixtures := [("Gate (each)", 1)] |})])
             (fixture_contribs [("Garage (1 car)", 2%Z)]
                [("Garage (1 car)",
                  {| area_m2 := 18; fixtures := [("Gate (each)", 1)] |})])) /\

    (mat_unit first = None \/ mat_phase first = None ->
     ~ In "Gate (each)"
          (map row_item
             (build_boq ascii_lower [("Garage (1 car)", 2%Z)]
                [("Garage (1 car)",
                  {| area_m2 := 18; fixtures := [("Gate (each)", 1)] |})]
                [ {| mat_item := "Gate (each)"; mat_unit := Some "each";
                     mat_price := CNum 4000; mat_phase := Some "External";
                     mat_consumption_per_m2 := CNum 0 |} ]
                1 (11 # 10)))).
Proof.
  apply (catalog_item_has_row ascii_lower _ _ _ 1 (11 # 10)
           {| mat_item := "Gate (each)"; mat_unit := Some "each"; mat_price := CNum 4000;
              mat_phase := Some "External"; mat_consumption_per_m2 := CNum 0 |}).
  left. reflexivity.
Defined.

Lemma boq_row_origin_witness :
  In "Jacuzzi (user)"
     (map mat_item
        [ {| mat_item := "Paint (ltr)"; mat_unit := Some "ltr"; mat_price := CNum 40;
             mat_phase := Some "Finishing"; mat_consumption_per_m2 := CNum (8 # 100) |} ]) \/
  exists fk amount,
    In (fk, amount)
       (fixture_contribs [("Spa", 2%Z)]
          [("Spa", {| area_m2 := 6; fixtures := [("Jacuzzi", 1)] |})]) /\
    "Jacuzzi (user)" = user_label fk /\ "each" = "each" /\
    0 = 0 /\ "Misc" = "Misc" /\ 2 * 0 == 0.
Proof.
  apply (boq_row_origin ascii_lower [("Spa", 2%Z)]
           [("Spa", {| area_m2 := 6; fixtures := [("Jacuzzi", 1)] |})]
           [ {| mat_item := "Paint (ltr)"; mat_unit := Some "ltr"; mat_price := CNum 40;
                mat_phase := Some "Finishing"; mat_consumption_per_m2 := CNum (8 # 100) |} ]
           1 1
           {| row_item := "Jacuzzi (user)"; row_unit := "each"; row_total_qty := 2;
              row_unit_price := 0; row_total_cost := 2 * 0; row_phase := "Misc" |}).
  left. reflexivity.
Defined.

Lemma location_multiplier_keeps_quantities_witness :
  exists r' price,
    In r' (build_boq ascii_lower [("Spa", 2%Z)]
             [("Spa", {| area_m2 := 6; fixtures := [("Jacuzzi", 1)] |})]
             [ {| mat_item := "Paint (ltr)"; mat_unit := Some "ltr"; mat_price := CNum 40;
                  mat_phase := Some "Finishing"; mat_consumption_per_m2 := CNum (8 # 100) |} ]
             1 (12 # 10)) /\
    row_item r' = "Paint (ltr)" /\ row_unit r' = "ltr" /\
    row_phase r' = "Finishing" /\ row_total_qty r' = 96 # 100 /\
    40 == price * 1 /\ row_unit_price r' == price * (12 # 10).
Proof.
  apply (location_multiplier_keeps_quantities ascii_lower [("Spa", 2%Z)]
           [("Spa", {| area_m2 := 6; fixtures := [("Jacuzzi", 1)] |})]
           [ {| mat_item := "Paint (ltr)"; mat_unit := Some "ltr"; mat_price := CNum 40;
                mat_phase := Some "Finishing"; mat_consumption_per_m2 := CNum (8 # 100) |} ]
           1 1 (12 # 10)
           {| row_item := "Paint (ltr)"; row_unit := "ltr"; row_total_qty := 96 # 100;
              row_unit_price := 40; row_total_cost := 3840 # 100;
              row_phase := "Finishing" |}).
  right. left. reflexivity.
Defined.

Lemma zero_counts_zero_rows_witness :
  Forall (fun r => row_total_qty r == 0 /\ row_total_cost r == 0)
    (build_boq ascii_lower [("Verandah", 0%Z)]
       [("Verandah", {| area_m2 := 8; fixtures := [("Light fixture", 1)] |})]
       [ {| mat_item := "Paint (ltr)"; mat_unit := Some "ltr"; mat_price := CNum 40;
            mat_phase := Some "Finishing"; mat_consumption_per_m2 := CNum (8 # 100) |};
         {| mat_item := "Sand (m3)"; mat_unit := Some "m3"; mat_price := CNum 25;
            mat_phase := None; mat_consumption_per_m2 := CNum (1 # 10) |} ]
       1 1) /\
  (forall k,
     In k (map row_item
             (build_boq ascii_lower [("Verandah", 0%Z)]
                [("Verandah", {| area_m2 := 8; fixtures := [("Light fixture", 1)] |})]
                [ {| mat_item := "Paint (ltr)"; mat_unit := Some "ltr";
                     mat_price := CNum 40; mat_phase := Some "Finishing";
                     mat_consumption_per_m2 := CNum (8 # 100) |};
                  {| mat_item := "Sand (m3)"; mat_unit := Some "m3"; mat_price := CNum 25;
                     mat_phase := None; mat_consumption_per_m2 := CNum (1 # 10) |} ]
                1 1))
     <-> In k (map mat_item
                 [ {| mat_item := "Paint (ltr)"; mat_unit := Some "ltr";
                      mat_price := CNum 40; mat_phase := Some "Finishing";
                      mat_consumption_per_m2 := CNum (8 # 100) |};
                   {| mat_item := "Sand (m3)"; mat_unit := Some "m3";
                      mat_price := CNum 25; mat_phase := None;
                      mat_consumption_per_m2 := CNum (1 # 10) |} ]) /\
         item_dropped
           [ {| mat_item := "Paint (ltr)"; mat_unit := Some "ltr";
                mat_price := CNum 40; mat_phase := Some "Finishing";
                mat_consumption_per_m2 := CNum (8 # 100) |};
             {| mat_item := "Sand (m3)"; mat_unit := Some "m3";
                mat_price := CNum 25; mat_phase := None;
                mat_consumption_per_m2 := CNum (1 # 10) |} ] k = false) /\
  base_total
    (build_boq ascii_lower [("Verandah", 0%Z)]
       [("Verandah", {| area_m2 := 8; fixtures := [("Light fixture", 1)] |})]
       [ {| mat_item := "Paint (ltr)"; mat_unit := Some "ltr"; mat_price := CNum 40;
            mat_phase := Some "Finishing"; mat_consumption_per_m2 := CNum (8 # 100) |};
         {| mat_item := "Sand (m3)"; mat_unit := Some "m3"; mat_price := CNum 25;
            mat_phase := None; mat_consumption_per_m2 := CNum (1 # 10) |} ]
       1 1) == 0.
Proof.
  apply (zero_counts_zero_rows ascii_lower). repeat constructor.
Defined.

Lemma uncounted_room_ignored_witness :
  Forall2 row_equiv
    (build_boq ascii_lower ([("Verandah", 1%Z)] ++ ("Attic", 3%Z) :: [])
       [("Verandah", {| area_m2 := 8; fixtures := [] |})]
       [ {| mat_item := "Paint (ltr)"; mat_unit := Some "ltr"; mat_price := CNum 40;
            mat_phase := Some "Finishing"; mat_consumption_per_m2 := CNum (8 # 100) |} ]
       1 1)
    (build_boq ascii_lower ([("Verandah", 1%Z)] ++ [])
       [("Verandah", {| area_m2 := 8; fixtures := [] |})]
       [ {| mat_item := "Paint (ltr)"; mat_unit := Some "ltr"; mat_price := CNum 40;
            mat_phase := Some "Finishing"; mat_consumption_per_m2 := CNum (8 # 100) |} ]
       1 1).
Proof.
  apply (uncounted_room_ignored ascii_lower). right. reflexivity.
Defined.

Lemma boq_nonnegative_witness :
  Forall (fun r => 0 <= row_total_qty r /\ 0 <= row_unit_price r /\ 0 <= row_total_cost r)
    (build_boq ascii_lower [("Verandah", 2%Z)]
       [("Verandah", {| area_m2 := 8; fixtures := [("Light fixture", 1)] |})]
       [ {| mat_item := "Paint (ltr)"; mat_unit := Some "ltr"; mat_price := CNum 40;
            mat_phase := Some "Finishing"; mat_consumption_per_m2 := CBad |} ]
       1 (11 # 10)) /\
  0 <= base_total
         (build_boq ascii_lower [("Verandah", 2%Z)]
            [("Verandah", {| area_m2 := 8; fixtures := [("Light fixture", 1)] |})]
            [ {| mat_item := "Paint (ltr)"; mat_unit := Some "ltr"; mat_price := CNum 40;
                 mat_phase := Some "Finishing"; mat_consumption_per_m2 := CBad |} ]
            1 (11 # 10)) /\
  (forall ph,
     0 <= get_default
            (phase_totals
               (build_boq ascii_lower [("Verandah", 2%Z)]
                  [("Verandah", {| area_m2 := 8; fixtures := [("Light fixture", 1)] |})]
                  [ {| mat_item := "Paint (ltr)"; mat_unit := Some "ltr";
                       mat_price := CNum 40; mat_phase := Some "Finishing";
                       mat_consumption_per_m2 := CBad |} ]
                  1 (11 # 10))) ph 0).
Proof.
  apply (boq_nonnegative ascii_lower).
  - discriminate.
  - discriminate.
  - repeat constructor. simpl. discriminate.
  - repeat constructor. simpl. lia.
  - repeat constructor. simpl. discriminate.
Defined.
